(** * cv-analytics-webhook-receiver: the signed-webhook pipeline

    A shallow embedding of the Go sources of the webhook receiver
    ([function.go], [internal/handlers], [internal/domain],
    [internal/services], [internal/repositories]) together with the
    properties its specification states about them.

    Layout: models of the libraries the program calls (crypto/sha256,
    crypto/hmac, crypto/subtle, encoding/hex, strings, the Firestore and
    Realtime Database clients, net/http), the repository's own layers in the
    order of [function.go] (domain, service, repository, handler), the
    vocabulary and fixtures the statements use, then the lemmas and
    theorems.  [encoding/json] is not modelled: the decoder is a parameter
    of everything that calls it. *)

From Stdlib Require Import ZArith List String Ascii Lia Bool.
From Stdlib.Strings Require Import Byte.
From stdpp Require Import gmap strings pretty.
Import ListNotations.

(** ** Bytes

    Go's [byte] is [uint8]; a [[]byte] is [list byte].  Arithmetic on bytes
    is done on their value in [Z]. *)

Module Bytes.
Local Open Scope Z_scope.

Definition val (b : byte) : Z := Z.of_N (Byte.to_N b).

(** Truncation to [uint8], as a Go conversion [byte(x)] does. *)
Definition of_Z (z : Z) : byte :=
  match Byte.of_N (Z.to_N (z mod 256)) with
  | Some b => b
  | None => x00
  end.

Definition of_string (s : string) : list byte := list_byte_of_string s.
Definition to_string (l : list byte) : string := string_of_list_byte l.
End Bytes.

(** ** crypto/sha256

    [sha256.Sum256] as FIPS 180-4 defines it: 32-bit words are [Z] taken
    modulo [2^32]. *)

Module Sha256.
Local Open Scope Z_scope.

Definition wrap32 (x : Z) : Z := x mod 2 ^ 32.
Definition add32 (x y : Z) : Z := wrap32 (x + y).
Definition not32 (x : Z) : Z := Z.lxor x 0xffffffff.
Definition rotr (n x : Z) : Z :=
  Z.lor (Z.shiftr x n) (wrap32 (Z.shiftl x (32 - n))).

Definition Ch (x y z : Z) : Z := Z.lxor (Z.land x y) (Z.land (not32 x) z).
Definition Maj (x y z : Z) : Z :=
  Z.lxor (Z.lxor (Z.land x y) (Z.land x z)) (Z.land y z).
Definition bigSigma0 (x : Z) : Z :=
  Z.lxor (Z.lxor (rotr 2 x) (rotr 13 x)) (rotr 22 x).
Definition bigSigma1 (x : Z) : Z :=
  Z.lxor (Z.lxor (rotr 6 x) (rotr 11 x)) (rotr 25 x).
Definition smallSigma0 (x : Z) : Z :=
  Z.lxor (Z.lxor (rotr 7 x) (rotr 18 x)) (Z.shiftr x 3).
Definition smallSigma1 (x : Z) : Z :=
  Z.lxor (Z.lxor (rotr 17 x) (rotr 19 x)) (Z.shiftr x 10).

(** The round constants are the first 32 bits of the fractional parts of
    the cube roots of the first 64 primes; the initial chaining value takes
    the square roots of the first 8.  [root k n bits] is the integer [k]-th
    root of [n], found bit by bit from [2^bits] down. *)
Definition primes64 : list Z :=
  [ 2; 3; 5; 7; 11; 13; 17; 19; 23; 29; 31; 37; 41; 43; 47; 53;
    59; 61; 67; 71; 73; 79; 83; 89; 97; 101; 103; 107; 109; 113; 127; 131;
    137; 139; 149; 151; 157; 163; 167; 173; 179; 181; 191; 193; 197; 199;
    211; 223; 227; 229; 233; 239; 241; 251; 257; 263; 269; 271; 277; 281;
    283; 293; 307; 311 ].

Fixpoint root (k n : Z) (bits : nat) (r : Z) : Z :=
  match bits with
  | O => if (r + 1) ^ k <=? n then r + 1 else r
  | S b =>
      let r' := r + 2 ^ Z.of_nat bits in
      root k n b (if r' ^ k <=? n then r' else r)
  end.

Definition fraction32 (k p : Z) : Z :=
  wrap32 (root k (p * 2 ^ (32 * k)) 40 0).

Definition _K : list Z := Eval vm_compute in map (fraction32 3) primes64.

(** The chaining value: eight 32-bit words. *)
Record chain : Type := Chain {
  h0 : Z; h1 : Z; h2 : Z; h3 : Z; h4 : Z; h5 : Z; h6 : Z; h7 : Z
}.

Definition init : chain :=
  Eval vm_compute in
    Chain (fraction32 2 2) (fraction32 2 3) (fraction32 2 5) (fraction32 2 7)
          (fraction32 2 11) (fraction32 2 13) (fraction32 2 17) (fraction32 2 19).

(** Big-endian encodings. *)
Definition be32 (x : Z) : list Z :=
  [ Z.shiftr x 24 mod 256; Z.shiftr x 16 mod 256;
    Z.shiftr x 8 mod 256; x mod 256 ].
Definition be64 (x : Z) : list Z :=
  be32 (Z.shiftr x 32 mod 2 ^ 32) ++ be32 (x mod 2 ^ 32).

Fixpoint words (n : nat) (bs : list Z) : list Z :=
  match n, bs with
  | S n', b3 :: b2 :: b1 :: b0 :: rest =>
      (b3 * 2 ^ 24 + b2 * 2 ^ 16 + b1 * 2 ^ 8 + b0) :: words n' rest
  | _, _ => []
  end.

(** Padding: a 1 bit, zeros up to 56 mod 64 bytes, the bit length on 64
    bits. *)
Definition pad (msg : list Z) : list Z :=
  let len := Z.of_nat (length msg) in
  msg ++ [0x80] ++ repeat 0 (Z.to_nat ((55 - len) mod 64))
      ++ be64 (8 * len mod 2 ^ 64).

(** The message schedule, most recent word first while it is built. *)
Fixpoint extend (n : nat) (rev_w : list Z) : list Z :=
  match n with
  | O => rev_w
  | S n' =>
      let w := add32 (add32 (add32 (smallSigma1 (nth 1 rev_w 0))
                                   (nth 6 rev_w 0))
                            (smallSigma0 (nth 14 rev_w 0)))
                     (nth 15 rev_w 0) in
      extend n' (w :: rev_w)
  end.

Definition schedule (block : list Z) : list Z :=
  rev (extend 48 (rev (words 16 block))).

Definition round (c : chain) (kw : Z * Z) : chain :=
  let '(k, w) := kw in
  let t1 := add32 (add32 (add32 (add32 (h7 c) (bigSigma1 (h4 c)))
                                (Ch (h4 c) (h5 c) (h6 c))) k) w in
  let t2 := add32 (bigSigma0 (h0 c)) (Maj (h0 c) (h1 c) (h2 c)) in
  Chain (add32 t1 t2) (h0 c) (h1 c) (h2 c)
        (add32 (h3 c) t1) (h4 c) (h5 c) (h6 c).

Definition compress (c : chain) (block : list Z) : chain :=
  let c' := fold_left round (combine _K (schedule block)) c in
  Chain (add32 (h0 c) (h0 c')) (add32 (h1 c) (h1 c'))
        (add32 (h2 c) (h2 c')) (add32 (h3 c) (h3 c'))
        (add32 (h4 c) (h4 c')) (add32 (h5 c) (h5 c'))
        (add32 (h6 c) (h6 c')) (add32 (h7 c) (h7 c')).

Fixpoint blocks (n : nat) (c : chain) (bs : list Z) : chain :=
  match n with
  | O => c
  | S n' => blocks n' (compress c (firstn 64 bs)) (skipn 64 bs)
  end.

Definition output (c : chain) : list Z :=
  be32 (h0 c) ++ be32 (h1 c) ++ be32 (h2 c) ++ be32 (h3 c) ++
  be32 (h4 c) ++ be32 (h5 c) ++ be32 (h6 c) ++ be32 (h7 c).

Definition BlockSize : nat := 64.
Definition Size : nat := 32.

Definition Sum256 (msg : list byte) : list byte :=
  let p := pad (map Bytes.val msg) in
  map Bytes.of_Z (output (blocks (Nat.div (length p) 64) init p)).
End Sha256.

(** ** crypto/hmac

    [hmac.New(sha256.New, key)], [Write] and [Sum(nil)] compute RFC 2104's
    HMAC over SHA-256. *)

Module Hmac.
Local Open Scope Z_scope.

Definition xor_with (c : Z) (bs : list byte) : list byte :=
  map (fun b => Bytes.of_Z (Z.lxor (Bytes.val b) c)) bs.

(** A key longer than the block size is hashed first; the key is then
    padded with zeros to the block size. *)
Definition block_key (key : list byte) : list byte :=
  let k := if (Sha256.BlockSize <? length key)%nat
           then Sha256.Sum256 key else key in
  k ++ repeat x00 (Sha256.BlockSize - length k)%nat.

Definition Sum (key payload : list byte) : list byte :=
  let k := block_key key in
  Sha256.Sum256 (xor_with 0x5c k ++ Sha256.Sum256 (xor_with 0x36 k ++ payload)).

(** [subtle.ConstantTimeByteEq]: [int((uint32(x^y) - 1) >> 31)]. *)
Definition ConstantTimeByteEq (x y : Z) : Z :=
  Z.shiftr ((Z.lxor x y - 1) mod 2 ^ 32) 31.

(** The loop of [subtle.ConstantTimeCompare]: [v |= x[i] ^ y[i]]. *)
Fixpoint accumulate (v : Z) (x y : list byte) : Z :=
  match x, y with
  | a :: x', b :: y' =>
      accumulate (Z.lor v (Z.lxor (Bytes.val a) (Bytes.val b))) x' y'
  | _, _ => v
  end.

Definition ConstantTimeCompare (x y : list byte) : Z :=
  if negb (length x =? length y)%nat then 0
  else ConstantTimeByteEq (accumulate 0 x y) 0.

(** [hmac.Equal]. *)
Definition Equal (mac1 mac2 : list byte) : bool :=
  ConstantTimeCompare mac1 mac2 =? 1.
End Hmac.

(** ** encoding/hex *)

Module Hex.
Local Open Scope Z_scope.

Definition hextable : string := "0123456789abcdef".

Definition digit (n : Z) : ascii :=
  match String.get (Z.to_nat n) hextable with
  | Some c => c
  | None => "0"%char
  end.

(** [hex.EncodeToString]: two digits per byte, high nibble first. *)
Fixpoint EncodeToString (src : list byte) : string :=
  match src with
  | [] => EmptyString
  | b :: rest =>
      String (digit (Z.shiftr (Bytes.val b) 4))
        (String (digit (Z.land (Bytes.val b) 0x0f)) (EncodeToString rest))
  end.
End Hex.

(** ** strings *)

Module Strings.
(** The slice [s[n:]]. *)
Fixpoint from (n : nat) (s : string) : string :=
  match n, s with
  | S n', String _ rest => from n' rest
  | _, _ => s
  end.

(** [strings.HasPrefix]. *)
Definition HasPrefix (s prefix : string) : bool := String.prefix prefix s.

(** [strings.TrimPrefix]: the prefix is removed once, if it is there. *)
Definition TrimPrefix (s prefix : string) : string :=
  if HasPrefix s prefix then from (String.length prefix) s else s.
End Strings.

(** ** Errors and dynamic values

    A Go [error] is modelled by its message; [nil] is [None].
    [fmt.Errorf("...: %w", err)] yields the message with the wrapped
    error's message in place of the verb. *)

Definition error : Type := string.

Definition Errorf_w (prefix : string) (err : error) : error :=
  (prefix ++ err)%string.

(** An [interface{}] value, as far as this program builds them: the fields
    of a stored document, and the arguments of a log call. *)
Inductive Value : Type :=
| VString (s : string)
| VInt (n : Z)
| VNil.

#[global] Instance Value_eq_dec : EqDecision Value.
Proof. solve_decision. Defined.

(** ** Domain layer ([function.go] 55-84, [internal/domain]) *)

Record AnalyticsRecord : Type := {
  RequestID : string;
  Query : string;
  MatchType : string;
  MatchScore : Z;
  Reasoning : string;
  VectorMatches : Z;
  SessionID : string;
  Week : string;
  Timestamp : Z
}.

(** The envelope.  Its [Timestamp] field is named [EnvelopeTimestamp] here,
    since a projection name is global. *)
Record WebhookPayload : Type := {
  EventType : string;
  EnvelopeTimestamp : Z;
  Data : AnalyticsRecord
}.

(** The zero values [var webhookPayload WebhookPayload] starts from. *)
Definition zeroAnalyticsRecord : AnalyticsRecord :=
  {| RequestID := EmptyString; Query := EmptyString; MatchType := EmptyString;
     MatchScore := 0; Reasoning := EmptyString; VectorMatches := 0;
     SessionID := EmptyString; Week := EmptyString; Timestamp := 0 |}.

Definition zeroWebhookPayload : WebhookPayload :=
  {| EventType := EmptyString; EnvelopeTimestamp := 0;
     Data := zeroAnalyticsRecord |}.

(** ** The world the program runs in

    What lies outside the repository is state threaded through every call:
    the wall clock, the Firestore database, the Realtime Database, the
    process-wide token bucket and the standard logger's output.  What the
    environment decides (the time read, whether the backend accepts a
    write, whether the bucket holds a token) is given by an oracle indexed
    by the number of earlier calls. *)

Abbreviation Document := (gmap string Value).

(** [time.Time], as far as [Unix] and [UnixMilli] read it. *)
Record Time : Type := { unixSec : Z; nsec : Z }.

Definition Unix (t : Time) : Z := unixSec t.
Definition UnixMilli (t : Time) : Z := (unixSec t * 1000 + nsec t / 1000000)%Z.

Record CollectionRef : Type := { collectionPath : string }.
Record DocumentRef : Type := { Parent : CollectionRef; ID : string }.

(** One call of [DocumentRef.Set]. *)
Record SetCall : Type := { setRef : DocumentRef; setData : Document }.

Record Env : Type := {
  clockAt : nat -> Time;              (* the n-th [time.Now()] *)
  setErrAt : nat -> option error;     (* error of the n-th [DocumentRef.Set] *)
  pushAt : nat -> error + string;     (* error or new key of the n-th [Ref.Push] *)
  allowAt : nat -> bool               (* answer of the n-th [Limiter.Allow] *)
}.

Record World : Type := {
  env : Env;
  clockReads : nat;
  firestoreDocs : gmap string (gmap string Document);
  setCalls : list SetCall;
  rtdb : gmap string (list (string * Document));
  pushCalls : nat;
  limiterCalls : nat;
  logLines : list string
}.

Definition with_clockReads (n : nat) (w : World) : World :=
  {| env := env w; clockReads := n; firestoreDocs := firestoreDocs w;
     setCalls := setCalls w; rtdb := rtdb w; pushCalls := pushCalls w;
     limiterCalls := limiterCalls w; logLines := logLines w |}.

Definition with_firestoreDocs (d : gmap string (gmap string Document))
    (w : World) : World :=
  {| env := env w; clockReads := clockReads w; firestoreDocs := d;
     setCalls := setCalls w; rtdb := rtdb w; pushCalls := pushCalls w;
     limiterCalls := limiterCalls w; logLines := logLines w |}.

Definition with_setCalls (c : list SetCall) (w : World) : World :=
  {| env := env w; clockReads := clockReads w; firestoreDocs := firestoreDocs w;
     setCalls := c; rtdb := rtdb w; pushCalls := pushCalls w;
     limiterCalls := limiterCalls w; logLines := logLines w |}.

Definition with_rtdb (d : gmap string (list (string * Document)))
    (w : World) : World :=
  {| env := env w; clockReads := clockReads w; firestoreDocs := firestoreDocs w;
     setCalls := setCalls w; rtdb := d; pushCalls := pushCalls w;
     limiterCalls := limiterCalls w; logLines := logLines w |}.

Definition with_pushCalls (n : nat) (w : World) : World :=
  {| env := env w; clockReads := clockReads w; firestoreDocs := firestoreDocs w;
     setCalls := setCalls w; rtdb := rtdb w; pushCalls := n;
     limiterCalls := limiterCalls w; logLines := logLines w |}.

Definition with_limiterCalls (n : nat) (w : World) : World :=
  {| env := env w; clockReads := clockReads w; firestoreDocs := firestoreDocs w;
     setCalls := setCalls w; rtdb := rtdb w; pushCalls := pushCalls w;
     limiterCalls := n; logLines := logLines w |}.

Definition with_logLines (l : list string) (w : World) : World :=
  {| env := env w; clockReads := clockReads w; firestoreDocs := firestoreDocs w;
     setCalls := setCalls w; rtdb := rtdb w; pushCalls := pushCalls w;
     limiterCalls := limiterCalls w; logLines := l |}.

(** A computation in the world. *)
Definition M (A : Type) : Type := World -> A * World.

Definition ret {A : Type} (a : A) : M A := fun w => (a, w).

Definition bind {A B : Type} (m : M A) (k : A -> M B) : M B :=
  fun w => let (a, w') := m w in k a w'.

Declare Scope go_scope.
Delimit Scope go_scope with go.
Notation "x <~ m ;; k" := (bind m (fun x => k))
  (at level 100, m at next level, k at level 200, right associativity,
   only parsing) : go_scope.
Notation "m ;;; k" := (bind m (fun _ => k))
  (at level 100, k at level 200, right associativity, only parsing) : go_scope.
Local Open Scope go_scope.

(** *** time *)

Definition time_Now : M Time :=
  fun w => (clockAt (env w) (clockReads w), with_clockReads (S (clockReads w)) w).

(** *** log and fmt

    [log.Printf] appends one line to the standard logger's output; the
    date and time prefix of the line is left out. *)

Definition log_Printf (line : string) : M unit :=
  fun w => (tt, with_logLines (logLines w ++ [line]) w).

Definition isString (v : Value) : bool :=
  match v with VString _ => true | _ => false end.

(** The [%v] form of a value. *)
Definition formatValue (v : Value) : string :=
  match v with
  | VString s => s
  | VInt n => pretty n
  | VNil => "<nil>"
  end.

(** [fmt.Sprint]: a space between operands when neither is a string. *)
Fixpoint Sprint (args : list Value) : string :=
  match args with
  | [] => EmptyString
  | a :: rest =>
      match rest with
      | [] => formatValue a
      | b :: _ =>
          (formatValue a ++
           (if isString a || isString b then EmptyString else " ") ++
           Sprint rest)%string
      end
  end.

(** *** cloud.google.com/go/firestore

    [Set] without options replaces the whole document at the reference; a
    failed call leaves the database as it was. *)

Definition Collection (path : string) : CollectionRef :=
  {| collectionPath := path |}.

Definition Doc (c : CollectionRef) (id : string) : DocumentRef :=
  {| Parent := c; ID := id |}.

Definition DocumentRef_Set (ref : DocumentRef) (data : Document)
    : M (option error) :=
  fun w =>
    let w1 := with_setCalls (setCalls w ++ [{| setRef := ref; setData := data |}]) w in
    match setErrAt (env w) (length (setCalls w)) with
    | Some e => (Some e, w1)
    | None =>
        let c := collectionPath (Parent ref) in
        let docs := default ∅ (firestoreDocs w !! c) in
        (None, with_firestoreDocs
                 (<[c := <[ID ref := data]> docs]> (firestoreDocs w)) w1)
    end.

(** *** firebase.google.com/go/v4/db

    [Push] adds a child under a key the database generates. *)

Definition Ref_Push (path : string) (data : Document) : M (option error) :=
  fun w =>
    let w1 := with_pushCalls (S (pushCalls w)) w in
    match pushAt (env w) (pushCalls w) with
    | inl e => (Some e, w1)
    | inr key =>
        let children := default [] (rtdb w !! path) in
        (None, with_rtdb (<[path := children ++ [(key, data)]]> (rtdb w)) w1)
    end.

(** *** golang.org/x/time/rate

    The token bucket computes over the wall clock in floating point; its
    answer is the environment's. *)

Definition Limiter_Allow : M bool :=
  fun w => (allowAt (env w) (limiterCalls w),
            with_limiterCalls (S (limiterCalls w)) w).

(** ** Interfaces ([function.go] 73-84, [internal/domain/types.go])

    An interface value is the record of its methods.  The
    [context.Context] argument carries nothing this program reads. *)

Record Logger : Type :=
  { Error : string -> error -> M unit
  ; Info : string -> list Value -> M unit }.

Record SignatureValidator : Type :=
  { Validate : list byte -> string -> M (option error) }.

Record AnalyticsWriter : Type :=
  { Write : AnalyticsRecord -> M (option error) }.

Record WebhookProcessor : Type :=
  { Process : list byte -> string -> M (option error) }.

(** ** Service layer ([function.go] 88-169) *)

(** [SimpleLogger]. *)
Definition SimpleLogger_Error (msg : string) (err : error) : M unit :=
  log_Printf ("[ERROR] " ++ msg ++ ": " ++ err)%string.

Definition SimpleLogger_Info (msg : string) (args : list Value) : M unit :=
  log_Printf ("[INFO] " ++ msg ++ " " ++ Sprint args)%string.

Definition SimpleLogger : Logger :=
  {| Error := SimpleLogger_Error; Info := SimpleLogger_Info |}.

Record HMACValidator : Type := { secret : string }.

Definition NewHMACValidator (s : string) : HMACValidator := {| secret := s |}.

Definition HMACValidator_Validate (v : HMACValidator) (payload : list byte)
    (signature : string) : option error :=
  let expected :=
    Hex.EncodeToString (Hmac.Sum (Bytes.of_string (secret v)) payload) in
  if negb (Hmac.Equal (Bytes.of_string signature) (Bytes.of_string expected))
  then Some "invalid signature"
  else None.

(** [*HMACValidator] as a [SignatureValidator]: the method touches no
    state. *)
Definition HMACValidator_iface (v : HMACValidator) : SignatureValidator :=
  {| Validate := fun payload signature =>
       ret (HMACValidator_Validate v payload signature) |}.

Definition validateAnalyticsRecord (record : AnalyticsRecord) : option error :=
  if String.eqb (RequestID record) EmptyString then Some "requestId is required"
  else if String.eqb (Query record) EmptyString then Some "query is required"
  else if (Timestamp record =? 0)%Z then Some "timestamp is required"
  else None.

Record WebhookService : Type := {
  validator : SignatureValidator;
  writer : AnalyticsWriter;
  logger : Logger
}.

Definition NewWebhookService (v : SignatureValidator) (wr : AnalyticsWriter)
    (l : Logger) : WebhookService :=
  {| validator := v; writer := wr; logger := l |}.

Section Service.
(** [encoding/json]'s decoder, applied to the payload and the zero-valued
    destination: the destination as filled in, and the error. *)
Variable json_Unmarshal :
  list byte -> WebhookPayload -> WebhookPayload * option error.

Definition WebhookService_Process (s : WebhookService) (payload : list byte)
    (signature : string) : M (option error) :=
  verr <~ Validate (validator s) payload signature ;;
  match verr with
  | Some err =>
      Error (logger s) "webhook validation failed" err ;;;
      ret (Some (Errorf_w "webhook validation failed: " err))
  | None =>
      let (webhookPayload, perr) := json_Unmarshal payload zeroWebhookPayload in
      match perr with
      | Some err =>
          Error (logger s) "failed to parse webhook payload" err ;;;
          ret (Some (Errorf_w "failed to parse webhook: " err))
      | None =>
          match validateAnalyticsRecord (Data webhookPayload) with
          | Some err =>
              Error (logger s) "analytics record validation failed" err ;;;
              ret (Some (Errorf_w "invalid analytics record: " err))
          | None =>
              werr <~ Write (writer s) (Data webhookPayload) ;;
              match werr with
              | Some err =>
                  Error (logger s) "failed to write analytics" err ;;;
                  ret (Some (Errorf_w "failed to store analytics: " err))
              | None =>
                  (Info (logger s) "webhook processed successfully"
                     [VString "requestId";
                      VString (RequestID (Data webhookPayload))]) ;;;
                  ret None
              end
          end
      end
  end.

(** [*WebhookService] as a [WebhookProcessor]. *)
Definition WebhookService_iface (s : WebhookService) : WebhookProcessor :=
  {| Process := WebhookService_Process s |}.
End Service.

(** ** Repository layer ([function.go] 173-202,
    [internal/repositories/firestore.go], [internal/repositories/firebase.go]) *)

(** A client is a handle on the database the world holds. *)
Inductive firestore_Client : Type := firestoreClient.
Inductive db_Client : Type := dbClient.

Definition Client_Collection (c : firestore_Client) (path : string)
    : CollectionRef := Collection path.

Definition Client_NewRef (c : db_Client) (path : string) : string := path.

Record FirestoreRepository : Type := { client : firestore_Client }.

Definition NewFirestoreRepository (c : firestore_Client) : FirestoreRepository :=
  {| client := c |}.

(** The map literal both writers build, up to the value of [receivedAt]. *)
Definition recordData (record : AnalyticsRecord) (receivedAt : Z) : Document :=
  list_to_map
    [ ("requestId", VString (RequestID record));
      ("query", VString (Query record));
      ("matchType", VString (MatchType record));
      ("matchScore", VInt (MatchScore record));
      ("reasoning", VString (Reasoning record));
      ("vectorMatches", VInt (VectorMatches record));
      ("sessionId", VString (SessionID record));
      ("week", VString (Week record));
      ("timestamp", VInt (Timestamp record));
      ("receivedAt", VInt receivedAt) ].

Definition FirestoreRepository_Write (r : FirestoreRepository)
    (record : AnalyticsRecord) : M (option error) :=
  let docRef := Doc (Client_Collection (client r) "analytics") (RequestID record) in
  now <~ time_Now ;;
  let data := recordData record (Unix now) in
  serr <~ DocumentRef_Set docRef data ;;
  match serr with
  | Some err => ret (Some (Errorf_w "failed to write analytics to Firestore: " err))
  | None => ret None
  end.

Definition FirestoreRepository_iface (r : FirestoreRepository) : AnalyticsWriter :=
  {| Write := FirestoreRepository_Write r |}.

Record FirebaseRepository : Type := { rtdbClient : db_Client }.

Definition NewFirebaseRepository (c : db_Client) : FirebaseRepository :=
  {| rtdbClient := c |}.

Definition FirebaseRepository_Write (r : FirebaseRepository)
    (record : AnalyticsRecord) : M (option error) :=
  let ref := Client_NewRef (rtdbClient r) "analytics/live" in
  now <~ time_Now ;;
  let data := recordData record (UnixMilli now) in
  perr <~ Ref_Push ref data ;;
  match perr with
  | Some err => ret (Some (Errorf_w "failed to write analytics: " err))
  | None => ret None
  end.

Definition FirebaseRepository_iface (r : FirebaseRepository) : AnalyticsWriter :=
  {| Write := FirebaseRepository_Write r |}.

(** ** net/http *)

Module Http.
Definition MethodPost : string := "POST".
Definition StatusOK : Z := 200.
Definition StatusBadRequest : Z := 400.
Definition StatusUnauthorized : Z := 401.
Definition StatusMethodNotAllowed : Z := 405.
Definition StatusTooManyRequests : Z := 429.

Definition code (c : ascii) : nat := nat_of_ascii c.
Definition isLower (c : ascii) : bool := (97 <=? code c)%nat && (code c <=? 122)%nat.
Definition isUpper (c : ascii) : bool := (65 <=? code c)%nat && (code c <=? 90)%nat.
Definition isDigit (c : ascii) : bool := (48 <=? code c)%nat && (code c <=? 57)%nat.

Fixpoint occurs (c : ascii) (s : string) : bool :=
  match s with
  | EmptyString => false
  | String d rest => Ascii.eqb c d || occurs c rest
  end.

(** A byte of an HTTP token. *)
Definition validHeaderFieldByte (c : ascii) : bool :=
  isLower c || isUpper c || isDigit c || occurs c "!#$%&'*+-.^_`|~".

Fixpoint allValid (s : string) : bool :=
  match s with
  | EmptyString => true
  | String c rest => validHeaderFieldByte c && allValid rest
  end.

Fixpoint canonical (upper : bool) (s : string) : string :=
  match s with
  | EmptyString => EmptyString
  | String c rest =>
      let c' :=
        if upper && isLower c then ascii_of_nat (code c - 32)
        else if negb upper && isUpper c then ascii_of_nat (code c + 32)
        else c in
      String c' (canonical (Ascii.eqb c' "-") rest)
  end.

(** [textproto.CanonicalMIMEHeaderKey]: a key that is not a token is
    returned unchanged. *)
Definition CanonicalMIMEHeaderKey (s : string) : string :=
  if allValid s then canonical true s else s.

Abbreviation Header := (gmap string (list string)).

Definition Header_Get (h : Header) (key : string) : string :=
  match h !! CanonicalMIMEHeaderKey key with
  | Some (v :: _) => v
  | _ => EmptyString
  end.

Definition Header_Set (h : Header) (key value : string) : Header :=
  <[CanonicalMIMEHeaderKey key := [value]]> h.

Definition Header_Del (h : Header) (key : string) : Header :=
  delete (CanonicalMIMEHeaderKey key) h.

(** A request as the handler reads it; [Body] is what
    [io.ReadAll(r.Body)] returns. *)
Record Request : Type := {
  Method : string;
  ReqHeader : Header;
  Body : list byte * option error;
  RemoteAddr : string
}.

Definition io_ReadAll (r : Request) : list byte * option error := Body r.

(** A response writer, with the status code, header map and body a
    recorder shows. *)
Record ResponseWriter : Type := {
  Code : Z;
  HeaderMap : Header;
  BodyString : string;
  wroteHeader : bool
}.

Definition NewRecorder : ResponseWriter :=
  {| Code := 200; HeaderMap := ∅; BodyString := EmptyString;
     wroteHeader := false |}.

Definition SetHeader (key value : string) (w : ResponseWriter) : ResponseWriter :=
  {| Code := Code w; HeaderMap := Header_Set (HeaderMap w) key value;
     BodyString := BodyString w; wroteHeader := wroteHeader w |}.

Definition DelHeader (key : string) (w : ResponseWriter) : ResponseWriter :=
  {| Code := Code w; HeaderMap := Header_Del (HeaderMap w) key;
     BodyString := BodyString w; wroteHeader := wroteHeader w |}.

Definition WriteHeader (c : Z) (w : ResponseWriter) : ResponseWriter :=
  if wroteHeader w then w
  else {| Code := c; HeaderMap := HeaderMap w; BodyString := BodyString w;
          wroteHeader := true |}.

Definition Write (data : string) (w : ResponseWriter) : ResponseWriter :=
  let w' := if wroteHeader w then w else WriteHeader StatusOK w in
  {| Code := Code w'; HeaderMap := HeaderMap w';
     BodyString := (BodyString w' ++ data)%string;
     wroteHeader := wroteHeader w' |}.

Definition newline : string := String "010"%char EmptyString.

(** [http.Error]. *)
Definition Error (w : ResponseWriter) (msg : string) (c : Z) : ResponseWriter :=
  let w1 := DelHeader "Content-Length" w in
  let w2 := SetHeader "Content-Type" "text/plain; charset=utf-8" w1 in
  let w3 := SetHeader "X-Content-Type-Options" "nosniff" w2 in
  let w4 := WriteHeader c w3 in Write (msg ++ newline)%string w4.
End Http.

(** The fixed acknowledgment body: a JSON object with [success] true and
    [status] ok.  The double quotes are character 34. *)
Definition quoted (s : string) : string :=
  String "034"%char (s ++ String "034"%char EmptyString).

Definition ackBody : string :=
  ("{" ++ quoted "success" ++ ":true," ++ quoted "status" ++ ":" ++
   quoted "ok" ++ "}")%string.

(** ** Handler layer of [internal/handlers/webhook.go]

    No rate limiter; the processor is the [WebhookProcessor] interface. *)

Module Handlers.
Record WebhookHandler : Type := {
  processor : WebhookProcessor;
  logger : Logger
}.

Definition NewWebhookHandler (p : WebhookProcessor) (l : Logger)
    : WebhookHandler :=
  {| processor := p; logger := l |}.

Definition ServeHTTP (h : WebhookHandler) (w : Http.ResponseWriter)
    (r : Http.Request) : M Http.ResponseWriter :=
  if negb (String.eqb (Http.Method r) Http.MethodPost) then
    ret (Http.Error w "Method not allowed" Http.StatusMethodNotAllowed)
  else
    let (body, err) := Http.io_ReadAll r in
    match err with
    | Some e =>
        Error (logger h) "failed to read request body" e ;;;
        ret (Http.Error w "Failed to read body" Http.StatusBadRequest)
    | None =>
        let signature := Http.Header_Get (Http.ReqHeader r) "X-Webhook-Signature" in
        if String.eqb signature EmptyString then
          (Info (logger h) "missing webhook signature header" []) ;;;
          ret (Http.Error w "Missing X-Webhook-Signature header" Http.StatusBadRequest)
        else
          perr <~ Process (processor h) body signature ;;
          match perr with
          | Some e =>
              Error (logger h) "failed to process webhook" e ;;;
              ret (Http.Error w "Failed to process webhook" Http.StatusUnauthorized)
          | None =>
              ret (Http.Write ackBody
                     (Http.WriteHeader Http.StatusOK
                        (Http.SetHeader "Content-Type" "application/json" w)))
          end
    end.
End Handlers.

(** ** Handler layer of [function.go] (204-275)

    The rate-limited variant; the processor is the concrete
    [*WebhookService]. *)

Module Function.
(** [RateLimiter] wraps the process-wide [rate.Limiter]; the mutex has no
    effect on a single call. *)
Record RateLimiter : Type := { limit : Z; burst : Z }.

Definition NewRateLimiter (requestsPerSecond burst : Z) : RateLimiter :=
  {| limit := requestsPerSecond; burst := burst |}.

Definition RateLimiter_Allow (rl : RateLimiter) : M bool := Limiter_Allow.

Record WebhookHandler : Type := {
  processor : WebhookService;
  logger : Logger;
  rateLimiter : RateLimiter
}.

Definition NewWebhookHandler (p : WebhookService) (l : Logger)
    (rl : RateLimiter) : WebhookHandler :=
  {| processor := p; logger := l; rateLimiter := rl |}.

Section Handler.
Variable json_Unmarshal :
  list byte -> WebhookPayload -> WebhookPayload * option error.

Definition ServeHTTP (h : WebhookHandler) (w : Http.ResponseWriter)
    (r : Http.Request) : M Http.ResponseWriter :=
  allowed <~ RateLimiter_Allow (rateLimiter h) ;;
  if negb allowed then
    (Info (logger h) "rate limit exceeded" [VString (Http.RemoteAddr r)]) ;;;
    ret (Http.Error (Http.SetHeader "X-RateLimit-Retry-After" "1" w)
           "Rate limit exceeded" Http.StatusTooManyRequests)
  else if negb (String.eqb (Http.Method r) Http.MethodPost) then
    ret (Http.Error w "Method not allowed" Http.StatusMethodNotAllowed)
  else
    let (body, err) := Http.io_ReadAll r in
    match err with
    | Some e =>
        Error (logger h) "failed to read request body" e ;;;
        ret (Http.Error w "Failed to read body" Http.StatusBadRequest)
    | None =>
        let signature := Http.Header_Get (Http.ReqHeader r) "X-Webhook-Signature" in
        if String.eqb signature EmptyString then
          (Info (logger h) "missing webhook signature header" [VNil]) ;;;
          ret (Http.Error w "Missing X-Webhook-Signature header"
                 Http.StatusBadRequest)
        else
          let signature := Strings.TrimPrefix signature "sha256=" in
          perr <~ WebhookService_Process json_Unmarshal (processor h)
                    body signature ;;
          match perr with
          | Some e =>
              Error (logger h) "failed to process webhook" e ;;;
              ret (Http.Error w "Failed to process webhook" Http.StatusUnauthorized)
          | None =>
              ret (Http.Write ackBody
                     (Http.WriteHeader Http.StatusOK
                        (Http.SetHeader "Content-Type" "application/json" w)))
          end
    end.
End Handler.
End Function.

(** ** Handler layer of the single-file variant without rate limiting
    (package [webhook])

    As [function.go] before the limiter and the prefix handling were
    added: the processor is the concrete [*WebhookService]. *)

Module Webhook.
Record WebhookHandler : Type := {
  processor : WebhookService;
  logger : Logger
}.

Definition NewWebhookHandler (p : WebhookService) (l : Logger) : WebhookHandler :=
  {| processor := p; logger := l |}.

Section Handler.
Variable json_Unmarshal :
  list byte -> WebhookPayload -> WebhookPayload * option error.

Definition ServeHTTP (h : WebhookHandler) (w : Http.ResponseWriter)
    (r : Http.Request) : M Http.ResponseWriter :=
  if negb (String.eqb (Http.Method r) Http.MethodPost) then
    ret (Http.Error w "Method not allowed" Http.StatusMethodNotAllowed)
  else
    let (body, err) := Http.io_ReadAll r in
    match err with
    | Some e =>
        Error (logger h) "failed to read request body" e ;;;
        ret (Http.Error w "Failed to read body" Http.StatusBadRequest)
    | None =>
        let signature := Http.Header_Get (Http.ReqHeader r) "X-Webhook-Signature" in
        if String.eqb signature EmptyString then
          (Info (logger h) "missing webhook signature header" [VNil]) ;;;
          ret (Http.Error w "Missing X-Webhook-Signature header"
                 Http.StatusBadRequest)
        else
          perr <~ WebhookService_Process json_Unmarshal (processor h)
                    body signature ;;
          match perr with
          | Some e =>
              Error (logger h) "failed to process webhook" e ;;;
              ret (Http.Error w "Failed to process webhook" Http.StatusUnauthorized)
          | None =>
              ret (Http.Write ackBody
                     (Http.WriteHeader Http.StatusOK
                        (Http.SetHeader "Content-Type" "application/json" w)))
          end
    end.
End Handler.
End Webhook.

(** ** Process start: os, log.Fatalf and the Firebase SDK

    The environment variables are a finite map; [os.Getenv] gives the empty
    string for a variable that is not set.  [log.Fatalf] prints its line and
    ends the process: a start is either [Fatal] or [Ready] with the handler
    the package variable [webhookHandler] then holds.  Whether the Firebase
    SDK hands out its app and its clients is the platform's answer. *)

Abbreviation Environ := (gmap string string).

Definition os_Getenv (environ : Environ) (key : string) : string :=
  default EmptyString (environ !! key).

Inductive Startup (H : Type) : Type :=
| Fatal (line : string)
| Ready (h : H).

Arguments Fatal {H} line.
Arguments Ready {H} h.

Definition log_Fatalf {H : Type} (line : string) : M (Startup H) :=
  bind (log_Printf line) (fun _ => ret (Fatal line)).

Record Platform : Type := {
  newAppErr : option error;       (* error of [firebase.NewApp] *)
  firestoreErr : option error;    (* error of [App.Firestore] *)
  databaseErr : option error      (* error of [App.Database] *)
}.

Definition StatusInternalServerError : Z := 500.

(** ** Configuration and entry point of [function.go] (28-51, 279-324) *)

Module Entry.
Record Config : Type := {
  WebhookSecret : string;
  Environment : string
}.

Definition getEnvOrDefault (environ : Environ) (key defaultValue : string)
    : string :=
  let value := os_Getenv environ key in
  if negb (String.eqb value EmptyString) then value else defaultValue.

Definition loadConfig (environ : Environ) : error + Config :=
  let cfg := {| WebhookSecret := os_Getenv environ "WEBHOOK_SECRET";
                Environment := getEnvOrDefault environ "ENVIRONMENT" "production" |} in
  if String.eqb (WebhookSecret cfg) EmptyString
  then inl "WEBHOOK_SECRET environment variable is required"
  else inr cfg.

Definition initializeHandler (p : Platform) (cfg : Config)
    : M (Startup Function.WebhookHandler) :=
  match newAppErr p with
  | Some err => log_Fatalf ("Failed to initialize Firebase: " ++ err)%string
  | None =>
      match firestoreErr p with
      | Some err => log_Fatalf ("Failed to get Firestore client: " ++ err)%string
      | None =>
          let logger := SimpleLogger in
          let validator := HMACValidator_iface (NewHMACValidator (WebhookSecret cfg)) in
          let writer :=
            FirestoreRepository_iface (NewFirestoreRepository firestoreClient) in
          let webhookService := NewWebhookService validator writer logger in
          let rateLimiter := Function.NewRateLimiter 100 20 in
          let handler :=
            Function.NewWebhookHandler webhookService logger rateLimiter in
          (Info logger "webhook handler initialized"
             [ VString "environment"; VString (Environment cfg);
               VString "database"; VString "firestore";
               VString "rate_limit"; VString "100 req/s" ]) ;;;
          ret (Ready handler)
      end
  end.

Definition init (environ : Environ) (p : Platform)
    : M (Startup Function.WebhookHandler) :=
  match loadConfig environ with
  | inl err => log_Fatalf ("Failed to load config: " ++ err)%string
  | inr cfg => initializeHandler p cfg
  end.

Section EntryPoint.
Variable json_Unmarshal :
  list byte -> WebhookPayload -> WebhookPayload * option error.

(** [webhookHandler] is [None] while the package variable is nil. *)
Definition AnalyticsWebhook (webhookHandler : option Function.WebhookHandler)
    (w : Http.ResponseWriter) (r : Http.Request) : M Http.ResponseWriter :=
  match webhookHandler with
  | None => ret (Http.Error w "Handler not initialized" StatusInternalServerError)
  | Some h => Function.ServeHTTP json_Unmarshal h w r
  end.
End EntryPoint.
End Entry.

(** ** [internal/config/config.go] *)

Module Config.
Record Config : Type := {
  WebhookSecret : string;
  FirebaseProjectID : string;
  FirebaseDatabaseURL : string;
  Port : string;
  Environment : string
}.

Definition getEnvOrDefault (environ : Environ) (key defaultValue : string)
    : string :=
  let value := os_Getenv environ key in
  if negb (String.eqb value EmptyString) then value else defaultValue.

Definition LoadConfig (environ : Environ) : error + Config :=
  let cfg := {| WebhookSecret := os_Getenv environ "WEBHOOK_SECRET";
                FirebaseProjectID := os_Getenv environ "FIREBASE_PROJECT_ID";
                FirebaseDatabaseURL := os_Getenv environ "FIREBASE_DATABASE_URL";
                Port := getEnvOrDefault environ "PORT" "8080";
                Environment := getEnvOrDefault environ "ENVIRONMENT" "development" |} in
  if String.eqb (WebhookSecret cfg) EmptyString
  then inl "WEBHOOK_SECRET environment variable is required"
  else if String.eqb (FirebaseDatabaseURL cfg) EmptyString
  then inl "FIREBASE_DATABASE_URL environment variable is required"
  else inr cfg.
End Config.

(** ** Entry point of the modular variant (package [main])

    [internal/config], the Realtime Database writer and the handler of
    [internal/handlers], assembled once at start. *)

Module Main.
Section EntryPoint.
Variable json_Unmarshal :
  list byte -> WebhookPayload -> WebhookPayload * option error.

Definition initializeHandler (p : Platform) (cfg : Config.Config)
    : M (Startup Handlers.WebhookHandler) :=
  match newAppErr p with
  | Some err => log_Fatalf ("Failed to initialize Firebase: " ++ err)%string
  | None =>
      match databaseErr p with
      | Some err =>
          log_Fatalf ("Failed to get Firebase database client: " ++ err)%string
      | None =>
          let logger := SimpleLogger in
          let validator :=
            HMACValidator_iface (NewHMACValidator (Config.WebhookSecret cfg)) in
          let writer := FirebaseRepository_iface (NewFirebaseRepository dbClient) in
          let webhookService := NewWebhookService validator writer logger in
          let handler :=
            Handlers.NewWebhookHandler
              (WebhookService_iface json_Unmarshal webhookService) logger in
          (Info logger "webhook handler initialized"
             [ VString "environment"; VString (Config.Environment cfg) ]) ;;;
          ret (Ready handler)
      end
  end.

Definition init (environ : Environ) (p : Platform)
    : M (Startup Handlers.WebhookHandler) :=
  match Config.LoadConfig environ with
  | inl err => log_Fatalf ("Failed to load config: " ++ err)%string
  | inr cfg => initializeHandler p cfg
  end.

(** After a start that is [Ready]; a fatal start never serves. *)
Definition AnalyticsWebhook (webhookHandler : Handlers.WebhookHandler)
    (w : Http.ResponseWriter) (r : Http.Request) : M Http.ResponseWriter :=
  Handlers.ServeHTTP webhookHandler w r.
End EntryPoint.
End Main.

(** * Vocabulary of the specification *)

(** The lowercase hexadecimal HMAC-SHA256 of a payload under a secret. *)
Definition hmacHex (K : string) (P : list byte) : string :=
  Hex.EncodeToString (Hmac.Sum (Bytes.of_string K) P).

Arguments Sha256.Sum256 : simpl never.
Arguments Hmac.Sum : simpl never.
Arguments hmacHex : simpl never.

Fixpoint allChars (p : ascii -> bool) (s : string) : bool :=
  match s with
  | EmptyString => true
  | String c rest => p c && allChars p rest
  end.

Definition isLowerHex (c : ascii) : bool := Http.occurs c "0123456789abcdef".

(** A value that fits a [uint8]. *)
Definition fits8 (v : Z) : Prop := (0 <= v /\ Z.shiftr v 8 = 0)%Z.

(** The required fields a record lacks, in the order the checks run. *)
Definition missingFields (r : AnalyticsRecord) : list string :=
  (if String.eqb (RequestID r) EmptyString then ["requestId"] else []) ++
  (if String.eqb (Query r) EmptyString then ["query"] else []) ++
  (if (Timestamp r =? 0)%Z then ["timestamp"] else []).

Arguments recordData : simpl never.

(** The documents of the [analytics] collection. *)
Definition analyticsDocs (w : World) : gmap string Document :=
  default ∅ (firestoreDocs w !! "analytics").

(** The children of [analytics/live], in push order. *)
Definition liveChildren (w : World) : list (string * Document) :=
  default [] (rtdb w !! "analytics/live").

(** Every document is stored under the key its [requestId] field holds. *)
Definition keyedByRequestId (docs : gmap string Document) : Prop :=
  forall (id : string) (doc : Document),
    docs !! id = Some doc -> doc !! "requestId" = Some (VString id).

(** A [Set] call that addresses, in [analytics], the document named by the
    [requestId] field of the data it carries. *)
Definition keyedCall (c : SetCall) : Prop :=
  Parent (setRef c) = Collection "analytics" /\
  setData c !! "requestId" = Some (VString (ID (setRef c))).

(** The ten field names of a stored document. *)
Definition fieldNames : gset string :=
  list_to_set
    [ "requestId"; "query"; "matchType"; "matchScore"; "reasoning";
      "vectorMatches"; "sessionId"; "week"; "timestamp"; "receivedAt" ].

(** The [Set] call [FirestoreRepository.Write] makes for a record when the
    clock reads [t]. *)
Definition writeCall (record : AnalyticsRecord) (t : Time) : SetCall :=
  {| setRef := Doc (Collection "analytics") (RequestID record);
     setData := recordData record (Unix t) |}.

(** Writing the records of a list one after the other; the errors are
    dropped, as a caller that only retries would. *)
Fixpoint writeAll (r : FirestoreRepository) (records : list AnalyticsRecord)
    : M unit :=
  match records with
  | [] => ret tt
  | record :: rest =>
      bind (FirestoreRepository_Write r record) (fun _ => writeAll r rest)
  end.

Arguments HMACValidator_Validate : simpl never.
Arguments validateAnalyticsRecord : simpl never.

(** The service [initializeHandler] assembles in [function.go]: the HMAC
    validator over the configured secret, a writer and a logger. *)
Definition hmacService (K : string) (wr : AnalyticsWriter) (lg : Logger)
    : WebhookService :=
  NewWebhookService (HMACValidator_iface (NewHMACValidator K)) wr lg.

(** The four messages [Process] wraps a failure in. *)
Definition failureKinds : list string :=
  [ "webhook validation failed: "; "failed to parse webhook: ";
    "invalid analytics record: "; "failed to store analytics: " ].

(** ** Fixtures

    A concrete environment, payloads and requests on which the statements
    below are exercised. *)

Definition fixtureEnv (allow : bool) : Env :=
  {| clockAt := fun n => {| unixSec := 1700000100 + Z.of_nat n; nsec := 250000000 |};
     setErrAt := fun _ => None;
     pushAt := fun n =>
       inr (if Nat.eqb n 0 then "-NxK3dQ0aB1cD2eF3gH4" else "-NxK3dQ0aB1cD2eF3gH5");
     allowAt := fun _ => allow |}.

(** The same environment with a backend that refuses every [Set]. *)
Definition unavailableEnv : Env :=
  {| clockAt := clockAt (fixtureEnv true);
     setErrAt := fun _ => Some "rpc error: code = Unavailable";
     pushAt := pushAt (fixtureEnv true);
     allowAt := fun _ => true |}.

(** The fixture environment with the server clock at the epoch. *)
Definition epochEnv : Env :=
  {| clockAt := fun _ => {| unixSec := 0; nsec := 0 |};
     setErrAt := setErrAt (fixtureEnv true);
     pushAt := pushAt (fixtureEnv true);
     allowAt := allowAt (fixtureEnv true) |}.

Definition freshWorld (e : Env) : World :=
  {| env := e; clockReads := 0; firestoreDocs := ∅; setCalls := [];
     rtdb := ∅; pushCalls := 0; limiterCalls := 0; logLines := [] |}.

Definition recordOf (requestId query : string) (timestamp : Z) : AnalyticsRecord :=
  {| RequestID := requestId; Query := query; MatchType := EmptyString;
     MatchScore := 0; Reasoning := EmptyString; VectorMatches := 0;
     SessionID := EmptyString; Week := EmptyString; Timestamp := timestamp |}.

(** The JSON text of an envelope around [recordOf requestId query ts]. *)
Definition bodyOf (requestId query : string) : string :=
  ("{" ++ quoted "eventType" ++ ":" ++ quoted "x" ++ "," ++
   quoted "timestamp" ++ ":1700000000," ++ quoted "data" ++ ":{" ++
   quoted "requestId" ++ ":" ++ quoted requestId ++ "," ++
   quoted "query" ++ ":" ++ quoted query ++ "," ++
   quoted "timestamp" ++ ":1700000000}}")%string.

(** What [json.Unmarshal] returns on the two fixture bodies; every other
    payload is treated as malformed. *)
Definition fixtureUnmarshal (payload : list byte) (dst : WebhookPayload)
    : WebhookPayload * option error :=
  if String.eqb (Bytes.to_string payload) (bodyOf "req_1" "q") then
    ({| EventType := "x"; EnvelopeTimestamp := 1700000000;
        Data := recordOf "req_1" "q" 1700000000 |}, None)
  else if String.eqb (Bytes.to_string payload) (bodyOf EmptyString "q") then
    ({| EventType := "x"; EnvelopeTimestamp := 1700000000;
        Data := recordOf EmptyString "q" 1700000000 |}, None)
  else (dst, Some "invalid character in payload").

Definition fixtureRequest (method : string) (signatures : list string)
    (body : string) : Http.Request :=
  {| Http.Method := method;
     Http.ReqHeader :=
       match signatures with
       | [] => ∅
       | _ => {[ "X-Webhook-Signature" := signatures ]}
       end;
     Http.Body := (Bytes.of_string body, None);
     Http.RemoteAddr := "203.0.113.7:51234" |}.

(** ** The handler's vocabulary *)

(** The value of the signature header, as [ServeHTTP] reads it. *)
Definition signatureHeader (r : Http.Request) : string :=
  Http.Header_Get (Http.ReqHeader r) "X-Webhook-Signature".

(** The world once the limiter has answered. *)
Definition afterAllow (w : World) : World :=
  with_limiterCalls (S (limiterCalls w)) w.

(** The two responses that follow the processor ([function.go] 266-274). *)
Definition unauthorized (w : Http.ResponseWriter) : Http.ResponseWriter :=
  Http.Error w "Failed to process webhook" Http.StatusUnauthorized.

Definition acknowledged (w : Http.ResponseWriter) : Http.ResponseWriter :=
  Http.Write ackBody
    (Http.WriteHeader Http.StatusOK
       (Http.SetHeader "Content-Type" "application/json" w)).

Definition respond (lg : Logger) (w : Http.ResponseWriter)
    (res : option error * World) : Http.ResponseWriter * World :=
  match fst res with
  | Some e => (unauthorized w, snd (Error lg "failed to process webhook" e (snd res)))
  | None => (acknowledged w, snd res)
  end.

(** The response to a request the limiter turns away. *)
Definition limited (w : Http.ResponseWriter) : Http.ResponseWriter :=
  Http.Error (Http.SetHeader "X-RateLimit-Retry-After" "1" w)
    "Rate limit exceeded" Http.StatusTooManyRequests.

Definition methodNotAllowed (w : Http.ResponseWriter) : Http.ResponseWriter :=
  Http.Error w "Method not allowed" Http.StatusMethodNotAllowed.

(** What [Process] does with the validator's answer ([function.go]
    130-156): the signature does not occur in it. *)
Definition afterValidate
    (json_Unmarshal : list byte -> WebhookPayload -> WebhookPayload * option error)
    (s : WebhookService) (payload : list byte) (vres : option error * World)
    : option error * World :=
  match fst vres with
  | Some err =>
      (Some (Errorf_w "webhook validation failed: " err),
       snd (Error (logger s) "webhook validation failed" err (snd vres)))
  | None =>
      let dres := json_Unmarshal payload zeroWebhookPayload in
      match snd dres with
      | Some err =>
          (Some (Errorf_w "failed to parse webhook: " err),
           snd (Error (logger s) "failed to parse webhook payload" err (snd vres)))
      | None =>
          match validateAnalyticsRecord (Data (fst dres)) with
          | Some err =>
              (Some (Errorf_w "invalid analytics record: " err),
               snd (Error (logger s) "analytics record validation failed" err
                      (snd vres)))
          | None =>
              let wres := Write (writer s) (Data (fst dres)) (snd vres) in
              match fst wres with
              | Some err =>
                  (Some (Errorf_w "failed to store analytics: " err),
                   snd (Error (logger s) "failed to write analytics" err (snd wres)))
              | None =>
                  (None,
                   snd (Info (logger s) "webhook processed successfully"
                          [VString "requestId";
                           VString (RequestID (Data (fst dres)))] (snd wres)))
              end
          end
      end
  end.

(** A processor that only records the signature it is given, in the way
    the handler tests' mock records that it was called. *)
Definition recordingProcessor : WebhookProcessor :=
  {| Process := fun _ signature =>
       bind (log_Printf signature) (fun _ => ret None) |}.

(** The handler as [initializeHandler] of [function.go] assembles it. *)
Definition deployedHandler (K : string) (wr : AnalyticsWriter)
    : Function.WebhookHandler :=
  Function.NewWebhookHandler (hmacService K wr SimpleLogger) SimpleLogger
    (Function.NewRateLimiter 100 20).

Definition scenarioHandler : Function.WebhookHandler :=
  deployedHandler "s3cret"
    (FirestoreRepository_iface (NewFirestoreRepository firestoreClient)).

Definition scenarioRun (r : Http.Request) : Http.ResponseWriter * World :=
  Function.ServeHTTP fixtureUnmarshal scenarioHandler Http.NewRecorder r
    (freshWorld (fixtureEnv true)).

(** ** Vocabulary of the further properties *)

Definition isNil {A : Type} (o : option A) : bool :=
  match o with
  | None => true
  | Some _ => false
  end.

(** A writer that leaves the log alone, as both repositories do. *)
Definition quietWriter (wr : AnalyticsWriter) : Prop :=
  forall (record : AnalyticsRecord) (w : World),
    logLines (snd (Write wr record w)) = logLines w.

(** Pushing the records of a list one after the other through the Realtime
    Database writer; the errors are dropped. *)
Fixpoint pushAll (fb : FirebaseRepository) (records : list AnalyticsRecord)
    : M unit :=
  match records with
  | [] => ret tt
  | record :: rest =>
      bind (FirebaseRepository_Write fb record) (fun _ => pushAll fb rest)
  end.

(** A request that gets as far as the processor: a POST whose body was
    read and whose signature header is not empty. *)
Definition wellFormed (r : Http.Request) : bool :=
  String.eqb (Http.Method r) Http.MethodPost &&
  isNil (snd (Http.Body r)) &&
  negb (String.eqb (signatureHeader r) EmptyString).

(** A request the service with secret [K] takes to the writer: well
    formed, signed (with or without the [sha256=] prefix) by the HMAC of
    its body, and decoding to a record with its required fields. *)
Definition authentic
    (json_Unmarshal : list byte -> WebhookPayload -> WebhookPayload * option error)
    (K : string) (r : Http.Request) : bool :=
  wellFormed r &&
  String.eqb (Strings.TrimPrefix (signatureHeader r) "sha256=")
             (hmacHex K (fst (Http.Body r))) &&
  isNil (snd (json_Unmarshal (fst (Http.Body r)) zeroWebhookPayload)) &&
  isNil (validateAnalyticsRecord
           (Data (fst (json_Unmarshal (fst (Http.Body r)) zeroWebhookPayload)))).

(** The record a request carries, as decoded. *)
Definition carried
    (json_Unmarshal : list byte -> WebhookPayload -> WebhookPayload * option error)
    (r : Http.Request) : AnalyticsRecord :=
  Data (fst (json_Unmarshal (fst (Http.Body r)) zeroWebhookPayload)).

Definition badBody (w : Http.ResponseWriter) : Http.ResponseWriter :=
  Http.Error w "Failed to read body" Http.StatusBadRequest.

Definition missingSignature (w : Http.ResponseWriter) : Http.ResponseWriter :=
  Http.Error w "Missing X-Webhook-Signature header" Http.StatusBadRequest.

(** The handler [function.go] deploys, over the Firestore writer. *)
Definition firestoreHandler (K : string) : Function.WebhookHandler :=
  deployedHandler K
    (FirestoreRepository_iface (NewFirestoreRepository firestoreClient)).

(** What a response of these handlers looks like: the status is one of the
    listed ones, the header has been written, the content type is JSON for
    200 and plain text with [nosniff] otherwise. *)
Definition shapedResponse (codes : list Z) (resp : Http.ResponseWriter) : Prop :=
  In (Http.Code resp) codes /\
  Http.wroteHeader resp = true /\
  Http.HeaderMap resp !! "Content-Type" =
    Some [if (Http.Code resp =? 200)%Z then "application/json"
          else "text/plain; charset=utf-8"] /\
  Http.HeaderMap resp !! "X-Content-Type-Options" =
    (if (Http.Code resp =? 200)%Z then None else Some ["nosniff"]).

(** A variable that is set to a value other than the empty string. *)
Definition isSet (environ : Environ) (key : string) : Prop :=
  exists value : string, environ !! key = Some value /\ value <> EmptyString.

(** The handler package [main] assembles: the handler of
    [internal/handlers] over the HMAC service and the Realtime Database
    writer. *)
Definition firebaseHandler
    (json_Unmarshal : list byte -> WebhookPayload -> WebhookPayload * option error)
    (K : string) : Handlers.WebhookHandler :=
  Handlers.NewWebhookHandler
    (WebhookService_iface json_Unmarshal
       (hmacService K (FirebaseRepository_iface (NewFirebaseRepository dbClient))
          SimpleLogger))
    SimpleLogger.

Definition fixtureEnviron : Environ :=
  {[ "WEBHOOK_SECRET" := "s3cret";
     "FIREBASE_DATABASE_URL" := "https://example.firebaseio.com";
     "ENVIRONMENT" := EmptyString ]}.

Definition healthyPlatform : Platform :=
  {| newAppErr := None; firestoreErr := None; databaseErr := None |}.

(** The fixture decoder with another envelope around the same record. *)
Definition relabelledUnmarshal (payload : list byte) (dst : WebhookPayload)
    : WebhookPayload * option error :=
  let res := fixtureUnmarshal payload dst in
  ({| EventType := "analytics_event"; EnvelopeTimestamp := 0;
      Data := Data (fst res) |}, snd res).

(** * Properties *)

Section BytesFacts.
Local Open Scope Z_scope.

Lemma val_range (b : byte) : 0 <= Bytes.val b < 256.
Proof.
  unfold Bytes.val. pose proof (Byte.to_N_bounded b) as Hb.
  lia.
Qed.

Lemma val_inj (a b : byte) : Bytes.val a = Bytes.val b -> a = b.
Proof.
  unfold Bytes.val. intros H. apply N2Z.inj in H.
  assert (Hs : Some a = Some b) by (rewrite <- !Byte.of_to_N; now rewrite H).
  congruence.
Qed.

Lemma of_string_inj (s t : string) :
  Bytes.of_string s = Bytes.of_string t -> s = t.
Proof.
  unfold Bytes.of_string. intros H.
  rewrite <- (string_of_list_byte_of_string s), <- (string_of_list_byte_of_string t).
  now rewrite H.
Qed.

Lemma of_string_length (s : string) :
  length (Bytes.of_string s) = String.length s.
Proof.
  unfold Bytes.of_string. induction s as [|c s IH]; simpl; [reflexivity|].
  unfold list_byte_of_string in IH. now rewrite IH.
Qed.
End BytesFacts.

Section Sha256Facts.
Lemma output_length (c : Sha256.chain) : length (Sha256.output c) = 32%nat.
Proof. reflexivity. Qed.

Lemma Sum256_length (msg : list byte) :
  length (Sha256.Sum256 msg) = Sha256.Size.
Proof. unfold Sha256.Sum256. rewrite length_map. apply output_length. Qed.

Lemma Hmac_Sum_length (key payload : list byte) :
  length (Hmac.Sum key payload) = 32%nat.
Proof. unfold Hmac.Sum. apply Sum256_length. Qed.
End Sha256Facts.

Section SubtleFacts.
Local Open Scope Z_scope.

Lemma fits8_range (v : Z) : fits8 v <-> 0 <= v < 256.
Proof.
  unfold fits8. rewrite Z.shiftr_div_pow2 by lia. change (2 ^ 8) with 256.
  split.
  - intros [H0 H]. split; [assumption|].
    apply Z.div_small_iff in H; lia.
  - intros H. split; [lia|]. apply Z.div_small. lia.
Qed.

Lemma fits8_lor (a b : Z) : fits8 a -> fits8 b -> fits8 (Z.lor a b).
Proof.
  intros [Ha Ha'] [Hb Hb']. split.
  - now apply Z.lor_nonneg.
  - rewrite Z.shiftr_lor, Ha', Hb'. reflexivity.
Qed.

Lemma fits8_lxor (a b : Z) : fits8 a -> fits8 b -> fits8 (Z.lxor a b).
Proof.
  intros [Ha Ha'] [Hb Hb']. split.
  - now apply Z.lxor_nonneg.
  - rewrite Z.shiftr_lxor, Ha', Hb'. reflexivity.
Qed.

Lemma fits8_val (b : byte) : fits8 (Bytes.val b).
Proof. apply fits8_range, val_range. Qed.

Lemma accumulate_fits8 (x y : list byte) (v : Z) :
  fits8 v -> fits8 (Hmac.accumulate v x y).
Proof.
  revert y v. induction x as [|a x IH]; intros [|b y] v Hv; simpl; auto.
  apply IH, fits8_lor; [assumption|]. apply fits8_lxor; apply fits8_val.
Qed.

Lemma accumulate_zero (x y : list byte) (v : Z) :
  length x = length y ->
  (Hmac.accumulate v x y = 0 <-> v = 0 /\ x = y).
Proof.
  revert y v. induction x as [|a x IH]; intros [|b y] v Hlen;
    simpl in Hlen; try discriminate; simpl.
  - intuition.
  - injection Hlen as Hlen. rewrite (IH y _ Hlen), Z.lor_eq_0_iff, Z.lxor_eq_0_iff.
    split.
    + intros [[Hv Hab] Hxy]. apply val_inj in Hab. subst. auto.
    + intros [Hv Hxy]. injection Hxy as -> ->. auto.
Qed.

Lemma ConstantTimeByteEq_zero (v : Z) :
  0 <= v < 256 -> (Hmac.ConstantTimeByteEq v 0 = 1 <-> v = 0).
Proof.
  intros Hv. unfold Hmac.ConstantTimeByteEq. rewrite Z.lxor_0_r.
  split.
  - intros H. destruct (Z.eq_dec v 0) as [|Hne]; [assumption|exfalso].
    rewrite Z.mod_small in H by lia.
    rewrite Z.shiftr_div_pow2, Z.div_small in H by lia. discriminate.
  - intros ->. reflexivity.
Qed.

Lemma ConstantTimeCompare_spec (x y : list byte) :
  Hmac.ConstantTimeCompare x y = 1 <-> x = y.
Proof.
  unfold Hmac.ConstantTimeCompare.
  destruct (Nat.eqb_spec (length x) (length y)) as [Hlen|Hlen]; simpl.
  - rewrite ConstantTimeByteEq_zero.
    + rewrite (accumulate_zero x y 0 Hlen). intuition.
    + apply fits8_range, accumulate_fits8. split; reflexivity.
  - split; [discriminate|]. intros ->. contradiction.
Qed.

Lemma Equal_spec (x y : list byte) : Hmac.Equal x y = true <-> x = y.
Proof. unfold Hmac.Equal. rewrite Z.eqb_eq. apply ConstantTimeCompare_spec. Qed.
End SubtleFacts.

Section HexFacts.
Lemma EncodeToString_length (src : list byte) :
  String.length (Hex.EncodeToString src) = (2 * length src)%nat.
Proof. induction src as [|b src IH]; simpl; [reflexivity|]. rewrite IH. lia. Qed.

Lemma EncodeToString_lowercase (src : list byte) :
  allChars isLowerHex (Hex.EncodeToString src) = true.
Proof.
  induction src as [|b src IH]; simpl; [reflexivity|].
  rewrite IH, andb_true_r. destruct b; reflexivity.
Qed.
End HexFacts.

Section StringsFacts.
Lemma append_cons (c : ascii) (p s : string) :
  (String c p ++ s)%string = String c (p ++ s)%string.
Proof. reflexivity. Qed.

Lemma append_empty (s : string) : (EmptyString ++ s)%string = s.
Proof. reflexivity. Qed.

Lemma prefix_app (p s : string) : String.prefix p (p ++ s) = true.
Proof.
  induction p as [|c p IH].
  - rewrite append_empty. now destruct s.
  - rewrite append_cons. simpl.
    destruct (ascii_dec c c) as [_|Hne]; [exact IH|contradiction].
Qed.

Lemma from_app (p s : string) : Strings.from (String.length p) (p ++ s) = s.
Proof.
  induction p as [|c p IH].
  - rewrite append_empty. now destruct s.
  - rewrite append_cons. simpl. exact IH.
Qed.

Lemma TrimPrefix_app (p s : string) : Strings.TrimPrefix (p ++ s) p = s.
Proof.
  unfold Strings.TrimPrefix, Strings.HasPrefix.
  rewrite prefix_app. apply from_app.
Qed.
End StringsFacts.

Section ValidatorFacts.
Lemma hmacHex_length (K : string) (P : list byte) :
  String.length (hmacHex K P) = 64%nat.
Proof.
  unfold hmacHex. now rewrite EncodeToString_length, Hmac_Sum_length.
Qed.

Lemma Validate_unfold (K : string) (P : list byte) (s : string) :
  HMACValidator_Validate (NewHMACValidator K) P s =
    if Hmac.Equal (Bytes.of_string s) (Bytes.of_string (hmacHex K P))
    then None else Some "invalid signature".
Proof.
  unfold HMACValidator_Validate, hmacHex, NewHMACValidator, secret.
  now destruct (Hmac.Equal _ _).
Qed.

Lemma Validate_accepts (K : string) (P : list byte) (s : string) :
  HMACValidator_Validate (NewHMACValidator K) P s = None <-> s = hmacHex K P.
Proof.
  rewrite Validate_unfold.
  destruct (Hmac.Equal _ _) eqn:E.
  - apply Equal_spec, of_string_inj in E. tauto.
  - split; [discriminate|]. intros Heq. exfalso.
    assert (Ht : Hmac.Equal (Bytes.of_string s) (Bytes.of_string (hmacHex K P)) = true)
      by (apply Equal_spec; now rewrite Heq).
    congruence.
Qed.

Lemma Validate_cases (K : string) (P : list byte) (s : string) :
  HMACValidator_Validate (NewHMACValidator K) P s =
    if String.eqb s (hmacHex K P) then None else Some "invalid signature".
Proof.
  destruct (String.eqb_spec s (hmacHex K P)) as [Heq|Hne].
  - now apply Validate_accepts.
  - pose proof (Validate_accepts K P s) as H.
    rewrite Validate_unfold in *.
    destruct (Hmac.Equal _ _); [|reflexivity]. exfalso. now apply Hne, H.
Qed.

Lemma Validate_empty (K : string) (P : list byte) :
  HMACValidator_Validate (NewHMACValidator K) P EmptyString =
    Some "invalid signature".
Proof.
  rewrite Validate_cases.
  destruct (String.eqb_spec EmptyString (hmacHex K P)) as [Heq|_]; [|reflexivity].
  pose proof (hmacHex_length K P) as H. rewrite <- Heq in H. discriminate.
Qed.
End ValidatorFacts.

(** C2. With the shared secret [K], [HMACValidator.Validate(P, s)] returns
    nil exactly when [s] is the lowercase hexadecimal encoding of
    HMAC-SHA256(K, P), a string of 64 characters drawn from [0-9a-f]; for
    every other [s], the empty string included, it returns the error
    [invalid signature]; and the method leaves the world as it found it
    whatever it returns. *)
Theorem HMACValidator_Validate_exact (K : string) (P : list byte) (s : string) :
  (HMACValidator_Validate (NewHMACValidator K) P s = None <-> s = hmacHex K P) /\
  HMACValidator_Validate (NewHMACValidator K) P s =
    (if String.eqb s (hmacHex K P) then None else Some "invalid signature") /\
  HMACValidator_Validate (NewHMACValidator K) P EmptyString =
    Some "invalid signature" /\
  String.length (hmacHex K P) = 64%nat /\
  allChars isLowerHex (hmacHex K P) = true /\
  (forall w : World,
     Validate (HMACValidator_iface (NewHMACValidator K)) P s w =
       (HMACValidator_Validate (NewHMACValidator K) P s, w)).
Proof.
  split; [apply Validate_accepts|].
  split; [apply Validate_cases|].
  split; [apply Validate_empty|].
  split; [apply hmacHex_length|].
  split; [apply EncodeToString_lowercase|].
  intros w. reflexivity.
Qed.

Section RecordFacts.
Lemma validate_cases (r : AnalyticsRecord) :
  validateAnalyticsRecord r =
    match missingFields r with
    | [] => None
    | field :: _ => Some (field ++ " is required")%string
    end.
Proof.
  unfold validateAnalyticsRecord, missingFields.
  destruct (String.eqb (RequestID r) EmptyString); [reflexivity|].
  destruct (String.eqb (Query r) EmptyString); [reflexivity|].
  destruct (Timestamp r =? 0)%Z; reflexivity.
Qed.

Lemma validate_ok (r : AnalyticsRecord) :
  validateAnalyticsRecord r = None <->
  RequestID r <> EmptyString /\ Query r <> EmptyString /\ Timestamp r <> 0%Z.
Proof.
  unfold validateAnalyticsRecord.
  destruct (String.eqb_spec (RequestID r) EmptyString);
    [split; [discriminate|tauto]|].
  destruct (String.eqb_spec (Query r) EmptyString);
    [split; [discriminate|tauto]|].
  destruct (Z.eqb_spec (Timestamp r) 0); [split; [discriminate|tauto]|].
  tauto.
Qed.
End RecordFacts.

(** C8. [validateAnalyticsRecord] reports the first failing check in the
    order requestId, query, timestamp: the error names the first field of
    that order that is missing, whatever the later fields hold, and a record
    passing all three checks yields no error. *)
Theorem validateAnalyticsRecord_first_failure (r : AnalyticsRecord) :
  validateAnalyticsRecord r =
    match missingFields r with
    | [] => None
    | field :: _ => Some (field ++ " is required")%string
    end /\
  (validateAnalyticsRecord r = Some "requestId is required" <->
     RequestID r = EmptyString) /\
  (validateAnalyticsRecord r = Some "query is required" <->
     RequestID r <> EmptyString /\ Query r = EmptyString) /\
  (validateAnalyticsRecord r = Some "timestamp is required" <->
     RequestID r <> EmptyString /\ Query r <> EmptyString /\ Timestamp r = 0%Z) /\
  (validateAnalyticsRecord r = None <->
     RequestID r <> EmptyString /\ Query r <> EmptyString /\ Timestamp r <> 0%Z).
Proof.
  split; [apply validate_cases|].
  unfold validateAnalyticsRecord.
  destruct (String.eqb_spec (RequestID r) EmptyString) as [H1|H1].
  { repeat split; intros; try discriminate; try tauto. }
  destruct (String.eqb_spec (Query r) EmptyString) as [H2|H2].
  { repeat split; intros; try discriminate; try tauto. }
  destruct (Z.eqb_spec (Timestamp r) 0) as [H3|H3];
    repeat split; intros; try discriminate; try tauto.
Qed.

Section RepositoryFacts.
Lemma recordData_fields (r : AnalyticsRecord) (t : Z) :
  recordData r t !! "requestId" = Some (VString (RequestID r)) /\
  recordData r t !! "query" = Some (VString (Query r)) /\
  recordData r t !! "matchType" = Some (VString (MatchType r)) /\
  recordData r t !! "matchScore" = Some (VInt (MatchScore r)) /\
  recordData r t !! "reasoning" = Some (VString (Reasoning r)) /\
  recordData r t !! "vectorMatches" = Some (VInt (VectorMatches r)) /\
  recordData r t !! "sessionId" = Some (VString (SessionID r)) /\
  recordData r t !! "week" = Some (VString (Week r)) /\
  recordData r t !! "timestamp" = Some (VInt (Timestamp r)) /\
  recordData r t !! "receivedAt" = Some (VInt t).
Proof. repeat apply conj; vm_compute; reflexivity. Qed.

Lemma recordData_dom (r : AnalyticsRecord) (t : Z) :
  dom (recordData r t) = fieldNames.
Proof. unfold recordData, fieldNames. rewrite dom_list_to_map_L. reflexivity. Qed.

Lemma recordData_requestId (r : AnalyticsRecord) (t : Z) :
  recordData r t !! "requestId" = Some (VString (RequestID r)).
Proof. vm_compute. reflexivity. Qed.

(** One call of [FirestoreRepository.Write], step by step. *)
Lemma Firestore_Write_run (repo : FirestoreRepository) (record : AnalyticsRecord)
    (w : World) :
  FirestoreRepository_Write repo record w =
    let t := clockAt (env w) (clockReads w) in
    let w1 := with_setCalls (setCalls w ++ [writeCall record t])
                (with_clockReads (S (clockReads w)) w) in
    match setErrAt (env w) (length (setCalls w)) with
    | Some e => (Some (Errorf_w "failed to write analytics to Firestore: " e), w1)
    | None =>
        (None,
         with_firestoreDocs
           (<["analytics" := <[RequestID record := recordData record (Unix t)]>
                               (analyticsDocs w)]> (firestoreDocs w)) w1)
    end.
Proof.
  unfold FirestoreRepository_Write, bind, time_Now, DocumentRef_Set, ret.
  simpl. destruct (setErrAt (env w) (length (setCalls w))); reflexivity.
Qed.

Lemma Firestore_Write_setCalls (repo : FirestoreRepository)
    (record : AnalyticsRecord) (w : World) :
  setCalls (snd (FirestoreRepository_Write repo record w)) =
    setCalls w ++ [writeCall record (clockAt (env w) (clockReads w))].
Proof.
  rewrite Firestore_Write_run. simpl.
  destruct (setErrAt (env w) (length (setCalls w))); reflexivity.
Qed.

Lemma Firestore_Write_env (repo : FirestoreRepository)
    (record : AnalyticsRecord) (w : World) :
  env (snd (FirestoreRepository_Write repo record w)) = env w /\
  clockReads (snd (FirestoreRepository_Write repo record w)) = S (clockReads w).
Proof.
  rewrite Firestore_Write_run. simpl.
  destruct (setErrAt (env w) (length (setCalls w))); split; reflexivity.
Qed.

Lemma Firestore_Write_docs (repo : FirestoreRepository)
    (record : AnalyticsRecord) (w : World) :
  analyticsDocs (snd (FirestoreRepository_Write repo record w)) =
    match setErrAt (env w) (length (setCalls w)) with
    | Some _ => analyticsDocs w
    | None =>
        <[RequestID record :=
            recordData record (Unix (clockAt (env w) (clockReads w)))]>
          (analyticsDocs w)
    end.
Proof.
  rewrite Firestore_Write_run. simpl.
  destruct (setErrAt (env w) (length (setCalls w))); [reflexivity|].
  unfold analyticsDocs at 1. simpl. now rewrite lookup_insert_eq.
Qed.

Lemma keyedByRequestId_insert (docs : gmap string Document)
    (record : AnalyticsRecord) (t : Z) :
  keyedByRequestId docs ->
  keyedByRequestId (<[RequestID record := recordData record t]> docs).
Proof.
  intros Hinv id doc. rewrite lookup_insert.
  destruct (decide (RequestID record = id)) as [<-|Hne].
  - intros [= <-]. apply recordData_requestId.
  - apply Hinv.
Qed.

Lemma keyedCall_writeCall (record : AnalyticsRecord) (t : Time) :
  keyedCall (writeCall record t).
Proof. split; [reflexivity|]. apply recordData_requestId. Qed.

Lemma Firebase_Write_run (fb : FirebaseRepository) (record : AnalyticsRecord)
    (w : World) :
  FirebaseRepository_Write fb record w =
    let t := clockAt (env w) (clockReads w) in
    let w1 := with_pushCalls (S (pushCalls w))
                (with_clockReads (S (clockReads w)) w) in
    match pushAt (env w) (pushCalls w) with
    | inl e => (Some (Errorf_w "failed to write analytics: " e), w1)
    | inr key =>
        (None,
         with_rtdb
           (<["analytics/live" :=
                liveChildren w ++ [(key, recordData record (UnixMilli t))]]>
              (rtdb w)) w1)
    end.
Proof.
  unfold FirebaseRepository_Write, bind, time_Now, Ref_Push, ret.
  simpl. destruct (pushAt (env w) (pushCalls w)); reflexivity.
Qed.
End RepositoryFacts.

Section ProcessFacts.
Variable json_Unmarshal :
  list byte -> WebhookPayload -> WebhookPayload * option error.

(** [Process] is the validator's call followed by [afterValidate]. *)
Lemma Process_run (s : WebhookService) (payload : list byte) (signature : string)
    (w : World) :
  WebhookService_Process json_Unmarshal s payload signature w =
    afterValidate json_Unmarshal s payload
      (Validate (validator s) payload signature w).
Proof.
  unfold WebhookService_Process, afterValidate, bind, ret. cbv zeta.
  destruct (Validate (validator s) payload signature w) as [[verr|] w1]; simpl.
  { now destruct (Error (logger s) _ verr w1). }
  destruct (json_Unmarshal payload zeroWebhookPayload) as [wp [perr|]]; simpl.
  { now destruct (Error (logger s) _ perr w1). }
  destruct (validateAnalyticsRecord (Data wp)) as [rerr|].
  { now destruct (Error (logger s) _ rerr w1). }
  destruct (Write (writer s) (Data wp) w1) as [[werr|] w2]; simpl.
  { now destruct (Error (logger s) _ werr w2). }
  now destruct (Info (logger s) _ _ w2).
Qed.

Lemma hmac_Validate_signed (K : string) (wr : AnalyticsWriter) (lg : Logger)
    (payload : list byte) (w : World) :
  Validate (validator (hmacService K wr lg)) payload (hmacHex K payload) w =
    (None, w).
Proof.
  simpl. unfold ret. rewrite Validate_cases, String.eqb_refl. reflexivity.
Qed.


(** Every error of [Process] is one of the four kinds. *)
Lemma Process_failure_kinds (s : WebhookService) (payload : list byte)
    (signature : string) (w : World) (e : error) :
  fst (WebhookService_Process json_Unmarshal s payload signature w) = Some e ->
  exists (kind : string) (cause : error),
    In kind failureKinds /\ e = Errorf_w kind cause.
Proof.
  rewrite Process_run. unfold afterValidate. cbv zeta.
  destruct (fst (Validate (validator s) payload signature w)) as [verr|].
  { intros [= <-]. exists "webhook validation failed: ", verr. simpl. auto. }
  destruct (snd (json_Unmarshal payload zeroWebhookPayload)) as [perr|].
  { intros [= <-]. exists "failed to parse webhook: ", perr. simpl. auto. }
  destruct (validateAnalyticsRecord _) as [rerr|].
  { intros [= <-]. exists "invalid analytics record: ", rerr. simpl. auto. }
  destruct (fst (Write (writer s) _ _)) as [werr|].
  { intros [= <-]. exists "failed to store analytics: ", werr. simpl. auto 6. }
  discriminate.
Qed.
End ProcessFacts.

(** C3. A correctly signed payload whose embedded record lacks [requestId],
    lacks [query] or has [timestamp] 0 makes [WebhookService.Process] return
    an error, and the writer's [Write] is not invoked: whatever the writer
    and the logger are, the outcome is the validation error and the world
    the logger's one [Error] call leaves, so no writer can have run; with
    the standard logger, the [Set] calls, the Firestore documents, the
    pushes and the Realtime Database are as before. *)
Theorem Process_invalid_record_no_write
    (json_Unmarshal : list byte -> WebhookPayload -> WebhookPayload * option error)
    (K : string) (wr : AnalyticsWriter) (lg : Logger)
    (payload : list byte) (wp : WebhookPayload) (w : World) :
  json_Unmarshal payload zeroWebhookPayload = (wp, None) ->
  RequestID (Data wp) = EmptyString \/ Query (Data wp) = EmptyString \/
    Timestamp (Data wp) = 0%Z ->
  exists err : error,
    validateAnalyticsRecord (Data wp) = Some err /\
    WebhookService_Process json_Unmarshal (hmacService K wr lg) payload
        (hmacHex K payload) w =
      (Some (Errorf_w "invalid analytics record: " err),
       snd (Error lg "analytics record validation failed" err w)) /\
    (let w' := snd (WebhookService_Process json_Unmarshal
                      (hmacService K wr SimpleLogger) payload
                      (hmacHex K payload) w) in
     setCalls w' = setCalls w /\ firestoreDocs w' = firestoreDocs w /\
     pushCalls w' = pushCalls w /\ rtdb w' = rtdb w).
Proof.
  intros Hdec Hbad.
  destruct (validateAnalyticsRecord (Data wp)) as [err|] eqn:Hval.
  2:{ apply validate_ok in Hval. tauto. }
  exists err. split; [reflexivity|].
  assert (Hrun : forall lg' : Logger,
    WebhookService_Process json_Unmarshal (hmacService K wr lg') payload
        (hmacHex K payload) w =
      (Some (Errorf_w "invalid analytics record: " err),
       snd (Error lg' "analytics record validation failed" err w))).
  { intros lg'. rewrite Process_run, hmac_Validate_signed.
    unfold afterValidate. cbv zeta. rewrite Hdec. simpl. rewrite Hval. reflexivity. }
  split; [apply Hrun|]. rewrite Hrun. simpl. auto.
Qed.

Lemma Process_invalid_record_no_write_witness :
  exists err : error,
    validateAnalyticsRecord (recordOf EmptyString "q" 1700000000) = Some err /\
    setCalls (snd (WebhookService_Process fixtureUnmarshal
                (hmacService "s3cret"
                   (FirestoreRepository_iface (NewFirestoreRepository firestoreClient))
                   SimpleLogger)
                (Bytes.of_string (bodyOf EmptyString "q"))
                (hmacHex "s3cret" (Bytes.of_string (bodyOf EmptyString "q")))
                (freshWorld (fixtureEnv true)))) = [].
Proof.
  destruct (Process_invalid_record_no_write fixtureUnmarshal "s3cret"
              (FirestoreRepository_iface (NewFirestoreRepository firestoreClient))
              SimpleLogger (Bytes.of_string (bodyOf EmptyString "q"))
              {| EventType := "x"; EnvelopeTimestamp := 1700000000;
                 Data := recordOf EmptyString "q" 1700000000 |}
              (freshWorld (fixtureEnv true)))
    as [err [Hval [_ [Hsets _]]]].
  - vm_compute. reflexivity.
  - left. reflexivity.
  - exists err. split; [exact Hval|exact Hsets].
Defined.

(** C4. A correctly signed, well-formed payload whose record passes
    validation makes [WebhookService.Process], over the Firestore writer,
    perform exactly one storage write: one [Set] call is added, addressed
    to [analytics/<requestId>], and no push.  The document written has
    exactly the ten fields; nine equal the input record's fields and
    [receivedAt] is the Unix time of the one reading of the server clock
    made during the write, so it is zero exactly when that reading is the
    epoch second.  [Process] returns nil exactly when the backend accepts
    the call, and the document is then the one stored under the key. *)
Theorem Process_valid_one_write
    (json_Unmarshal : list byte -> WebhookPayload -> WebhookPayload * option error)
    (K : string) (repo : FirestoreRepository)
    (payload : list byte) (wp : WebhookPayload) (w : World) :
  json_Unmarshal payload zeroWebhookPayload = (wp, None) ->
  RequestID (Data wp) <> EmptyString ->
  Query (Data wp) <> EmptyString ->
  Timestamp (Data wp) <> 0%Z ->
  let out := WebhookService_Process json_Unmarshal
               (hmacService K (FirestoreRepository_iface repo) SimpleLogger)
               payload (hmacHex K payload) w in
  let receivedAt := Unix (clockAt (env w) (clockReads w)) in
  let doc := recordData (Data wp) receivedAt in
  setCalls (snd out) =
    setCalls w ++ [{| setRef := Doc (Collection "analytics") (RequestID (Data wp));
                      setData := doc |}] /\
  pushCalls (snd out) = pushCalls w /\
  dom doc = fieldNames /\
  doc !! "requestId" = Some (VString (RequestID (Data wp))) /\
  doc !! "query" = Some (VString (Query (Data wp))) /\
  doc !! "matchType" = Some (VString (MatchType (Data wp))) /\
  doc !! "matchScore" = Some (VInt (MatchScore (Data wp))) /\
  doc !! "reasoning" = Some (VString (Reasoning (Data wp))) /\
  doc !! "vectorMatches" = Some (VInt (VectorMatches (Data wp))) /\
  doc !! "sessionId" = Some (VString (SessionID (Data wp))) /\
  doc !! "week" = Some (VString (Week (Data wp))) /\
  doc !! "timestamp" = Some (VInt (Timestamp (Data wp))) /\
  doc !! "receivedAt" = Some (VInt receivedAt) /\
  clockReads (snd out) = S (clockReads w) /\
  (doc !! "receivedAt" = Some (VInt 0) <-> receivedAt = 0%Z) /\
  (fst out = None <-> setErrAt (env w) (length (setCalls w)) = None) /\
  (fst out = None -> analyticsDocs (snd out) !! RequestID (Data wp) = Some doc).
Proof.
  intros Hdec Hid Hq Hts out receivedAt doc.
  assert (Hval : validateAnalyticsRecord (Data wp) = None)
    by (apply validate_ok; auto).
  assert (Hout : out =
    match setErrAt (env w) (length (setCalls w)) with
    | Some e =>
        (Some (Errorf_w "failed to store analytics: "
                 (Errorf_w "failed to write analytics to Firestore: " e)),
         snd (SimpleLogger_Error "failed to write analytics"
                (Errorf_w "failed to write analytics to Firestore: " e)
                (snd (FirestoreRepository_Write repo (Data wp) w))))
    | None =>
        (None,
         snd (SimpleLogger_Info "webhook processed successfully"
                [VString "requestId"; VString (RequestID (Data wp))]
                (snd (FirestoreRepository_Write repo (Data wp) w))))
    end).
  { unfold out. rewrite Process_run, hmac_Validate_signed.
    unfold afterValidate. cbv zeta. rewrite Hdec. simpl. rewrite Hval.
    rewrite Firestore_Write_run. cbv zeta.
    destruct (setErrAt (env w) (length (setCalls w))); reflexivity. }
  pose proof (Firestore_Write_setCalls repo (Data wp) w) as Hsets.
  pose proof (Firestore_Write_docs repo (Data wp) w) as Hdocs.
  pose proof (recordData_fields (Data wp) receivedAt) as Hf.
  assert (Hpush : pushCalls (snd (FirestoreRepository_Write repo (Data wp) w)) =
                  pushCalls w).
  { rewrite Firestore_Write_run. cbv zeta.
    destruct (setErrAt (env w) (length (setCalls w))); reflexivity. }
  assert (Hreads : clockReads (snd (FirestoreRepository_Write repo (Data wp) w)) =
                   S (clockReads w)).
  { rewrite Firestore_Write_run. cbv zeta.
    destruct (setErrAt (env w) (length (setCalls w))); reflexivity. }
  split.
  { rewrite Hout. destruct (setErrAt (env w) (length (setCalls w))); exact Hsets. }
  split.
  { rewrite Hout. destruct (setErrAt (env w) (length (setCalls w))); exact Hpush. }
  split; [apply recordData_dom|].
  repeat (split; [apply Hf|]).
  split.
  { rewrite Hout. destruct (setErrAt (env w) (length (setCalls w))); exact Hreads. }
  split.
  { destruct Hf as (_&_&_&_&_&_&_&_&_&Hr). unfold doc. rewrite Hr.
    split; [intros [= H]; exact H|intros ->; reflexivity]. }
  split.
  { rewrite Hout. destruct (setErrAt (env w) (length (setCalls w)));
      simpl; split; intros; congruence. }
  rewrite Hout. destruct (setErrAt (env w) (length (setCalls w))) eqn:Herr;
    [discriminate|]. intros _.
  change (analyticsDocs (snd (FirestoreRepository_Write repo (Data wp) w))
            !! RequestID (Data wp) = Some doc).
  rewrite Hdocs. apply lookup_insert_eq.
Qed.

Lemma Process_valid_one_write_witness :
  length (setCalls (snd (WebhookService_Process fixtureUnmarshal
            (hmacService "s3cret"
               (FirestoreRepository_iface (NewFirestoreRepository firestoreClient))
               SimpleLogger)
            (Bytes.of_string (bodyOf "req_1" "q"))
            (hmacHex "s3cret" (Bytes.of_string (bodyOf "req_1" "q")))
            (freshWorld (fixtureEnv true))))) = 1%nat.
Proof.
  destruct (Process_valid_one_write fixtureUnmarshal "s3cret"
              (NewFirestoreRepository firestoreClient)
              (Bytes.of_string (bodyOf "req_1" "q"))
              {| EventType := "x"; EnvelopeTimestamp := 1700000000;
                 Data := recordOf "req_1" "q" 1700000000 |}
              (freshWorld (fixtureEnv true)))
    as [Hsets _].
  - vm_compute. reflexivity.
  - discriminate.
  - discriminate.
  - discriminate.
  - rewrite Hsets. reflexivity.
Defined.

(** C4 fails as stated when the server clock reads the epoch: a valid,
    correctly signed payload is processed without error, one [Set] call is
    made, and the document written and stored carries [receivedAt] zero. *)
Lemma Process_at_epoch_receivedAt_zero :
  let payload := Bytes.of_string (bodyOf "req_1" "q") in
  let out := WebhookService_Process fixtureUnmarshal
               (hmacService "s3cret"
                  (FirestoreRepository_iface (NewFirestoreRepository firestoreClient))
                  SimpleLogger)
               payload (hmacHex "s3cret" payload) (freshWorld epochEnv) in
  validateAnalyticsRecord (Data (fst (fixtureUnmarshal payload zeroWebhookPayload)))
    = None /\
  fst out = None /\
  map (fun call => setData call !! "receivedAt") (setCalls (snd out)) =
    [Some (VInt 0)] /\
  match analyticsDocs (snd out) !! "req_1" with
  | Some doc => doc !! "receivedAt"
  | None => None
  end = Some (VInt 0).
Proof. cbv zeta. repeat apply conj; vm_compute; reflexivity. Qed.

Section InvariantFacts.
Lemma Firestore_Write_other_collections (repo : FirestoreRepository)
    (record : AnalyticsRecord) (w : World) (c : string) :
  c <> "analytics" ->
  firestoreDocs (snd (FirestoreRepository_Write repo record w)) !! c =
    firestoreDocs w !! c.
Proof.
  intros Hc. rewrite Firestore_Write_run. cbv zeta.
  destruct (setErrAt (env w) (length (setCalls w))); simpl; [reflexivity|].
  now rewrite lookup_insert_ne.
Qed.

Lemma Firestore_Write_invariant (repo : FirestoreRepository)
    (record : AnalyticsRecord) (w : World) :
  keyedByRequestId (analyticsDocs w) ->
  keyedByRequestId (analyticsDocs (snd (FirestoreRepository_Write repo record w))).
Proof.
  intros Hinv. rewrite Firestore_Write_docs.
  destruct (setErrAt (env w) (length (setCalls w))); [assumption|].
  now apply keyedByRequestId_insert.
Qed.
End InvariantFacts.

(** C10. The Firestore writer keeps every document of the [analytics]
    collection under the key its [requestId] field holds: if the collection
    has that property, it has it after any sequence of [Write] calls,
    whether the backend accepts each call or not; every [Set] call the
    writer issues addresses [analytics/<id>] with data whose [requestId] is
    that [id]; and no other collection is touched. *)
Theorem Firestore_Write_key_is_requestId
    (repo : FirestoreRepository) (records : list AnalyticsRecord) (w : World) :
  keyedByRequestId (analyticsDocs w) ->
  Forall keyedCall (setCalls w) ->
  let w' := snd (writeAll repo records w) in
  keyedByRequestId (analyticsDocs w') /\
  Forall keyedCall (setCalls w') /\
  (forall c : string, c <> "analytics" ->
     firestoreDocs w' !! c = firestoreDocs w !! c).
Proof.
  revert w. induction records as [|record rest IH]; intros w Hinv Hcalls.
  - simpl. auto.
  - cbv zeta. simpl. unfold bind.
    destruct (FirestoreRepository_Write repo record w) as [e w1] eqn:Hw.
    assert (Hw1 : w1 = snd (FirestoreRepository_Write repo record w))
      by now rewrite Hw.
    destruct (IH w1) as [H1 [H2 H3]].
    + rewrite Hw1. now apply Firestore_Write_invariant.
    + rewrite Hw1, Firestore_Write_setCalls. apply Forall_app. split; [assumption|].
      constructor; [apply keyedCall_writeCall|constructor].
    + split; [exact H1|]. split; [exact H2|].
      intros c Hc. rewrite (H3 c Hc), Hw1.
      now apply Firestore_Write_other_collections.
Qed.

Lemma Firestore_Write_key_is_requestId_witness :
  keyedByRequestId
    (analyticsDocs
       (snd (writeAll (NewFirestoreRepository firestoreClient)
               [recordOf "req_1" "q" 1700000000; recordOf "req_2" "p" 1700000001;
                recordOf "req_1" "again" 1700000002]
               (freshWorld (fixtureEnv true))))).
Proof.
  apply (Firestore_Write_key_is_requestId (NewFirestoreRepository firestoreClient)
           [recordOf "req_1" "q" 1700000000; recordOf "req_2" "p" 1700000001;
            recordOf "req_1" "again" 1700000002]
           (freshWorld (fixtureEnv true))).
  - intros id doc H. vm_compute in H. discriminate.
  - simpl. constructor.
Defined.

Section IdempotenceFacts.
Lemma Firestore_Write_twice_docs (repo : FirestoreRepository)
    (r1 r2 : AnalyticsRecord) (w : World) :
  RequestID r1 = RequestID r2 ->
  setErrAt (env w) (S (length (setCalls w))) = None ->
  analyticsDocs
    (snd (FirestoreRepository_Write repo r2
            (snd (FirestoreRepository_Write repo r1 w)))) =
    <[RequestID r2 := recordData r2 (Unix (clockAt (env w) (S (clockReads w))))]>
      (analyticsDocs w).
Proof.
  intros Hid Hok.
  destruct (Firestore_Write_env repo r1 w) as [Henv Hclk].
  rewrite Firestore_Write_docs, Henv, Hclk, Firestore_Write_setCalls.
  rewrite length_app, Nat.add_1_r, Hok.
  rewrite Firestore_Write_docs.
  destruct (setErrAt (env w) (length (setCalls w))); [reflexivity|].
  rewrite Hid. apply insert_insert_eq.
Qed.

Lemma Firebase_Write_twice_children (fb : FirebaseRepository)
    (r1 r2 : AnalyticsRecord) (w : World) (k1 k2 : string) :
  pushAt (env w) (pushCalls w) = inr k1 ->
  pushAt (env w) (S (pushCalls w)) = inr k2 ->
  liveChildren
    (snd (FirebaseRepository_Write fb r2
            (snd (FirebaseRepository_Write fb r1 w)))) =
    liveChildren w ++
      [ (k1, recordData r1 (UnixMilli (clockAt (env w) (clockReads w))));
        (k2, recordData r2 (UnixMilli (clockAt (env w) (S (clockReads w))))) ].
Proof.
  intros H1 H2.
  rewrite (Firebase_Write_run fb r1 w). cbv zeta. rewrite H1. simpl.
  rewrite Firebase_Write_run. cbv zeta. simpl. rewrite H2. simpl.
  unfold liveChildren at 1. simpl. rewrite lookup_insert_eq. simpl.
  unfold liveChildren at 1. simpl. rewrite lookup_insert_eq. simpl.
  now rewrite <- app_assoc.
Qed.
End IdempotenceFacts.

(** C1, as the code has it.  With the Firestore writer, two [Write] calls
    whose records share a [requestId], the second accepted by the backend,
    leave the [analytics] collection as one [Set] of the second record
    would: the document under the key is the second write's data and nothing
    else (ten fields, none kept from the first write or from an older
    document), it is the only document carrying that [requestId], and every
    other key is as before.  With the Realtime Database writer the same two
    calls add two children under generated keys. *)
Theorem Write_twice_same_requestId
    (repo : FirestoreRepository) (fb : FirebaseRepository)
    (r1 r2 : AnalyticsRecord) (w : World) (k1 k2 : string) :
  RequestID r1 = RequestID r2 ->
  keyedByRequestId (analyticsDocs w) ->
  setErrAt (env w) (S (length (setCalls w))) = None ->
  pushAt (env w) (pushCalls w) = inr k1 ->
  pushAt (env w) (S (pushCalls w)) = inr k2 ->
  let stored := analyticsDocs
                  (snd (FirestoreRepository_Write repo r2
                          (snd (FirestoreRepository_Write repo r1 w)))) in
  let second := recordData r2 (Unix (clockAt (env w) (S (clockReads w)))) in
  stored = <[RequestID r2 := second]> (analyticsDocs w) /\
  stored !! RequestID r2 = Some second /\
  dom second = fieldNames /\
  (forall (id : string) (doc : Document),
     stored !! id = Some doc ->
     doc !! "requestId" = Some (VString (RequestID r2)) ->
     id = RequestID r2 /\ doc = second) /\
  (forall id : string, id <> RequestID r2 -> stored !! id = analyticsDocs w !! id) /\
  liveChildren
    (snd (FirebaseRepository_Write fb r2 (snd (FirebaseRepository_Write fb r1 w)))) =
    liveChildren w ++
      [ (k1, recordData r1 (UnixMilli (clockAt (env w) (clockReads w))));
        (k2, recordData r2 (UnixMilli (clockAt (env w) (S (clockReads w))))) ].
Proof.
  intros Hid Hinv Hok Hk1 Hk2 stored second.
  assert (Hst : stored = <[RequestID r2 := second]> (analyticsDocs w))
    by now apply Firestore_Write_twice_docs.
  split; [exact Hst|].
  split; [rewrite Hst; apply lookup_insert_eq|].
  split; [apply recordData_dom|].
  split.
  { intros id doc Hlook Hfield. rewrite Hst, lookup_insert in Hlook.
    destruct (decide (RequestID r2 = id)) as [<-|Hne].
    - injection Hlook as <-. auto.
    - apply Hinv in Hlook. rewrite Hlook in Hfield. congruence. }
  split.
  { intros id Hne. rewrite Hst. now apply lookup_insert_ne. }
  now apply Firebase_Write_twice_children.
Qed.

Lemma Write_twice_same_requestId_witness :
  analyticsDocs
    (snd (FirestoreRepository_Write (NewFirestoreRepository firestoreClient)
            (recordOf "req_1" "again" 1700000002)
            (snd (FirestoreRepository_Write (NewFirestoreRepository firestoreClient)
                    (recordOf "req_1" "q" 1700000000)
                    (freshWorld (fixtureEnv true))))))
    !! "req_1" =
  Some (recordData (recordOf "req_1" "again" 1700000002) 1700000101).
Proof.
  apply (Write_twice_same_requestId (NewFirestoreRepository firestoreClient)
           (NewFirebaseRepository dbClient)
           (recordOf "req_1" "q" 1700000000) (recordOf "req_1" "again" 1700000002)
           (freshWorld (fixtureEnv true))
           "-NxK3dQ0aB1cD2eF3gH4" "-NxK3dQ0aB1cD2eF3gH5").
  - reflexivity.
  - intros id doc H. vm_compute in H. discriminate.
  - reflexivity.
  - reflexivity.
  - reflexivity.
Defined.

(** C1 fails for one of the two storage writers: two calls of
    [FirebaseRepository.Write] with the same [requestId] leave two
    documents, under two generated keys, neither of them the [requestId]. *)
Lemma Firebase_Write_twice_two_documents :
  liveChildren
    (snd (FirebaseRepository_Write (NewFirebaseRepository dbClient)
            (recordOf "req_1" "again" 1700000002)
            (snd (FirebaseRepository_Write (NewFirebaseRepository dbClient)
                    (recordOf "req_1" "q" 1700000000)
                    (freshWorld (fixtureEnv true)))))) =
    [ ("-NxK3dQ0aB1cD2eF3gH4",
       recordData (recordOf "req_1" "q" 1700000000) 1700000100250);
      ("-NxK3dQ0aB1cD2eF3gH5",
       recordData (recordOf "req_1" "again" 1700000002) 1700000101250) ] /\
  recordData (recordOf "req_1" "q" 1700000000) 1700000100250 !! "requestId" =
    Some (VString "req_1") /\
  recordData (recordOf "req_1" "again" 1700000002) 1700000101250 !! "requestId" =
    Some (VString "req_1").
Proof. split; [reflexivity|]. split; vm_compute; reflexivity. Qed.

Section HandlerFacts.
Variable json_Unmarshal :
  list byte -> WebhookPayload -> WebhookPayload * option error.

Lemma Function_ServeHTTP_limited (h : Function.WebhookHandler)
    (wtr : Http.ResponseWriter) (r : Http.Request) (w : World) :
  allowAt (env w) (limiterCalls w) = false ->
  Function.ServeHTTP json_Unmarshal h wtr r w =
    (limited wtr,
     snd (Info (Function.logger h) "rate limit exceeded"
            [VString (Http.RemoteAddr r)] (afterAllow w))).
Proof.
  intros Hno. unfold Function.ServeHTTP, Function.RateLimiter_Allow,
    Limiter_Allow, bind, ret. rewrite Hno. simpl.
  now destruct (Info (Function.logger h) _ _ _).
Qed.

Lemma Function_ServeHTTP_method (h : Function.WebhookHandler)
    (wtr : Http.ResponseWriter) (r : Http.Request) (w : World) :
  allowAt (env w) (limiterCalls w) = true ->
  Http.Method r <> Http.MethodPost ->
  Function.ServeHTTP json_Unmarshal h wtr r w = (methodNotAllowed wtr, afterAllow w).
Proof.
  intros Hyes Hm. unfold Function.ServeHTTP, Function.RateLimiter_Allow,
    Limiter_Allow, bind, ret. rewrite Hyes. simpl.
  apply String.eqb_neq in Hm. now rewrite Hm.
Qed.

Lemma Function_ServeHTTP_process (h : Function.WebhookHandler)
    (wtr : Http.ResponseWriter) (r : Http.Request) (body : list byte) (w : World) :
  allowAt (env w) (limiterCalls w) = true ->
  Http.Method r = Http.MethodPost ->
  Http.Body r = (body, None) ->
  signatureHeader r <> EmptyString ->
  Function.ServeHTTP json_Unmarshal h wtr r w =
    respond (Function.logger h) wtr
      (WebhookService_Process json_Unmarshal (Function.processor h) body
         (Strings.TrimPrefix (signatureHeader r) "sha256=") (afterAllow w)).
Proof.
  intros Hyes Hm Hb Hs. unfold Function.ServeHTTP, Function.RateLimiter_Allow,
    Limiter_Allow, bind, ret, respond, Http.io_ReadAll. rewrite Hyes, Hm, Hb.
  fold (signatureHeader r). apply String.eqb_neq in Hs. rewrite Hs. simpl.
  fold (afterAllow w).
  destruct (WebhookService_Process _ _ _ _ _) as [[e|] w1]; simpl; [|reflexivity].
  now destruct (Error (Function.logger h) _ e w1).
Qed.

Lemma Handlers_ServeHTTP_process (h : Handlers.WebhookHandler)
    (wtr : Http.ResponseWriter) (r : Http.Request) (body : list byte) (w : World) :
  Http.Method r = Http.MethodPost ->
  Http.Body r = (body, None) ->
  signatureHeader r <> EmptyString ->
  Handlers.ServeHTTP h wtr r w =
    respond (Handlers.logger h) wtr
      (Process (Handlers.processor h) body (signatureHeader r) w).
Proof.
  intros Hm Hb Hs. unfold Handlers.ServeHTTP, bind, ret, respond,
    Http.io_ReadAll. rewrite Hm, Hb.
  fold (signatureHeader r). apply String.eqb_neq in Hs. rewrite Hs. simpl.
  destruct (Process _ _ _ _) as [[e|] w1]; simpl; [|reflexivity].
  now destruct (Error (Handlers.logger h) _ e w1).
Qed.

Lemma respond_status (lg : Logger) (wtr : Http.ResponseWriter)
    (res : option error * World) :
  fst (respond lg wtr res) =
    match fst res with
    | Some _ => unauthorized wtr
    | None => acknowledged wtr
    end.
Proof. unfold respond. now destruct (fst res). Qed.
End HandlerFacts.

(** C5. For a request that reaches the processor (a POST the limiter
    lets through, whose body is read and whose signature header is present), both
    handlers answer by the processor's result alone: any error gives the one
    [unauthorized] response, status 401, and nil gives status 200 with the
    fixed acknowledgment body.  Every error of [WebhookService.Process] is
    of one of the four kinds (authentication, parse, validation, storage),
    and the response does not depend on which. *)
Theorem ServeHTTP_processor_error_is_401
    (json_Unmarshal : list byte -> WebhookPayload -> WebhookPayload * option error)
    (hf : Function.WebhookHandler) (hh : Handlers.WebhookHandler)
    (r : Http.Request) (body : list byte) (w : World) :
  Http.Method r = "POST" ->
  Http.Body r = (body, None) ->
  signatureHeader r <> EmptyString ->
  allowAt (env w) (limiterCalls w) = true ->
  let resF := WebhookService_Process json_Unmarshal (Function.processor hf) body
                (Strings.TrimPrefix (signatureHeader r) "sha256=") (afterAllow w) in
  let resH := Process (Handlers.processor hh) body (signatureHeader r) w in
  fst (Function.ServeHTTP json_Unmarshal hf Http.NewRecorder r w) =
    match fst resF with
    | Some _ => unauthorized Http.NewRecorder
    | None => acknowledged Http.NewRecorder
    end /\
  fst (Handlers.ServeHTTP hh Http.NewRecorder r w) =
    match fst resH with
    | Some _ => unauthorized Http.NewRecorder
    | None => acknowledged Http.NewRecorder
    end /\
  Http.Code (unauthorized Http.NewRecorder) = 401%Z /\
  Http.Code (acknowledged Http.NewRecorder) = 200%Z /\
  Http.BodyString (acknowledged Http.NewRecorder) = ackBody /\
  Hex.EncodeToString (Bytes.of_string ackBody) =
    "7b2273756363657373223a747275652c22737461747573223a226f6b227d" /\
  (forall e : error, fst resF = Some e ->
     exists (kind : string) (cause : error),
       In kind failureKinds /\ e = Errorf_w kind cause).
Proof.
  intros Hm Hb Hs Hyes resF resH.
  split.
  { rewrite (Function_ServeHTTP_process json_Unmarshal hf _ r body w Hyes Hm Hb Hs).
    apply respond_status. }
  split.
  { rewrite (Handlers_ServeHTTP_process hh _ r body w Hm Hb Hs).
    apply respond_status. }
  split; [reflexivity|]. split; [reflexivity|]. split; [reflexivity|].
  split; [vm_compute; reflexivity|].
  intros e He. exact (Process_failure_kinds json_Unmarshal _ _ _ _ e He).
Qed.

Lemma ServeHTTP_processor_error_is_401_witness :
  Http.Code (fst (Handlers.ServeHTTP
                    (Handlers.NewWebhookHandler recordingProcessor SimpleLogger)
                    Http.NewRecorder
                    (fixtureRequest "POST" ["sha256=abc"] (bodyOf "req_1" "q"))
                    (freshWorld (fixtureEnv true)))) = 200%Z.
Proof.
  destruct (ServeHTTP_processor_error_is_401 fixtureUnmarshal
              (deployedHandler "s3cret"
                 (FirestoreRepository_iface (NewFirestoreRepository firestoreClient)))
              (Handlers.NewWebhookHandler recordingProcessor SimpleLogger)
              (fixtureRequest "POST" ["sha256=abc"] (bodyOf "req_1" "q"))
              (Bytes.of_string (bodyOf "req_1" "q"))
              (freshWorld (fixtureEnv true)))
    as [_ [Hh _]].
  - reflexivity.
  - reflexivity.
  - vm_compute. discriminate.
  - reflexivity.
  - rewrite Hh. reflexivity.
Defined.

(** C6, as the code has it.  In the rate-limited handler the limiter is
    asked first: a request that is not a POST receives 429 when the bucket is
    exhausted and 405 only when the limiter lets it through.  When the bucket is
    exhausted every request, whatever its method, headers and body, receives
    the 429 response, and nothing of the request but the remote address is
    used: the body is not read. *)
Theorem Function_rate_limit_precedes_method_check
    (json_Unmarshal : list byte -> WebhookPayload -> WebhookPayload * option error)
    (h : Function.WebhookHandler) (r : Http.Request) (w : World) :
  Http.Method r <> "POST" ->
  Function.ServeHTTP json_Unmarshal h Http.NewRecorder r w =
    (if allowAt (env w) (limiterCalls w)
     then (methodNotAllowed Http.NewRecorder, afterAllow w)
     else (limited Http.NewRecorder,
           snd (Info (Function.logger h) "rate limit exceeded"
                  [VString (Http.RemoteAddr r)] (afterAllow w)))) /\
  Http.Code (fst (Function.ServeHTTP json_Unmarshal h Http.NewRecorder r w)) =
    (if allowAt (env w) (limiterCalls w) then 405%Z else 429%Z) /\
  (allowAt (env w) (limiterCalls w) = false ->
   forall r' : Http.Request,
     Function.ServeHTTP json_Unmarshal h Http.NewRecorder r' w =
       (limited Http.NewRecorder,
        snd (Info (Function.logger h) "rate limit exceeded"
               [VString (Http.RemoteAddr r')] (afterAllow w)))).
Proof.
  intros Hm.
  assert (Hrun : Function.ServeHTTP json_Unmarshal h Http.NewRecorder r w =
    (if allowAt (env w) (limiterCalls w)
     then (methodNotAllowed Http.NewRecorder, afterAllow w)
     else (limited Http.NewRecorder,
           snd (Info (Function.logger h) "rate limit exceeded"
                  [VString (Http.RemoteAddr r)] (afterAllow w))))).
  { destruct (allowAt (env w) (limiterCalls w)) eqn:Hallow.
    - now apply Function_ServeHTTP_method.
    - now apply Function_ServeHTTP_limited. }
  split; [exact Hrun|]. split.
  - rewrite Hrun. now destruct (allowAt (env w) (limiterCalls w)).
  - intros Hno r'. now apply Function_ServeHTTP_limited.
Qed.

Lemma Function_rate_limit_precedes_method_check_witness :
  Http.Code (fst (Function.ServeHTTP fixtureUnmarshal
                    (deployedHandler "s3cret"
                       (FirestoreRepository_iface
                          (NewFirestoreRepository firestoreClient)))
                    Http.NewRecorder
                    (fixtureRequest "GET" [] EmptyString)
                    (freshWorld (fixtureEnv true)))) = 405%Z.
Proof.
  apply (Function_rate_limit_precedes_method_check fixtureUnmarshal
           (deployedHandler "s3cret"
              (FirestoreRepository_iface (NewFirestoreRepository firestoreClient)))
           (fixtureRequest "GET" [] EmptyString)
           (freshWorld (fixtureEnv true))).
  discriminate.
Defined.

(** C6 fails as stated: with the token bucket exhausted, a GET request is
    answered 429, not 405. *)
Lemma Function_GET_when_exhausted_is_429 :
  let r := fixtureRequest "GET" [] EmptyString in
  let w := freshWorld (fixtureEnv false) in
  let out := Function.ServeHTTP fixtureUnmarshal
               (deployedHandler "s3cret"
                  (FirestoreRepository_iface (NewFirestoreRepository firestoreClient)))
               Http.NewRecorder r w in
  Http.Method r <> "POST" /\
  allowAt (env w) (limiterCalls w) = false /\
  Http.Code (fst out) = 429%Z /\
  Http.Code (fst out) <> 405%Z.
Proof.
  cbv zeta. split; [discriminate|]. split; [reflexivity|].
  split; [vm_compute; reflexivity|]. vm_compute. discriminate.
Qed.

(** C7, as the code has it.  For a POST that the limiter lets through and
    whose body is read, with the signature header [sha256=] followed by
    [s], the handler of [function.go] removes the prefix: the validator of
    its service is called with the body and exactly [s], and the rest of
    the request's handling does not involve the signature.  The handler of
    [internal/handlers] removes nothing: its processor receives the header
    value as it came, prefix included. *)
Theorem ServeHTTP_signature_prefix
    (json_Unmarshal : list byte -> WebhookPayload -> WebhookPayload * option error)
    (hf : Function.WebhookHandler) (hh : Handlers.WebhookHandler)
    (wtr : Http.ResponseWriter) (r : Http.Request) (body : list byte)
    (s : string) (w : World) :
  Http.Method r = "POST" ->
  Http.Body r = (body, None) ->
  signatureHeader r = ("sha256=" ++ s)%string ->
  allowAt (env w) (limiterCalls w) = true ->
  Strings.TrimPrefix (signatureHeader r) "sha256=" = s /\
  Function.ServeHTTP json_Unmarshal hf wtr r w =
    respond (Function.logger hf) wtr
      (WebhookService_Process json_Unmarshal (Function.processor hf) body s
         (afterAllow w)) /\
  Function.ServeHTTP json_Unmarshal hf wtr r w =
    respond (Function.logger hf) wtr
      (afterValidate json_Unmarshal (Function.processor hf) body
         (Validate (validator (Function.processor hf)) body s (afterAllow w))) /\
  Handlers.ServeHTTP hh wtr r w =
    respond (Handlers.logger hh) wtr
      (Process (Handlers.processor hh) body ("sha256=" ++ s)%string w).
Proof.
  intros Hm Hb Hsig Hyes.
  assert (Hne : signatureHeader r <> EmptyString) by (rewrite Hsig; discriminate).
  assert (Htrim : Strings.TrimPrefix (signatureHeader r) "sha256=" = s)
    by (rewrite Hsig; apply TrimPrefix_app).
  split; [exact Htrim|].
  rewrite (Function_ServeHTTP_process json_Unmarshal hf wtr r body w Hyes Hm Hb Hne).
  rewrite Htrim. split; [reflexivity|].
  split; [now rewrite Process_run|].
  rewrite (Handlers_ServeHTTP_process hh wtr r body w Hm Hb Hne).
  now rewrite Hsig.
Qed.

Lemma ServeHTTP_signature_prefix_witness :
  Strings.TrimPrefix
    (signatureHeader (fixtureRequest "POST" ["sha256=abc"] (bodyOf "req_1" "q")))
    "sha256=" = "abc".
Proof.
  apply (ServeHTTP_signature_prefix fixtureUnmarshal
           (deployedHandler "s3cret"
              (FirestoreRepository_iface (NewFirestoreRepository firestoreClient)))
           (Handlers.NewWebhookHandler recordingProcessor SimpleLogger)
           Http.NewRecorder
           (fixtureRequest "POST" ["sha256=abc"] (bodyOf "req_1" "q"))
           (Bytes.of_string (bodyOf "req_1" "q")) "abc"
           (freshWorld (fixtureEnv true))).
  - reflexivity.
  - reflexivity.
  - vm_compute. reflexivity.
  - reflexivity.
Defined.

(** C7 fails for the handler of [internal/handlers]: given the header
    [sha256=abc], the processor is handed [sha256=abc], not [abc]. *)
Lemma Handlers_ServeHTTP_keeps_prefix :
  let r := fixtureRequest "POST" ["sha256=abc"] (bodyOf "req_1" "q") in
  let out := Handlers.ServeHTTP
               (Handlers.NewWebhookHandler recordingProcessor SimpleLogger)
               Http.NewRecorder r (freshWorld (fixtureEnv true)) in
  signatureHeader r = "sha256=abc" /\
  logLines (snd out) = ["sha256=abc"] /\
  logLines (snd out) <> ["abc"].
Proof.
  cbv zeta. split; [vm_compute; reflexivity|].
  split; [vm_compute; reflexivity|]. vm_compute. discriminate.
Qed.



(** ** Known answers and the scenarios of the specification *)

Example sha256_abc :
  Hex.EncodeToString (Sha256.Sum256 (Bytes.of_string "abc")) =
    "ba7816bf8f01cfea414140de5dae2223b00361a396177a9cb410ff61f20015ad".
Proof. vm_compute. reflexivity. Qed.

Example sha256_two_blocks :
  Hex.EncodeToString
    (Sha256.Sum256
       (Bytes.of_string "abcdbcdecdefdefgefghfghighijhijkijkljklmklmnlmnomnopnopq")) =
    "248d6a61d20638b8e5c026930c3e6039a33ce45964ff2167f6ecedd419db06c1".
Proof. vm_compute. reflexivity. Qed.

(** RFC 4231, test case 2. *)
Example hmac_sha256_rfc4231_2 :
  hmacHex "Jefe" (Bytes.of_string "what do ya want for nothing?") =
    "5bdcc146bf60754e6a042426089575c75a003f089d2739839dec58b964ec3843".
Proof. vm_compute. reflexivity. Qed.

(** RFC 4231, test case 6: a key longer than the block. *)
Example hmac_sha256_rfc4231_6 :
  Hex.EncodeToString
    (Hmac.Sum (repeat "170"%byte 131)
       (Bytes.of_string "Test Using Larger Than Block-Size Key - Hash Key First")) =
    "60e431591ee0b67f0d8a26aacbf5b77f8e0bc6213728c5140546040f0ee37f54".
Proof. vm_compute. reflexivity. Qed.

Example canonical_header_keys :
  Http.CanonicalMIMEHeaderKey "x-webhook-signature" = "X-Webhook-Signature" /\
  Http.CanonicalMIMEHeaderKey "X-RateLimit-Retry-After" = "X-Ratelimit-Retry-After".
Proof. split; reflexivity. Qed.

Example TrimPrefix_once :
  Strings.TrimPrefix "sha256=sha256=ab" "sha256=" = "sha256=ab" /\
  Strings.TrimPrefix "sha25" "sha256=" = "sha25".
Proof. split; reflexivity. Qed.

(** Scenario A: a correctly signed POST is answered 200 with the
    acknowledgment, after one write for the key [req_1]. *)
Example scenario_A :
  let out := scenarioRun
               (fixtureRequest "POST"
                  [hmacHex "s3cret" (Bytes.of_string (bodyOf "req_1" "q"))]
                  (bodyOf "req_1" "q")) in
  Http.Code (fst out) = 200%Z /\
  Http.BodyString (fst out) = ackBody /\
  map (fun c => ID (setRef c)) (setCalls (snd out)) = ["req_1"] /\
  (analyticsDocs (snd out) !! "req_1") ≫= (fun d : Document => d !! "query") =
    Some (VString "q") /\
  (analyticsDocs (snd out) !! "req_1") ≫= (fun d : Document => d !! "receivedAt") =
    Some (VInt 1700000100).
Proof. cbv zeta. repeat apply conj; vm_compute; reflexivity. Qed.

(** Scenario B: no signature header, 400 and no write. *)
Example scenario_B :
  let out := scenarioRun (fixtureRequest "POST" [] (bodyOf "req_1" "q")) in
  Http.Code (fst out) = 400%Z /\ setCalls (snd out) = [].
Proof. cbv zeta. split; vm_compute; reflexivity. Qed.

(** Scenario C: a GET, 405 and no write. *)
Example scenario_C :
  let out := scenarioRun (fixtureRequest "GET" [] EmptyString) in
  Http.Code (fst out) = 405%Z /\ setCalls (snd out) = [].
Proof. cbv zeta. split; vm_compute; reflexivity. Qed.

(** Scenario D: correctly signed, empty [requestId]: 401 and no write. *)
Example scenario_D :
  let out := scenarioRun
               (fixtureRequest "POST"
                  [hmacHex "s3cret" (Bytes.of_string (bodyOf EmptyString "q"))]
                  (bodyOf EmptyString "q")) in
  Http.Code (fst out) = 401%Z /\ setCalls (snd out) = [].
Proof. cbv zeta. split; vm_compute; reflexivity. Qed.

(** A correctly signed payload that is not JSON: 401 and no write. *)
Example malformed_payload_is_401 :
  let out := scenarioRun
               (fixtureRequest "POST"
                  [hmacHex "s3cret" (Bytes.of_string "{invalid json")]
                  "{invalid json") in
  Http.Code (fst out) = 401%Z /\ setCalls (snd out) = [].
Proof. cbv zeta. split; vm_compute; reflexivity. Qed.

(** A valid request against a backend that refuses the write: 401, after
    one [Set] call that stored nothing. *)
Example storage_failure_is_401 :
  let out := Function.ServeHTTP fixtureUnmarshal scenarioHandler Http.NewRecorder
               (fixtureRequest "POST"
                  [hmacHex "s3cret" (Bytes.of_string (bodyOf "req_1" "q"))]
                  (bodyOf "req_1" "q"))
               (freshWorld unavailableEnv) in
  Http.Code (fst out) = 401%Z /\
  length (setCalls (snd out)) = 1%nat /\
  analyticsDocs (snd out) !! "req_1" = None.
Proof. cbv zeta. repeat apply conj; vm_compute; reflexivity. Qed.

(** Scenario E: a wrong signature, 401 and no write. *)
Example scenario_E :
  let out := scenarioRun
               (fixtureRequest "POST" ["sha256=00ff"] (bodyOf "req_1" "q")) in
  Http.Code (fst out) = 401%Z /\ setCalls (snd out) = [].
Proof. cbv zeta. split; vm_compute; reflexivity. Qed.

(** * Further properties of the code *)

Section ProcessMore.
Variable json_Unmarshal :
  list byte -> WebhookPayload -> WebhookPayload * option error.

Lemma Process_signed_run (K : string) (wr : AnalyticsWriter) (lg : Logger)
    (payload : list byte) (w : World) :
  WebhookService_Process json_Unmarshal (hmacService K wr lg) payload
      (hmacHex K payload) w =
    afterValidate json_Unmarshal (hmacService K wr lg) payload (None, w).
Proof. now rewrite Process_run, hmac_Validate_signed. Qed.

Lemma hmac_Validate_wrong (K : string) (wr : AnalyticsWriter) (lg : Logger)
    (payload : list byte) (signature : string) (w : World) :
  signature <> hmacHex K payload ->
  Validate (validator (hmacService K wr lg)) payload signature w =
    (Some "invalid signature", w).
Proof.
  intros Hne. simpl. unfold ret. rewrite Validate_cases.
  apply String.eqb_neq in Hne. now rewrite Hne.
Qed.
End ProcessMore.

(** X1. [WebhookService.Process] returns nil exactly when all four steps
    pass: the validator accepts, the payload decodes, the record has its
    required fields, and the writer, run in the world the validator left,
    returns nil. *)
Theorem Process_nil_iff
    (json_Unmarshal : list byte -> WebhookPayload -> WebhookPayload * option error)
    (s : WebhookService) (payload : list byte) (signature : string) (w : World) :
  let vres := Validate (validator s) payload signature w in
  let dres := json_Unmarshal payload zeroWebhookPayload in
  fst (WebhookService_Process json_Unmarshal s payload signature w) = None <->
  fst vres = None /\ snd dres = None /\
  validateAnalyticsRecord (Data (fst dres)) = None /\
  fst (Write (writer s) (Data (fst dres)) (snd vres)) = None.
Proof.
  cbv zeta. rewrite Process_run. unfold afterValidate. cbv zeta.
  destruct (fst (Validate (validator s) payload signature w)).
  { simpl. split; [discriminate|]. intros [H _]. discriminate. }
  destruct (snd (json_Unmarshal payload zeroWebhookPayload)).
  { simpl. split; [discriminate|]. intros [_ [H _]]. discriminate. }
  destruct (validateAnalyticsRecord _).
  { simpl. split; [discriminate|]. intros [_ [_ [H _]]]. discriminate. }
  destruct (fst (Write (writer s) _ _)); simpl.
  - split; [discriminate|]. intros [_ [_ [_ H]]]. discriminate.
  - tauto.
Qed.

(** X2. A signature other than the expected HMAC stops [Process] at the
    first step: the error is [webhook validation failed: invalid signature],
    one [Error] call of the logger is the only effect, and neither the JSON
    decoder nor the writer takes part, whatever they are. *)
Theorem Process_wrong_signature_stops
    (json_Unmarshal : list byte -> WebhookPayload -> WebhookPayload * option error)
    (K : string) (wr : AnalyticsWriter) (lg : Logger)
    (payload : list byte) (signature : string) (w : World) :
  signature <> hmacHex K payload ->
  WebhookService_Process json_Unmarshal (hmacService K wr lg) payload signature w =
    (Some "webhook validation failed: invalid signature",
     snd (Error lg "webhook validation failed" "invalid signature" w)).
Proof.
  intros Hne. rewrite Process_run, (hmac_Validate_wrong K wr lg payload signature w Hne).
  reflexivity.
Qed.

Lemma Process_wrong_signature_stops_witness :
  fst (WebhookService_Process fixtureUnmarshal
         (hmacService "s3cret"
            (FirestoreRepository_iface (NewFirestoreRepository firestoreClient))
            SimpleLogger)
         (Bytes.of_string (bodyOf "req_1" "q")) "00ff"
         (freshWorld (fixtureEnv true))) =
    Some "webhook validation failed: invalid signature".
Proof.
  rewrite (Process_wrong_signature_stops fixtureUnmarshal "s3cret"
             (FirestoreRepository_iface (NewFirestoreRepository firestoreClient))
             SimpleLogger (Bytes.of_string (bodyOf "req_1" "q")) "00ff"
             (freshWorld (fixtureEnv true))).
  - reflexivity.
  - intros H. apply (f_equal String.length) in H.
    rewrite hmacHex_length in H. discriminate.
Defined.

(** X3. A correctly signed payload that the decoder rejects stops
    [Process] at the second step: the error is [failed to parse webhook:]
    with the decoder's message, the logger's one [Error] call is the only
    effect, and nothing the decoder left in the destination is validated or
    written, even a complete record. *)
Theorem Process_parse_error_stops
    (json_Unmarshal : list byte -> WebhookPayload -> WebhookPayload * option error)
    (K : string) (wr : AnalyticsWriter) (lg : Logger)
    (payload : list byte) (partial : WebhookPayload) (err : error) (w : World) :
  json_Unmarshal payload zeroWebhookPayload = (partial, Some err) ->
  WebhookService_Process json_Unmarshal (hmacService K wr lg) payload
      (hmacHex K payload) w =
    (Some (Errorf_w "failed to parse webhook: " err),
     snd (Error lg "failed to parse webhook payload" err w)).
Proof.
  intros Hdec. rewrite Process_signed_run. unfold afterValidate. cbv zeta.
  rewrite Hdec. reflexivity.
Qed.

Lemma Process_parse_error_stops_witness :
  fst (WebhookService_Process fixtureUnmarshal
         (hmacService "s3cret"
            (FirestoreRepository_iface (NewFirestoreRepository firestoreClient))
            SimpleLogger)
         (Bytes.of_string "{invalid json")
         (hmacHex "s3cret" (Bytes.of_string "{invalid json"))
         (freshWorld (fixtureEnv true))) =
    Some "failed to parse webhook: invalid character in payload".
Proof.
  rewrite (Process_parse_error_stops fixtureUnmarshal "s3cret"
             (FirestoreRepository_iface (NewFirestoreRepository firestoreClient))
             SimpleLogger (Bytes.of_string "{invalid json") zeroWebhookPayload
             "invalid character in payload" (freshWorld (fixtureEnv true))).
  - reflexivity.
  - vm_compute. reflexivity.
Defined.

(** X4. When the Firestore backend refuses the write of a correctly signed,
    valid record, [Process] returns the backend's message wrapped twice
    ([failed to store analytics: failed to write analytics to Firestore:]),
    the collection is as before, the one [Set] call is on record, and the
    log gains the error line and no success line. *)
Theorem Process_storage_error
    (json_Unmarshal : list byte -> WebhookPayload -> WebhookPayload * option error)
    (K : string) (repo : FirestoreRepository)
    (payload : list byte) (wp : WebhookPayload) (e : error) (w : World) :
  json_Unmarshal payload zeroWebhookPayload = (wp, None) ->
  validateAnalyticsRecord (Data wp) = None ->
  setErrAt (env w) (length (setCalls w)) = Some e ->
  let out := WebhookService_Process json_Unmarshal
               (hmacService K (FirestoreRepository_iface repo) SimpleLogger)
               payload (hmacHex K payload) w in
  fst out =
    Some ("failed to store analytics: failed to write analytics to Firestore: "
          ++ e)%string /\
  firestoreDocs (snd out) = firestoreDocs w /\
  length (setCalls (snd out)) = S (length (setCalls w)) /\
  logLines (snd out) =
    logLines w ++
    [("[ERROR] failed to write analytics: failed to write analytics to Firestore: "
      ++ e)%string].
Proof.
  intros Hdec Hval Herr out. unfold out.
  rewrite Process_signed_run. unfold afterValidate. cbv zeta.
  rewrite Hdec. simpl. rewrite Hval.
  rewrite Firestore_Write_run. cbv zeta. rewrite Herr. simpl.
  repeat apply conj; try reflexivity.
  rewrite length_app. simpl. lia.
Qed.

Lemma Process_storage_error_witness :
  firestoreDocs
    (snd (WebhookService_Process fixtureUnmarshal
            (hmacService "s3cret"
               (FirestoreRepository_iface (NewFirestoreRepository firestoreClient))
               SimpleLogger)
            (Bytes.of_string (bodyOf "req_1" "q"))
            (hmacHex "s3cret" (Bytes.of_string (bodyOf "req_1" "q")))
            (freshWorld unavailableEnv))) = ∅.
Proof.
  apply (Process_storage_error fixtureUnmarshal "s3cret"
           (NewFirestoreRepository firestoreClient)
           (Bytes.of_string (bodyOf "req_1" "q"))
           {| EventType := "x"; EnvelopeTimestamp := 1700000000;
              Data := recordOf "req_1" "q" 1700000000 |}
           "rpc error: code = Unavailable" (freshWorld unavailableEnv)).
  - vm_compute. reflexivity.
  - reflexivity.
  - reflexivity.
Defined.

(** X5. With the standard logger and a writer that does not log, every
    call of [Process] adds exactly one line to the log, whatever the
    payload and the signature: an [[ERROR]] line when it returns an error,
    an [[INFO]] line when it returns nil.  No failure passes unlogged and
    no call logs twice. *)
Theorem Process_logs_one_line
    (json_Unmarshal : list byte -> WebhookPayload -> WebhookPayload * option error)
    (K : string) (wr : AnalyticsWriter)
    (payload : list byte) (signature : string) (w : World) :
  quietWriter wr ->
  let out := WebhookService_Process json_Unmarshal (hmacService K wr SimpleLogger)
               payload signature w in
  exists line : string,
    logLines (snd out) = logLines w ++ [line] /\
    String.prefix (if isNil (fst out) then "[INFO] " else "[ERROR] ") line = true.
Proof.
  intros Hquiet out. unfold out. rewrite Process_run.
  assert (Hv : Validate (validator (hmacService K wr SimpleLogger)) payload signature w
               = (HMACValidator_Validate (NewHMACValidator K) payload signature, w))
    by reflexivity.
  rewrite Hv. unfold afterValidate. cbv zeta.
  destruct (HMACValidator_Validate (NewHMACValidator K) payload signature) as [verr|].
  { simpl. eexists. split; reflexivity. }
  cbn [fst snd].
  destruct (snd (json_Unmarshal payload zeroWebhookPayload)) as [perr|].
  { simpl. eexists. split; reflexivity. }
  destruct (validateAnalyticsRecord _) as [rerr|].
  { simpl. eexists. split; reflexivity. }
  pose proof (Hquiet (Data (fst (json_Unmarshal payload zeroWebhookPayload))) w) as Hq.
  change (writer (hmacService K wr SimpleLogger)) with wr.
  destruct (Write wr _ w) as [[werr|] w2]; simpl in *.
  - eexists. rewrite Hq. split; reflexivity.
  - eexists. rewrite Hq. split; reflexivity.
Qed.

Lemma Process_logs_one_line_witness :
  exists line : string,
    logLines
      (snd (WebhookService_Process fixtureUnmarshal
              (hmacService "s3cret"
                 (FirestoreRepository_iface (NewFirestoreRepository firestoreClient))
                 SimpleLogger)
              (Bytes.of_string (bodyOf "req_1" "q")) "00ff"
              (freshWorld (fixtureEnv true)))) = [line].
Proof.
  destruct (Process_logs_one_line fixtureUnmarshal "s3cret"
              (FirestoreRepository_iface (NewFirestoreRepository firestoreClient))
              (Bytes.of_string (bodyOf "req_1" "q")) "00ff"
              (freshWorld (fixtureEnv true))) as [line [Hl _]].
  - intros record w. simpl. rewrite Firestore_Write_run. cbv zeta.
    destruct (setErrAt (env w) (length (setCalls w))); reflexivity.
  - exists line. exact Hl.
Defined.

Section DocumentFacts.
Lemma recordData_receivedAt (r : AnalyticsRecord) (t t' : Z) :
  recordData r t = <["receivedAt" := VInt t]> (recordData r t').
Proof.
  apply map_eq. intros f. unfold recordData. simpl.
  repeat (rewrite (lookup_insert _ _ f); case_decide; [reflexivity|]).
  repeat (rewrite (lookup_insert _ _ f); case_decide; [congruence|]).
  reflexivity.
Qed.

Lemma recordData_other_fields (r : AnalyticsRecord) (t t' : Z) (f : string) :
  f <> "receivedAt" -> recordData r t !! f = recordData r t' !! f.
Proof.
  intros Hf. rewrite (recordData_receivedAt r t t').
  now rewrite lookup_insert_ne.
Qed.

Lemma UnixMilli_div (t : Time) :
  (0 <= nsec t < 1000000000)%Z -> (UnixMilli t / 1000 = Unix t)%Z.
Proof.
  intros Hn. unfold UnixMilli, Unix.
  assert (0 <= nsec t / 1000000 < 1000)%Z.
  { split; [apply Z.div_pos; lia|]. apply Z.div_lt_upper_bound; lia. }
  symmetry. apply (Z.div_unique _ _ _ (nsec t / 1000000)); lia.
Qed.
End DocumentFacts.

(** X6. The stored document determines what was written: two calls of
    either writer build the same document only for the same record and the
    same [receivedAt].  No field of the record is dropped or merged with
    another. *)
Theorem recordData_inj (r r' : AnalyticsRecord) (t t' : Z) :
  recordData r t = recordData r' t' <-> r = r' /\ t = t'.
Proof.
  split; [|intros [-> ->]; reflexivity].
  intros H.
  pose proof (recordData_fields r t) as F.
  pose proof (recordData_fields r' t') as F'.
  rewrite H in F.
  destruct F as [a1 [a2 [a3 [a4 [a5 [a6 [a7 [a8 [a9 a10]]]]]]]]].
  destruct F' as [b1 [b2 [b3 [b4 [b5 [b6 [b7 [b8 [b9 b10]]]]]]]]].
  destruct r, r'; simpl in *.
  split; [f_equal|]; congruence.
Qed.

(** X7. One call of [FirestoreRepository.Write] changes the number of
    documents in [analytics] by at most one: it is unchanged when the
    backend refuses the call or a document already sits under the
    [requestId], and grows by one only when the key is new. *)
Theorem Firestore_Write_size
    (repo : FirestoreRepository) (record : AnalyticsRecord) (w : World) :
  size (analyticsDocs (snd (FirestoreRepository_Write repo record w))) =
    match setErrAt (env w) (length (setCalls w)),
          analyticsDocs w !! RequestID record with
    | None, None => S (size (analyticsDocs w))
    | _, _ => size (analyticsDocs w)
    end.
Proof.
  rewrite Firestore_Write_docs.
  destruct (setErrAt (env w) (length (setCalls w))).
  { now destruct (analyticsDocs w !! RequestID record). }
  destruct (analyticsDocs w !! RequestID record) eqn:Hk.
  - apply map_size_insert_Some. rewrite Hk. eauto.
  - now apply map_size_insert_None.
Qed.

(** X8. A retried delivery is idempotent up to [receivedAt] only: when the
    same record is written twice and both calls are accepted, the document
    after the second write agrees with the one after the first on every
    field but [receivedAt], and the two are equal exactly when the two clock
    readings fall in the same second. *)
Theorem Firestore_rewrite_only_receivedAt
    (repo : FirestoreRepository) (record : AnalyticsRecord) (w : World) :
  setErrAt (env w) (length (setCalls w)) = None ->
  setErrAt (env w) (S (length (setCalls w))) = None ->
  let w1 := snd (FirestoreRepository_Write repo record w) in
  let w2 := snd (FirestoreRepository_Write repo record w1) in
  let t1 := Unix (clockAt (env w) (clockReads w)) in
  let t2 := Unix (clockAt (env w) (S (clockReads w))) in
  analyticsDocs w1 !! RequestID record = Some (recordData record t1) /\
  analyticsDocs w2 !! RequestID record = Some (recordData record t2) /\
  (forall f : string, f <> "receivedAt" ->
     recordData record t1 !! f = recordData record t2 !! f) /\
  (analyticsDocs w2 = analyticsDocs w1 <-> t1 = t2).
Proof.
  intros H1 H2 w1 w2 t1 t2.
  assert (Hw1 : analyticsDocs w1 = <[RequestID record := recordData record t1]>
                                     (analyticsDocs w)).
  { unfold w1. now rewrite Firestore_Write_docs, H1. }
  assert (Hw2 : analyticsDocs w2 = <[RequestID record := recordData record t2]>
                                     (analyticsDocs w)).
  { unfold w2, w1. now apply Firestore_Write_twice_docs. }
  split; [rewrite Hw1; apply lookup_insert_eq|].
  split; [rewrite Hw2; apply lookup_insert_eq|].
  split; [intros f Hf; now apply recordData_other_fields|].
  rewrite Hw1, Hw2. split.
  - intros Heq.
    assert (Hl : (<[RequestID record := recordData record t2]> (analyticsDocs w))
                   !! RequestID record =
                 (<[RequestID record := recordData record t1]> (analyticsDocs w))
                   !! RequestID record) by now rewrite Heq.
    rewrite !lookup_insert_eq in Hl. apply (inj Some) in Hl.
    apply (f_equal (fun doc : gmap string Value => doc !! "receivedAt")) in Hl.
    cbv beta in Hl.
    destruct (recordData_fields record t1) as (_&_&_&_&_&_&_&_&_&F1).
    destruct (recordData_fields record t2) as (_&_&_&_&_&_&_&_&_&F2).
    rewrite F1, F2 in Hl. congruence.
  - intros ->. reflexivity.
Qed.

Lemma Firestore_rewrite_only_receivedAt_witness :
  analyticsDocs
    (snd (FirestoreRepository_Write (NewFirestoreRepository firestoreClient)
            (recordOf "req_1" "q" 1700000000)
            (snd (FirestoreRepository_Write (NewFirestoreRepository firestoreClient)
                    (recordOf "req_1" "q" 1700000000)
                    (freshWorld (fixtureEnv true))))))
    !! "req_1" =
  Some (recordData (recordOf "req_1" "q" 1700000000) 1700000101).
Proof.
  apply (Firestore_rewrite_only_receivedAt (NewFirestoreRepository firestoreClient)
           (recordOf "req_1" "q" 1700000000) (freshWorld (fixtureEnv true)));
    reflexivity.
Defined.

Section PushFacts.
Lemma Firebase_Write_frame (fb : FirebaseRepository) (record : AnalyticsRecord)
    (w : World) :
  let w' := snd (FirebaseRepository_Write fb record w) in
  env w' = env w /\ firestoreDocs w' = firestoreDocs w /\
  setCalls w' = setCalls w /\ pushCalls w' = S (pushCalls w) /\
  logLines w' = logLines w /\
  (forall path : string, path <> "analytics/live" -> rtdb w' !! path = rtdb w !! path).
Proof.
  cbv zeta. rewrite Firebase_Write_run. cbv zeta.
  destruct (pushAt (env w) (pushCalls w)); simpl.
  - repeat apply conj; reflexivity.
  - repeat apply conj; try reflexivity.
    intros path Hp. now rewrite lookup_insert_ne.
Qed.

Lemma Firebase_Write_children (fb : FirebaseRepository) (record : AnalyticsRecord)
    (w : World) :
  liveChildren (snd (FirebaseRepository_Write fb record w)) =
    match pushAt (env w) (pushCalls w) with
    | inl _ => liveChildren w
    | inr key =>
        liveChildren w ++
          [(key, recordData record (UnixMilli (clockAt (env w) (clockReads w))))]
    end.
Proof.
  rewrite Firebase_Write_run. cbv zeta.
  destruct (pushAt (env w) (pushCalls w)); simpl; [reflexivity|].
  unfold liveChildren at 1. simpl. now rewrite lookup_insert_eq.
Qed.
End PushFacts.

(** X9. The Realtime Database writer only appends: after any sequence of
    [FirebaseRepository.Write] calls the children of [analytics/live] are
    the old ones, in their order, followed by at most one new child per
    call, each holding the data of one of the records; every call counts as
    one push; Firestore, the other paths and the log are not touched. *)
Theorem Firebase_writes_append_only
    (fb : FirebaseRepository) (records : list AnalyticsRecord) (w : World) :
  let w' := snd (pushAll fb records w) in
  (exists added : list (string * Document),
     liveChildren w' = liveChildren w ++ added /\
     (length added <= length records)%nat /\
     Forall (fun child : string * Document =>
               exists (record : AnalyticsRecord) (t : Z),
                 In record records /\ snd child = recordData record t) added) /\
  pushCalls w' = (pushCalls w + length records)%nat /\
  firestoreDocs w' = firestoreDocs w /\
  setCalls w' = setCalls w /\
  logLines w' = logLines w /\
  (forall path : string, path <> "analytics/live" -> rtdb w' !! path = rtdb w !! path).
Proof.
  revert w. induction records as [|record rest IH]; intros w.
  - simpl. split; [exists []; rewrite app_nil_r; auto|].
    repeat apply conj; auto.
  - cbv zeta. simpl. unfold bind.
    destruct (FirebaseRepository_Write fb record w) as [e w1] eqn:Hw.
    assert (Hw1 : w1 = snd (FirebaseRepository_Write fb record w)) by now rewrite Hw.
    destruct (Firebase_Write_frame fb record w) as [_ [F1 [F2 [F3 [F4 F5]]]]].
    pose proof (Firebase_Write_children fb record w) as Hc.
    rewrite <- Hw1 in F1, F2, F3, F4, F5, Hc.
    destruct (IH w1) as [[added [A1 [A2 A3]]] [B1 [B2 [B3 [B4 B5]]]]].
    split.
    + destruct (pushAt (env w) (pushCalls w)) as [err|key].
      * exists added. rewrite A1, Hc. split; [reflexivity|]. split; [lia|].
        eapply Forall_impl; [exact A3|].
        intros child [r [t [Hin Hd]]]. exists r, t. split; [now right|exact Hd].
      * exists ((key, recordData record
                        (UnixMilli (clockAt (env w) (clockReads w)))) :: added).
        rewrite A1, Hc, <- app_assoc. split; [reflexivity|]. split; [simpl; lia|].
        constructor.
        { exists record, (UnixMilli (clockAt (env w) (clockReads w))).
          split; [now left|reflexivity]. }
        eapply Forall_impl; [exact A3|].
        intros child [r [t [Hin Hd]]]. exists r, t. split; [now right|exact Hd].
    + repeat apply conj.
      * rewrite B1, F3. lia.
      * now rewrite B2.
      * now rewrite B3.
      * now rewrite B4.
      * intros path Hp. rewrite (B5 path Hp). now apply F5.
Qed.

(** X10. The two writers store the same nine record fields and differ in
    the unit of [receivedAt]: for one clock reading with a nanosecond part
    in range, the Realtime Database writer stores milliseconds and the
    Firestore writer seconds, the former divided by 1000 being the latter. *)
Theorem writers_differ_in_receivedAt_unit
    (repo : FirestoreRepository) (fb : FirebaseRepository)
    (record : AnalyticsRecord) (w : World) (key : string) :
  (0 <= nsec (clockAt (env w) (clockReads w)) < 1000000000)%Z ->
  setErrAt (env w) (length (setCalls w)) = None ->
  pushAt (env w) (pushCalls w) = inr key ->
  exists (stored pushed : Document) (seconds millis : Z),
    analyticsDocs (snd (FirestoreRepository_Write repo record w))
      !! RequestID record = Some stored /\
    liveChildren (snd (FirebaseRepository_Write fb record w)) =
      liveChildren w ++ [(key, pushed)] /\
    (forall f : string, f <> "receivedAt" -> pushed !! f = stored !! f) /\
    stored !! "receivedAt" = Some (VInt seconds) /\
    pushed !! "receivedAt" = Some (VInt millis) /\
    (millis / 1000 = seconds)%Z.
Proof.
  intros Hn Hset Hpush.
  exists (recordData record (Unix (clockAt (env w) (clockReads w)))),
         (recordData record (UnixMilli (clockAt (env w) (clockReads w)))),
         (Unix (clockAt (env w) (clockReads w))),
         (UnixMilli (clockAt (env w) (clockReads w))).
  split; [rewrite Firestore_Write_docs, Hset; apply lookup_insert_eq|].
  split; [now rewrite Firebase_Write_children, Hpush|].
  split; [intros f Hf; now apply recordData_other_fields|].
  split; [apply recordData_fields|].
  split; [apply recordData_fields|].
  now apply UnixMilli_div.
Qed.

Lemma writers_differ_in_receivedAt_unit_witness :
  exists (stored pushed : Document) (seconds millis : Z),
    stored !! "receivedAt" = Some (VInt seconds) /\
    pushed !! "receivedAt" = Some (VInt millis) /\
    (millis / 1000 = seconds)%Z.
Proof.
  destruct (writers_differ_in_receivedAt_unit
              (NewFirestoreRepository firestoreClient) (NewFirebaseRepository dbClient)
              (recordOf "req_1" "q" 1700000000) (freshWorld (fixtureEnv true))
              "-NxK3dQ0aB1cD2eF3gH4")
    as [stored [pushed [seconds [millis [_ [_ [_ [H1 [H2 H3]]]]]]]]].
  - simpl. lia.
  - reflexivity.
  - reflexivity.
  - exists stored, pushed, seconds, millis. auto.
Defined.

Section HandlerCases.
Variable json_Unmarshal :
  list byte -> WebhookPayload -> WebhookPayload * option error.

(** [ServeHTTP] of [function.go], branch by branch. *)
Lemma Function_ServeHTTP_cases (h : Function.WebhookHandler)
    (wtr : Http.ResponseWriter) (r : Http.Request) (w : World) :
  Function.ServeHTTP json_Unmarshal h wtr r w =
    if negb (allowAt (env w) (limiterCalls w)) then
      (limited wtr,
       snd (Info (Function.logger h) "rate limit exceeded"
              [VString (Http.RemoteAddr r)] (afterAllow w)))
    else if negb (String.eqb (Http.Method r) Http.MethodPost) then
      (methodNotAllowed wtr, afterAllow w)
    else
      match snd (Http.Body r) with
      | Some e =>
          (badBody wtr,
           snd (Error (Function.logger h) "failed to read request body" e
                  (afterAllow w)))
      | None =>
          if String.eqb (signatureHeader r) EmptyString then
            (missingSignature wtr,
             snd (Info (Function.logger h) "missing webhook signature header"
                    [VNil] (afterAllow w)))
          else
            respond (Function.logger h) wtr
              (WebhookService_Process json_Unmarshal (Function.processor h)
                 (fst (Http.Body r))
                 (Strings.TrimPrefix (signatureHeader r) "sha256=")
                 (afterAllow w))
      end.
Proof.
  destruct (allowAt (env w) (limiterCalls w)) eqn:Hallow; simpl.
  2:{ now apply Function_ServeHTTP_limited. }
  destruct (String.eqb_spec (Http.Method r) Http.MethodPost) as [Hm|Hm]; simpl.
  2:{ now apply Function_ServeHTTP_method. }
  destruct (Http.Body r) as [body [e|]] eqn:Hb; simpl.
  { unfold Function.ServeHTTP, Function.RateLimiter_Allow, Limiter_Allow, bind, ret,
      Http.io_ReadAll. rewrite Hallow, Hm, Hb. simpl. fold (afterAllow w).
    now destruct (Error (Function.logger h) _ e _). }
  destruct (String.eqb_spec (signatureHeader r) EmptyString) as [Hs|Hs].
  { unfold Function.ServeHTTP, Function.RateLimiter_Allow, Limiter_Allow, bind, ret,
      Http.io_ReadAll. rewrite Hallow, Hm, Hb. fold (signatureHeader r).
    rewrite Hs. simpl. fold (afterAllow w).
    now destruct (Info (Function.logger h) _ _ _). }
  now apply Function_ServeHTTP_process.
Qed.

Lemma Webhook_ServeHTTP_cases (h : Webhook.WebhookHandler)
    (wtr : Http.ResponseWriter) (r : Http.Request) (w : World) :
  Webhook.ServeHTTP json_Unmarshal h wtr r w =
    if negb (String.eqb (Http.Method r) Http.MethodPost) then
      (methodNotAllowed wtr, w)
    else
      match snd (Http.Body r) with
      | Some e =>
          (badBody wtr,
           snd (Error (Webhook.logger h) "failed to read request body" e w))
      | None =>
          if String.eqb (signatureHeader r) EmptyString then
            (missingSignature wtr,
             snd (Info (Webhook.logger h) "missing webhook signature header"
                    [VNil] w))
          else
            respond (Webhook.logger h) wtr
              (WebhookService_Process json_Unmarshal (Webhook.processor h)
                 (fst (Http.Body r)) (signatureHeader r) w)
      end.
Proof.
  unfold Webhook.ServeHTTP, bind, ret, Http.io_ReadAll, respond.
  fold (signatureHeader r).
  destruct (String.eqb (Http.Method r) Http.MethodPost); simpl; [|reflexivity].
  destruct (Http.Body r) as [body [e|]]; simpl.
  { now destruct (Error (Webhook.logger h) _ e w). }
  destruct (String.eqb (signatureHeader r) EmptyString).
  { now destruct (Info (Webhook.logger h) _ _ w). }
  destruct (WebhookService_Process _ _ _ _ _) as [[e|] w1]; simpl; [|reflexivity].
  now destruct (Error (Webhook.logger h) _ e w1).
Qed.
End HandlerCases.

Lemma Handlers_ServeHTTP_cases (h : Handlers.WebhookHandler)
    (wtr : Http.ResponseWriter) (r : Http.Request) (w : World) :
  Handlers.ServeHTTP h wtr r w =
    if negb (String.eqb (Http.Method r) Http.MethodPost) then
      (methodNotAllowed wtr, w)
    else
      match snd (Http.Body r) with
      | Some e =>
          (badBody wtr,
           snd (Error (Handlers.logger h) "failed to read request body" e w))
      | None =>
          if String.eqb (signatureHeader r) EmptyString then
            (missingSignature wtr,
             snd (Info (Handlers.logger h) "missing webhook signature header" [] w))
          else
            respond (Handlers.logger h) wtr
              (Process (Handlers.processor h) (fst (Http.Body r))
                 (signatureHeader r) w)
      end.
Proof.
  unfold Handlers.ServeHTTP, bind, ret, Http.io_ReadAll, respond.
  fold (signatureHeader r).
  destruct (String.eqb (Http.Method r) Http.MethodPost); simpl; [|reflexivity].
  destruct (Http.Body r) as [body [e|]]; simpl.
  { now destruct (Error (Handlers.logger h) _ e w). }
  destruct (String.eqb (signatureHeader r) EmptyString).
  { now destruct (Info (Handlers.logger h) _ _ w). }
  destruct (Process _ _ _ _) as [[e|] w1]; simpl; [|reflexivity].
  now destruct (Error (Handlers.logger h) _ e w1).
Qed.

Section ResponseShapes.
Lemma shaped_limited :
  shapedResponse [429%Z] (limited Http.NewRecorder) /\
  Http.HeaderMap (limited Http.NewRecorder) !! "X-Ratelimit-Retry-After" = Some ["1"].
Proof. unfold shapedResponse. repeat apply conj; try reflexivity. now left. Qed.

Lemma shaped_methodNotAllowed :
  shapedResponse [405%Z] (methodNotAllowed Http.NewRecorder).
Proof. unfold shapedResponse. repeat apply conj; try reflexivity. now left. Qed.

Lemma shaped_badBody : shapedResponse [400%Z] (badBody Http.NewRecorder).
Proof. unfold shapedResponse. repeat apply conj; try reflexivity. now left. Qed.

Lemma shaped_missingSignature :
  shapedResponse [400%Z] (missingSignature Http.NewRecorder).
Proof. unfold shapedResponse. repeat apply conj; try reflexivity. now left. Qed.

Lemma shaped_unauthorized : shapedResponse [401%Z] (unauthorized Http.NewRecorder).
Proof. unfold shapedResponse. repeat apply conj; try reflexivity. now left. Qed.

Lemma shaped_acknowledged : shapedResponse [200%Z] (acknowledged Http.NewRecorder).
Proof. unfold shapedResponse. repeat apply conj; try reflexivity. now left. Qed.

Lemma shaped_weaken (codes codes' : list Z) (resp : Http.ResponseWriter) :
  incl codes codes' -> shapedResponse codes resp -> shapedResponse codes' resp.
Proof. intros Hi [H1 H2]. split; [now apply Hi|exact H2]. Qed.

Lemma shaped_respond (codes : list Z) (lg : Logger) (res : option error * World) :
  In 200%Z codes -> In 401%Z codes ->
  shapedResponse codes (fst (respond lg Http.NewRecorder res)).
Proof.
  intros H2 H4. rewrite respond_status. destruct (fst res).
  - apply (shaped_weaken [401%Z]); [|apply shaped_unauthorized].
    intros c [<-|[]]. exact H4.
  - apply (shaped_weaken [200%Z]); [|apply shaped_acknowledged].
    intros c [<-|[]]. exact H2.
Qed.
End ResponseShapes.

(** A branch answered by one fixed response, and the branches the three
    handlers share. *)
Ltac shape_of lemma :=
  eapply shaped_weaken; [|apply lemma];
  let c := fresh "c" in intros c [<-|[]]; simpl; tauto.

Ltac shape_plain r :=
  destruct (String.eqb (Http.Method r) Http.MethodPost); simpl;
    [|shape_of shaped_methodNotAllowed];
  destruct (snd (Http.Body r)); simpl; [shape_of shaped_badBody|];
  destruct (String.eqb (signatureHeader r) EmptyString); simpl;
    [shape_of shaped_missingSignature|];
  apply shaped_respond; simpl; tauto.

(** X11. Whatever the request and whatever the handler's parts do, the
    three [ServeHTTP] variants answer with one of a fixed set of statuses:
    200, 400, 401, 405, and for the rate-limited one also 429; never a 5xx.
    The status line is always written; a 200 carries [application/json], and
    every other answer is [text/plain] with [nosniff].  The rate-limited
    handler answers 429 exactly when the limiter refuses, and that answer
    carries the retry hint under the canonical key [X-Ratelimit-Retry-After]. *)
Theorem ServeHTTP_response_shape
    (json_Unmarshal : list byte -> WebhookPayload -> WebhookPayload * option error)
    (hf : Function.WebhookHandler) (hw : Webhook.WebhookHandler)
    (hh : Handlers.WebhookHandler) (r : Http.Request) (w : World) :
  let limitedResp := fst (Function.ServeHTTP json_Unmarshal hf Http.NewRecorder r w) in
  shapedResponse [200; 400; 401; 405; 429]%Z limitedResp /\
  shapedResponse [200; 400; 401; 405]%Z
    (fst (Webhook.ServeHTTP json_Unmarshal hw Http.NewRecorder r w)) /\
  shapedResponse [200; 400; 401; 405]%Z
    (fst (Handlers.ServeHTTP hh Http.NewRecorder r w)) /\
  (Http.Code limitedResp = 429%Z <-> allowAt (env w) (limiterCalls w) = false) /\
  (Http.Code limitedResp = 429%Z ->
   Http.HeaderMap limitedResp !! "X-Ratelimit-Retry-After" = Some ["1"]).
Proof.
  cbv zeta.
  rewrite Function_ServeHTTP_cases, Webhook_ServeHTTP_cases, Handlers_ServeHTTP_cases.
  split; [|split; [|split; [|split; [split|]]]].
  - destruct (allowAt (env w) (limiterCalls w)); simpl;
      [|shape_of shaped_limited].
    shape_plain r.
  - shape_plain r.
  - shape_plain r.
  - destruct (allowAt (env w) (limiterCalls w)); simpl; [|reflexivity].
    intros H. exfalso. revert H.
    destruct (String.eqb (Http.Method r) Http.MethodPost); simpl; [|discriminate].
    destruct (snd (Http.Body r)); simpl; [discriminate|].
    destruct (String.eqb (signatureHeader r) EmptyString); simpl; [discriminate|].
    rewrite respond_status. destruct (fst _); discriminate.
  - destruct (allowAt (env w) (limiterCalls w)); simpl; [discriminate|reflexivity].
  - destruct (allowAt (env w) (limiterCalls w)); simpl;
      [|intros _; apply shaped_limited].
    destruct (String.eqb (Http.Method r) Http.MethodPost); simpl; [|discriminate].
    destruct (snd (Http.Body r)); simpl; [discriminate|].
    destruct (String.eqb (signatureHeader r) EmptyString); simpl; [discriminate|].
    rewrite respond_status. destruct (fst _); discriminate.
Qed.

Section DeployedEffects.
Variable json_Unmarshal :
  list byte -> WebhookPayload -> WebhookPayload * option error.

(** What one [Process] call of the deployed service does to the world. *)
Lemma firestore_Process_effects (K : string) (repo : FirestoreRepository)
    (payload : list byte) (signature : string) (w : World) :
  let out := WebhookService_Process json_Unmarshal
               (hmacService K (FirestoreRepository_iface repo) SimpleLogger)
               payload signature w in
  let record := Data (fst (json_Unmarshal payload zeroWebhookPayload)) in
  let ok := String.eqb signature (hmacHex K payload) &&
            isNil (snd (json_Unmarshal payload zeroWebhookPayload)) &&
            isNil (validateAnalyticsRecord record) in
  let stored := ok && isNil (setErrAt (env w) (length (setCalls w))) in
  let t := clockAt (env w) (clockReads w) in
  env (snd out) = env w /\
  limiterCalls (snd out) = limiterCalls w /\
  pushCalls (snd out) = pushCalls w /\
  rtdb (snd out) = rtdb w /\
  clockReads (snd out) = (if ok then S (clockReads w) else clockReads w) /\
  setCalls (snd out) =
    (if ok then setCalls w ++ [writeCall record t] else setCalls w) /\
  firestoreDocs (snd out) =
    (if stored
     then <["analytics" := <[RequestID record := recordData record (Unix t)]>
                             (analyticsDocs w)]> (firestoreDocs w)
     else firestoreDocs w) /\
  isNil (fst out) = stored.
Proof.
  cbv zeta. rewrite Process_run.
  assert (Hv : Validate (validator (hmacService K (FirestoreRepository_iface repo)
                                      SimpleLogger)) payload signature w
               = (HMACValidator_Validate (NewHMACValidator K) payload signature, w))
    by reflexivity.
  rewrite Hv, Validate_cases. unfold afterValidate. cbv zeta.
  destruct (String.eqb signature (hmacHex K payload)); simpl.
  2:{ repeat apply conj; reflexivity. }
  destruct (snd (json_Unmarshal payload zeroWebhookPayload)); simpl.
  { repeat apply conj; reflexivity. }
  destruct (validateAnalyticsRecord _); simpl.
  { repeat apply conj; reflexivity. }
  rewrite Firestore_Write_run. cbv zeta.
  destruct (setErrAt (env w) (length (setCalls w))); simpl;
    repeat apply conj; reflexivity.
Qed.

Lemma firestore_ServeHTTP_effects (K : string) (wtr : Http.ResponseWriter)
    (r : Http.Request) (w : World) :
  let out := Function.ServeHTTP json_Unmarshal (firestoreHandler K) wtr r w in
  let record := carried json_Unmarshal r in
  let go := allowAt (env w) (limiterCalls w) && authentic json_Unmarshal K r in
  let stored := go && isNil (setErrAt (env w) (length (setCalls w))) in
  let t := clockAt (env w) (clockReads w) in
  env (snd out) = env w /\
  limiterCalls (snd out) = S (limiterCalls w) /\
  pushCalls (snd out) = pushCalls w /\
  rtdb (snd out) = rtdb w /\
  clockReads (snd out) = (if go then S (clockReads w) else clockReads w) /\
  setCalls (snd out) =
    (if go then setCalls w ++ [writeCall record t] else setCalls w) /\
  firestoreDocs (snd out) =
    (if stored
     then <["analytics" := <[RequestID record := recordData record (Unix t)]>
                             (analyticsDocs w)]> (firestoreDocs w)
     else firestoreDocs w) /\
  fst out =
    (if negb (allowAt (env w) (limiterCalls w)) then limited wtr
     else if negb (String.eqb (Http.Method r) Http.MethodPost)
     then methodNotAllowed wtr
     else if negb (isNil (snd (Http.Body r))) then badBody wtr
     else if String.eqb (signatureHeader r) EmptyString then missingSignature wtr
     else if stored then acknowledged wtr else unauthorized wtr).
Proof.
  cbv zeta. rewrite Function_ServeHTTP_cases. unfold authentic, wellFormed, carried.
  destruct (allowAt (env w) (limiterCalls w)); simpl.
  2:{ repeat apply conj; reflexivity. }
  destruct (String.eqb (Http.Method r) Http.MethodPost); simpl.
  2:{ repeat apply conj; reflexivity. }
  destruct (snd (Http.Body r)); simpl.
  { repeat apply conj; reflexivity. }
  destruct (String.eqb (signatureHeader r) EmptyString); simpl.
  { repeat apply conj; reflexivity. }
  change (Function.processor (firestoreHandler K))
    with (hmacService K
            (FirestoreRepository_iface (NewFirestoreRepository firestoreClient))
            SimpleLogger).
  destruct (firestore_Process_effects K (NewFirestoreRepository firestoreClient)
              (fst (Http.Body r))
              (Strings.TrimPrefix (signatureHeader r) "sha256=") (afterAllow w))
    as [E1 [E2 [E3 [E4 [E5 [E6 [E7 E8]]]]]]].
  change (env (afterAllow w)) with (env w) in *.
  change (setCalls (afterAllow w)) with (setCalls w) in *.
  change (clockReads (afterAllow w)) with (clockReads w) in *.
  change (firestoreDocs (afterAllow w)) with (firestoreDocs w) in *.
  change (analyticsDocs (afterAllow w)) with (analyticsDocs w) in *.
  change (limiterCalls (afterAllow w)) with (S (limiterCalls w)) in *.
  change (pushCalls (afterAllow w)) with (pushCalls w) in *.
  change (rtdb (afterAllow w)) with (rtdb w) in *.
  unfold respond.
  destruct (fst (WebhookService_Process _ _ _ _ _)) as [e|]; simpl in E8 |- *;
    rewrite <- E8; repeat apply conj; simpl; try assumption; try reflexivity.
  all: rewrite <- E8 in E7; exact E7.
Qed.
End DeployedEffects.

(** X12. The deployed handler writes only for an authentic request.  For
    every request, the limiter is asked exactly once; one [Set] call is
    made, for the record the body carries and at [analytics/<requestId>],
    exactly when the limiter lets the request through and the request is a
    POST with a readable body, signed by the HMAC of that body (with or
    without the [sha256=] prefix), that decodes to a record with its
    required fields; otherwise no [Set] call is made.  The database changes
    only by that call, when the backend accepts it.  The Realtime Database
    is never touched. *)
Theorem deployed_writes_only_authentic
    (json_Unmarshal : list byte -> WebhookPayload -> WebhookPayload * option error)
    (K : string) (wtr : Http.ResponseWriter) (r : Http.Request) (w : World) :
  let out := Function.ServeHTTP json_Unmarshal (firestoreHandler K) wtr r w in
  let go := allowAt (env w) (limiterCalls w) && authentic json_Unmarshal K r in
  setCalls (snd out) =
    (if go
     then setCalls w ++
          [writeCall (carried json_Unmarshal r) (clockAt (env w) (clockReads w))]
     else setCalls w) /\
  firestoreDocs (snd out) =
    (if go && isNil (setErrAt (env w) (length (setCalls w)))
     then <["analytics" :=
              <[RequestID (carried json_Unmarshal r) :=
                  recordData (carried json_Unmarshal r)
                    (Unix (clockAt (env w) (clockReads w)))]>
                (analyticsDocs w)]> (firestoreDocs w)
     else firestoreDocs w) /\
  limiterCalls (snd out) = S (limiterCalls w) /\
  pushCalls (snd out) = pushCalls w /\
  rtdb (snd out) = rtdb w.
Proof.
  cbv zeta.
  destruct (firestore_ServeHTTP_effects json_Unmarshal K wtr r w)
    as [E1 [E2 [E3 [E4 [E5 [E6 [E7 E8]]]]]]].
  repeat apply conj; assumption.
Qed.

(** X13. The deployed handler acknowledges exactly what it stored: the
    answer is 200 if and only if the limiter let the request through, the
    request is authentic and the backend accepted the write; then the
    [analytics] collection holds the carried record's document under its
    [requestId]; with any other answer the database is as before. *)
Theorem deployed_200_iff_stored
    (json_Unmarshal : list byte -> WebhookPayload -> WebhookPayload * option error)
    (K : string) (r : Http.Request) (w : World) :
  let out := Function.ServeHTTP json_Unmarshal (firestoreHandler K)
               Http.NewRecorder r w in
  let record := carried json_Unmarshal r in
  let doc := recordData record (Unix (clockAt (env w) (clockReads w))) in
  (Http.Code (fst out) = 200%Z <->
     allowAt (env w) (limiterCalls w) = true /\
     authentic json_Unmarshal K r = true /\
     setErrAt (env w) (length (setCalls w)) = None) /\
  (if (Http.Code (fst out) =? 200)%Z
   then analyticsDocs (snd out) = <[RequestID record := doc]> (analyticsDocs w) /\
        analyticsDocs (snd out) !! RequestID record = Some doc
   else firestoreDocs (snd out) = firestoreDocs w).
Proof.
  cbv zeta.
  destruct (firestore_ServeHTTP_effects json_Unmarshal K Http.NewRecorder r w)
    as [_ [_ [_ [_ [_ [_ [E7 E8]]]]]]].
  rewrite E8. unfold analyticsDocs at 1 3. rewrite E7. clear E7 E8.
  unfold authentic, wellFormed.
  destruct (allowAt (env w) (limiterCalls w)); simpl.
  2:{ split; [split; [discriminate|intros [H _]; discriminate]|reflexivity]. }
  destruct (String.eqb (Http.Method r) Http.MethodPost); simpl.
  2:{ split; [split; [discriminate|intros [_ [H _]]; discriminate]|reflexivity]. }
  destruct (snd (Http.Body r)); simpl.
  { split; [split; [discriminate|intros [_ [H _]]; discriminate]|reflexivity]. }
  destruct (String.eqb (signatureHeader r) EmptyString); simpl.
  { split; [split; [discriminate|intros [_ [H _]]; discriminate]|reflexivity]. }
  destruct (String.eqb _ (hmacHex K (fst (Http.Body r)))); simpl.
  2:{ split; [split; [discriminate|intros [_ [H _]]; discriminate]|reflexivity]. }
  destruct (snd (json_Unmarshal (fst (Http.Body r)) zeroWebhookPayload)); simpl.
  { split; [split; [discriminate|intros [_ [H _]]; discriminate]|reflexivity]. }
  destruct (validateAnalyticsRecord _); simpl.
  { split; [split; [discriminate|intros [_ [H _]]; discriminate]|reflexivity]. }
  destruct (setErrAt (env w) (length (setCalls w))); simpl.
  { split; [split; [discriminate|intros [_ [_ H]]; discriminate]|reflexivity]. }
  split; [tauto|].
  rewrite lookup_insert_eq. simpl. split; [reflexivity|apply lookup_insert_eq].
Qed.

Section SignatureForms.
Lemma hmacHex_lowercase (K : string) (P : list byte) :
  allChars isLowerHex (hmacHex K P) = true.
Proof. apply EncodeToString_lowercase. Qed.

Lemma prefixed_not_hex (s : string) :
  allChars isLowerHex ("sha256=" ++ s) = false.
Proof. reflexivity. Qed.

Lemma HasPrefix_sha256_hex (s : string) :
  allChars isLowerHex s = true -> Strings.HasPrefix s "sha256=" = false.
Proof.
  intros H. unfold Strings.HasPrefix.
  destruct s as [|c s]; [reflexivity|].
  simpl in H. apply andb_true_iff in H as [Hc _].
  change (String.prefix "sha256=" (String c s))
    with (if ascii_dec "s" c then String.prefix "ha256=" s else false).
  destruct (ascii_dec "s" c) as [<-|_]; [discriminate|reflexivity].
Qed.
End SignatureForms.

(** X14. The validator accepts nothing that is not 64 lowercase
    hexadecimal characters: a signature of any other length, or with a
    character outside [0-9a-f] (an uppercase digest, a prefixed one), is
    rejected whatever the secret and the payload. *)
Theorem Validate_rejects_malformed (K : string) (P : list byte) (s : string) :
  String.length s <> 64%nat \/ allChars isLowerHex s = false ->
  HMACValidator_Validate (NewHMACValidator K) P s = Some "invalid signature".
Proof.
  intros Hbad. rewrite Validate_cases.
  destruct (String.eqb_spec s (hmacHex K P)) as [->|_]; [|reflexivity].
  exfalso. destruct Hbad as [Hl|Hc].
  - apply Hl, hmacHex_length.
  - rewrite hmacHex_lowercase in Hc. discriminate.
Qed.

Lemma Validate_rejects_malformed_witness :
  HMACValidator_Validate (NewHMACValidator "s3cret") []
    "5BDCC146BF60754E6A042426089575C75A003F089D2739839DEC58B964EC3843" =
    Some "invalid signature".
Proof.
  apply (Validate_rejects_malformed "s3cret" []
           "5BDCC146BF60754E6A042426089575C75A003F089D2739839DEC58B964EC3843").
  right. reflexivity.
Defined.

(** X15. In the rate-limited handler the [sha256=] prefix is optional: a
    request whose signature header is not empty and does not start with
    [sha256=] is handled exactly as the same request with the prefix put in
    front, whatever the handler's parts are. *)
Theorem Function_prefix_is_optional
    (json_Unmarshal : list byte -> WebhookPayload -> WebhookPayload * option error)
    (h : Function.WebhookHandler) (wtr : Http.ResponseWriter)
    (bare prefixed : Http.Request) (w : World) :
  Http.Method prefixed = Http.Method bare ->
  Http.Body prefixed = Http.Body bare ->
  Http.RemoteAddr prefixed = Http.RemoteAddr bare ->
  signatureHeader bare <> EmptyString ->
  Strings.HasPrefix (signatureHeader bare) "sha256=" = false ->
  signatureHeader prefixed = ("sha256=" ++ signatureHeader bare)%string ->
  Function.ServeHTTP json_Unmarshal h wtr prefixed w =
    Function.ServeHTTP json_Unmarshal h wtr bare w.
Proof.
  intros Hm Hb Ha Hne Hnp Hsig.
  rewrite !Function_ServeHTTP_cases, Hm, Hb, Ha, Hsig, TrimPrefix_app.
  apply String.eqb_neq in Hne. rewrite Hne.
  unfold Strings.TrimPrefix at 1. rewrite Hnp.
  reflexivity.
Qed.

Lemma Function_prefix_is_optional_witness :
  Function.ServeHTTP fixtureUnmarshal (firestoreHandler "s3cret") Http.NewRecorder
    (fixtureRequest "POST" ["sha256=00ff"] (bodyOf "req_1" "q"))
    (freshWorld (fixtureEnv true)) =
  Function.ServeHTTP fixtureUnmarshal (firestoreHandler "s3cret") Http.NewRecorder
    (fixtureRequest "POST" ["00ff"] (bodyOf "req_1" "q"))
    (freshWorld (fixtureEnv true)).
Proof.
  apply (Function_prefix_is_optional fixtureUnmarshal (firestoreHandler "s3cret")
           Http.NewRecorder
           (fixtureRequest "POST" ["00ff"] (bodyOf "req_1" "q"))
           (fixtureRequest "POST" ["sha256=00ff"] (bodyOf "req_1" "q"))
           (freshWorld (fixtureEnv true))).
  - reflexivity.
  - reflexivity.
  - reflexivity.
  - vm_compute. discriminate.
  - vm_compute. reflexivity.
  - vm_compute. reflexivity.
Defined.

(** X16. The handler of [internal/handlers], over the HMAC service, can
    never authenticate a prefixed signature: for a POST with a readable
    body whose signature header starts with [sha256=], whatever follows the
    prefix (the correct digest included), the answer is 401, the writer is
    not invoked, and the log gains the two error lines. *)
Theorem Handlers_prefixed_signature_is_401
    (json_Unmarshal : list byte -> WebhookPayload -> WebhookPayload * option error)
    (K : string) (wr : AnalyticsWriter)
    (r : Http.Request) (body : list byte) (s : string) (w : World) :
  Http.Method r = "POST" ->
  Http.Body r = (body, None) ->
  signatureHeader r = ("sha256=" ++ s)%string ->
  let h := Handlers.NewWebhookHandler
             (WebhookService_iface json_Unmarshal (hmacService K wr SimpleLogger))
             SimpleLogger in
  Handlers.ServeHTTP h Http.NewRecorder r w =
    (unauthorized Http.NewRecorder,
     with_logLines
       (logLines w ++
        [ "[ERROR] webhook validation failed: invalid signature";
          "[ERROR] failed to process webhook: webhook validation failed: invalid signature" ])
       w) /\
  Http.Code (fst (Handlers.ServeHTTP h Http.NewRecorder r w)) = 401%Z.
Proof.
  intros Hm Hb Hsig h.
  assert (Hrun : Handlers.ServeHTTP h Http.NewRecorder r w =
    (unauthorized Http.NewRecorder,
     with_logLines
       (logLines w ++
        [ "[ERROR] webhook validation failed: invalid signature";
          "[ERROR] failed to process webhook: webhook validation failed: invalid signature" ])
       w)).
  { rewrite Handlers_ServeHTTP_cases, Hm, Hb, Hsig. simpl.
    rewrite Process_run, hmac_Validate_wrong.
    - unfold afterValidate, respond. simpl. unfold with_logLines. simpl.
      now rewrite <- app_assoc.
    - intros Heq. pose proof (hmacHex_lowercase K body) as Hc.
      rewrite <- Heq in Hc. discriminate. }
  split; [exact Hrun|]. now rewrite Hrun.
Qed.

Lemma Handlers_prefixed_signature_is_401_witness :
  Http.Code
    (fst (Handlers.ServeHTTP
            (Handlers.NewWebhookHandler
               (WebhookService_iface fixtureUnmarshal
                  (hmacService "s3cret"
                     (FirebaseRepository_iface (NewFirebaseRepository dbClient))
                     SimpleLogger))
               SimpleLogger)
            Http.NewRecorder
            (fixtureRequest "POST" ["sha256=abc"] (bodyOf "req_1" "q"))
            (freshWorld (fixtureEnv true)))) = 401%Z.
Proof.
  apply (Handlers_prefixed_signature_is_401 fixtureUnmarshal "s3cret"
           (FirebaseRepository_iface (NewFirebaseRepository dbClient))
           (fixtureRequest "POST" ["sha256=abc"] (bodyOf "req_1" "q"))
           (Bytes.of_string (bodyOf "req_1" "q")) "abc"
           (freshWorld (fixtureEnv true))).
  - reflexivity.
  - reflexivity.
  - vm_compute. reflexivity.
Defined.

(** X17. The handlers without a limiter turn a request away before the
    processor is involved, in a fixed order: a method other than POST gives
    405 whatever else is wrong, then an unreadable body gives 400, then a
    missing or empty signature header gives 400.  In these cases the
    outcome is the same for every processor, so none was called. *)
Theorem Handlers_rejects_before_processing
    (p p' : WebhookProcessor) (lg : Logger) (r : Http.Request) (w : World) :
  wellFormed r = false ->
  Handlers.ServeHTTP (Handlers.NewWebhookHandler p lg) Http.NewRecorder r w =
    Handlers.ServeHTTP (Handlers.NewWebhookHandler p' lg) Http.NewRecorder r w /\
  Http.Code
    (fst (Handlers.ServeHTTP (Handlers.NewWebhookHandler p lg) Http.NewRecorder r w))
  = (if String.eqb (Http.Method r) "POST" then 400%Z else 405%Z).
Proof.
  intros Hwf. rewrite !Handlers_ServeHTTP_cases. unfold wellFormed in Hwf.
  change Http.MethodPost with "POST" in *.
  destruct (String.eqb (Http.Method r) "POST"); simpl in *; [|auto].
  destruct (snd (Http.Body r)); simpl in *; [auto|].
  destruct (String.eqb (signatureHeader r) EmptyString); simpl in *; [auto|].
  discriminate.
Qed.

Lemma Handlers_rejects_before_processing_witness :
  Http.Code
    (fst (Handlers.ServeHTTP
            (Handlers.NewWebhookHandler recordingProcessor SimpleLogger)
            Http.NewRecorder
            (fixtureRequest "GET" [] EmptyString)
            (freshWorld (fixtureEnv true)))) = 405%Z.
Proof.
  apply (Handlers_rejects_before_processing recordingProcessor recordingProcessor
           SimpleLogger (fixtureRequest "GET" [] EmptyString)
           (freshWorld (fixtureEnv true))).
  reflexivity.
Defined.

(** X18. The three handlers agree where their differences do not apply.
    On a request the limiter lets through whose signature header is not
    empty and carries no [sha256=] prefix, the rate-limited handler does
    what the handler of the single-file variant without limiter does in the
    world after the limiter's answer; and that handler does what the one of
    [internal/handlers] does over the same service. *)
Theorem handler_variants_agree
    (json_Unmarshal : list byte -> WebhookPayload -> WebhookPayload * option error)
    (s : WebhookService) (lg : Logger) (rl : Function.RateLimiter)
    (wtr : Http.ResponseWriter) (r : Http.Request) (w : World) :
  allowAt (env w) (limiterCalls w) = true ->
  signatureHeader r <> EmptyString ->
  Strings.HasPrefix (signatureHeader r) "sha256=" = false ->
  Function.ServeHTTP json_Unmarshal (Function.NewWebhookHandler s lg rl) wtr r w =
    Webhook.ServeHTTP json_Unmarshal (Webhook.NewWebhookHandler s lg) wtr r
      (afterAllow w) /\
  Webhook.ServeHTTP json_Unmarshal (Webhook.NewWebhookHandler s lg) wtr r w =
    Handlers.ServeHTTP
      (Handlers.NewWebhookHandler (WebhookService_iface json_Unmarshal s) lg)
      wtr r w.
Proof.
  intros Hallow Hne Hnp.
  rewrite Function_ServeHTTP_cases, !Webhook_ServeHTTP_cases,
    Handlers_ServeHTTP_cases, Hallow.
  apply String.eqb_neq in Hne. rewrite Hne.
  unfold Strings.TrimPrefix. rewrite Hnp. simpl.
  split; reflexivity.
Qed.

Lemma handler_variants_agree_witness :
  Function.ServeHTTP fixtureUnmarshal (firestoreHandler "s3cret") Http.NewRecorder
    (fixtureRequest "POST" ["00ff"] (bodyOf "req_1" "q"))
    (freshWorld (fixtureEnv true)) =
  Webhook.ServeHTTP fixtureUnmarshal
    (Webhook.NewWebhookHandler
       (hmacService "s3cret"
          (FirestoreRepository_iface (NewFirestoreRepository firestoreClient))
          SimpleLogger)
       SimpleLogger)
    Http.NewRecorder
    (fixtureRequest "POST" ["00ff"] (bodyOf "req_1" "q"))
    (afterAllow (freshWorld (fixtureEnv true))).
Proof.
  apply (handler_variants_agree fixtureUnmarshal
           (hmacService "s3cret"
              (FirestoreRepository_iface (NewFirestoreRepository firestoreClient))
              SimpleLogger)
           SimpleLogger (Function.NewRateLimiter 100 20) Http.NewRecorder
           (fixtureRequest "POST" ["00ff"] (bodyOf "req_1" "q"))
           (freshWorld (fixtureEnv true))).
  - reflexivity.
  - vm_compute. discriminate.
  - vm_compute. reflexivity.
Defined.

Section ConfigFacts.
Lemma Getenv_empty (environ : Environ) (key : string) :
  os_Getenv environ key = EmptyString <-> ~ isSet environ key.
Proof.
  unfold os_Getenv, isSet. destruct (environ !! key) as [v|]; simpl.
  - split.
    + intros -> [v' [[= <-] Hne]]. now apply Hne.
    + intros Hn. destruct (String.eqb_spec v EmptyString) as [->|Hne];
        [reflexivity|]. exfalso. apply Hn. now exists v.
  - split; [|reflexivity]. intros _ [v [Hv _]]. discriminate.
Qed.

Lemma Getenv_set (environ : Environ) (key : string) :
  os_Getenv environ key <> EmptyString <-> isSet environ key.
Proof.
  unfold os_Getenv, isSet. destruct (environ !! key) as [v|]; simpl.
  - split.
    + intros Hne. now exists v.
    + intros [v' [[= <-] Hne]]. exact Hne.
  - split; [intros H; now contradiction H|]. intros [v [Hv _]]. discriminate.
Qed.

Lemma Entry_getEnvOrDefault_spec (environ : Environ) (key defaultValue : string) :
  Entry.getEnvOrDefault environ key defaultValue =
    if String.eqb (os_Getenv environ key) EmptyString then defaultValue
    else os_Getenv environ key.
Proof.
  unfold Entry.getEnvOrDefault. cbv zeta.
  now destruct (String.eqb (os_Getenv environ key) EmptyString).
Qed.

Lemma Config_getEnvOrDefault_spec (environ : Environ) (key defaultValue : string) :
  Config.getEnvOrDefault environ key defaultValue =
    if String.eqb (os_Getenv environ key) EmptyString then defaultValue
    else os_Getenv environ key.
Proof.
  unfold Config.getEnvOrDefault. cbv zeta.
  now destruct (String.eqb (os_Getenv environ key) EmptyString).
Qed.

(** Where the secret of a configuration comes from, in both packages. *)
Lemma loadConfig_secret (environ : Environ) :
  match Entry.loadConfig environ with
  | inr cfg =>
      isSet environ "WEBHOOK_SECRET" /\
      Entry.WebhookSecret cfg = os_Getenv environ "WEBHOOK_SECRET"
  | inl err =>
      ~ isSet environ "WEBHOOK_SECRET" /\
      err = "WEBHOOK_SECRET environment variable is required"
  end.
Proof.
  unfold Entry.loadConfig. cbv zeta. simpl.
  destruct (String.eqb_spec (os_Getenv environ "WEBHOOK_SECRET") EmptyString)
    as [He|Hne].
  - split; [now apply Getenv_empty|reflexivity].
  - simpl. split; [now apply Getenv_set|reflexivity].
Qed.

Lemma LoadConfig_secret (environ : Environ) :
  match Config.LoadConfig environ with
  | inr cfg =>
      isSet environ "WEBHOOK_SECRET" /\
      isSet environ "FIREBASE_DATABASE_URL" /\
      Config.WebhookSecret cfg = os_Getenv environ "WEBHOOK_SECRET"
  | inl err =>
      ~ isSet environ "WEBHOOK_SECRET" \/ ~ isSet environ "FIREBASE_DATABASE_URL"
  end.
Proof.
  unfold Config.LoadConfig. cbv zeta. simpl.
  destruct (String.eqb_spec (os_Getenv environ "WEBHOOK_SECRET") EmptyString)
    as [He|Hne].
  { left. now apply Getenv_empty. }
  destruct (String.eqb_spec (os_Getenv environ "FIREBASE_DATABASE_URL") EmptyString)
    as [Hue|Hun].
  { right. now apply Getenv_empty. }
  simpl. split; [now apply Getenv_set|]. split; [now apply Getenv_set|reflexivity].
Qed.
End ConfigFacts.

(** X19. [loadConfig] of [function.go] succeeds exactly when
    [WEBHOOK_SECRET] is set to a non-empty value, and otherwise returns the
    error naming that variable.  A configuration it returns has that value
    as its secret, never the empty string, and an environment name that is
    never empty: the value of [ENVIRONMENT] when set and not empty, and
    [production] otherwise, a variable set to the empty string counting as
    unset. *)
Theorem loadConfig_spec (environ : Environ) :
  match Entry.loadConfig environ with
  | inr cfg =>
      isSet environ "WEBHOOK_SECRET" /\
      environ !! "WEBHOOK_SECRET" = Some (Entry.WebhookSecret cfg) /\
      Entry.WebhookSecret cfg <> EmptyString /\
      Entry.Environment cfg <> EmptyString /\
      (isSet environ "ENVIRONMENT" ->
       environ !! "ENVIRONMENT" = Some (Entry.Environment cfg)) /\
      (~ isSet environ "ENVIRONMENT" -> Entry.Environment cfg = "production")
  | inl err =>
      ~ isSet environ "WEBHOOK_SECRET" /\
      err = "WEBHOOK_SECRET environment variable is required"
  end.
Proof.
  unfold Entry.loadConfig. cbv zeta. simpl.
  destruct (String.eqb_spec (os_Getenv environ "WEBHOOK_SECRET") EmptyString)
    as [He|Hne].
  { split; [now apply Getenv_empty|reflexivity]. }
  simpl. rewrite Entry_getEnvOrDefault_spec.
  split; [now apply Getenv_set|].
  split.
  { apply Getenv_set in Hne. destruct Hne as [v [Hv _]].
    unfold os_Getenv. now rewrite Hv. }
  split; [exact Hne|].
  destruct (String.eqb_spec (os_Getenv environ "ENVIRONMENT") EmptyString)
    as [Hee|Hen].
  - split; [discriminate|]. split; [|reflexivity].
    intros Hs. apply Getenv_set in Hs. contradiction.
  - split; [exact Hen|]. split.
    + intros [v [Hv _]]. unfold os_Getenv. now rewrite Hv.
    + intros Hn. apply Getenv_empty in Hn. contradiction.
Qed.

(** X20. [LoadConfig] of [internal/config] succeeds exactly when both
    [WEBHOOK_SECRET] and [FIREBASE_DATABASE_URL] are set to non-empty
    values; when both are missing the error names the secret.  A
    configuration it returns has those values as its secret and database
    URL, neither empty; its port is the value of [PORT] when set and not
    empty and [8080] otherwise, its environment name the value of
    [ENVIRONMENT] when set and not empty and [development] otherwise,
    neither ever empty; the project id is taken as it is and may be
    empty. *)
Theorem LoadConfig_spec (environ : Environ) :
  match Config.LoadConfig environ with
  | inr cfg =>
      isSet environ "WEBHOOK_SECRET" /\
      isSet environ "FIREBASE_DATABASE_URL" /\
      Config.WebhookSecret cfg = os_Getenv environ "WEBHOOK_SECRET" /\
      Config.WebhookSecret cfg <> EmptyString /\
      Config.FirebaseDatabaseURL cfg = os_Getenv environ "FIREBASE_DATABASE_URL" /\
      Config.FirebaseDatabaseURL cfg <> EmptyString /\
      Config.FirebaseProjectID cfg = os_Getenv environ "FIREBASE_PROJECT_ID" /\
      Config.Port cfg <> EmptyString /\
      Config.Environment cfg <> EmptyString /\
      (isSet environ "PORT" -> environ !! "PORT" = Some (Config.Port cfg)) /\
      (~ isSet environ "PORT" -> Config.Port cfg = "8080") /\
      (isSet environ "ENVIRONMENT" ->
       environ !! "ENVIRONMENT" = Some (Config.Environment cfg)) /\
      (~ isSet environ "ENVIRONMENT" -> Config.Environment cfg = "development")
  | inl err =>
      (~ isSet environ "WEBHOOK_SECRET" /\
       err = "WEBHOOK_SECRET environment variable is required") \/
      (isSet environ "WEBHOOK_SECRET" /\ ~ isSet environ "FIREBASE_DATABASE_URL" /\
       err = "FIREBASE_DATABASE_URL environment variable is required")
  end.
Proof.
  unfold Config.LoadConfig. cbv zeta. simpl.
  destruct (String.eqb_spec (os_Getenv environ "WEBHOOK_SECRET") EmptyString)
    as [He|Hne].
  { left. split; [now apply Getenv_empty|reflexivity]. }
  destruct (String.eqb_spec (os_Getenv environ "FIREBASE_DATABASE_URL") EmptyString)
    as [Hue|Hun].
  { right. split; [now apply Getenv_set|]. split; [now apply Getenv_empty|reflexivity]. }
  simpl. rewrite !Config_getEnvOrDefault_spec.
  split; [now apply Getenv_set|]. split; [now apply Getenv_set|].
  split; [reflexivity|]. split; [exact Hne|].
  split; [reflexivity|]. split; [exact Hun|].
  split; [reflexivity|].
  assert (Hget : forall key : string,
            isSet environ key -> environ !! key = Some (os_Getenv environ key)).
  { intros key [v [Hv _]]. unfold os_Getenv. now rewrite Hv. }
  destruct (String.eqb_spec (os_Getenv environ "PORT") EmptyString) as [Hp|Hp];
    destruct (String.eqb_spec (os_Getenv environ "ENVIRONMENT") EmptyString)
      as [Hv|Hv];
    repeat apply conj; try discriminate; try assumption; try reflexivity;
    try exact (Hget _);
    intros Hn;
    try (apply Getenv_empty in Hn; contradiction);
    apply Getenv_set in Hn; contradiction.
Qed.

(** X21. The start of [function.go] ([init] and [initializeHandler]) is
    [Ready] exactly when [WEBHOOK_SECRET] is set and not empty and the
    Firebase SDK hands out its app and its Firestore client; the checks run
    in that order and the first to fail ends the process.  A ready start
    yields the rate-limited handler over the HMAC validator keyed with that
    secret, the Firestore writer and the standard logger.  Either way the
    start writes one log line and touches neither the database nor the
    limiter.  Until a handler is there, [AnalyticsWebhook] answers 500 and
    changes nothing. *)
Theorem function_start
    (json_Unmarshal : list byte -> WebhookPayload -> WebhookPayload * option error)
    (environ : Environ) (p : Platform) (r : Http.Request) (w : World) :
  let out := Entry.init environ p w in
  match fst out with
  | Ready h =>
      isSet environ "WEBHOOK_SECRET" /\ newAppErr p = None /\ firestoreErr p = None /\
      h = firestoreHandler (os_Getenv environ "WEBHOOK_SECRET")
  | Fatal line =>
      (~ isSet environ "WEBHOOK_SECRET" /\
       line = "Failed to load config: WEBHOOK_SECRET environment variable is required") \/
      (isSet environ "WEBHOOK_SECRET" /\
       exists err : error,
         (newAppErr p = Some err /\
          line = ("Failed to initialize Firebase: " ++ err)%string) \/
         (newAppErr p = None /\ firestoreErr p = Some err /\
          line = ("Failed to get Firestore client: " ++ err)%string))
  end /\
  length (logLines (snd out)) = S (length (logLines w)) /\
  firestoreDocs (snd out) = firestoreDocs w /\
  setCalls (snd out) = setCalls w /\
  limiterCalls (snd out) = limiterCalls w /\
  Entry.AnalyticsWebhook json_Unmarshal None Http.NewRecorder r w =
    (Http.Error Http.NewRecorder "Handler not initialized" 500, w).
Proof.
  cbv zeta. unfold Entry.init.
  pose proof (loadConfig_secret environ) as Hcfg.
  destruct (Entry.loadConfig environ) as [err|cfg].
  { destruct Hcfg as [Hn ->]. simpl.
    split; [left; split; [exact Hn|reflexivity]|].
    repeat apply conj; try reflexivity. rewrite length_app. simpl. lia. }
  destruct Hcfg as [Hs Hsecret].
  unfold Entry.initializeHandler.
  destruct (newAppErr p) as [e1|].
  { simpl. split; [right; split; [exact Hs|]; exists e1; left; auto|].
    repeat apply conj; try reflexivity. rewrite length_app. simpl. lia. }
  destruct (firestoreErr p) as [e2|].
  { simpl. split; [right; split; [exact Hs|]; exists e2; right; auto|].
    repeat apply conj; try reflexivity. rewrite length_app. simpl. lia. }
  simpl. rewrite <- Hsecret.
  split; [repeat apply conj; auto|].
  repeat apply conj; try reflexivity. rewrite length_app. simpl. lia.
Qed.

(** X22. The start of package [main] is [Ready] exactly when
    [WEBHOOK_SECRET] and [FIREBASE_DATABASE_URL] are set and not empty and
    the SDK hands out its app and its database client.  A ready start
    yields the handler of [internal/handlers] over the HMAC service keyed
    with that secret and the Realtime Database writer.  Either way one log
    line is written and no database is touched. *)
Theorem main_start
    (json_Unmarshal : list byte -> WebhookPayload -> WebhookPayload * option error)
    (environ : Environ) (p : Platform) (w : World) :
  let out := Main.init json_Unmarshal environ p w in
  match fst out with
  | Ready h =>
      isSet environ "WEBHOOK_SECRET" /\ isSet environ "FIREBASE_DATABASE_URL" /\
      newAppErr p = None /\ databaseErr p = None /\
      h = firebaseHandler json_Unmarshal (os_Getenv environ "WEBHOOK_SECRET")
  | Fatal line =>
      ~ isSet environ "WEBHOOK_SECRET" \/
      ~ isSet environ "FIREBASE_DATABASE_URL" \/
      newAppErr p <> None \/ databaseErr p <> None
  end /\
  length (logLines (snd out)) = S (length (logLines w)) /\
  firestoreDocs (snd out) = firestoreDocs w /\
  rtdb (snd out) = rtdb w /\
  pushCalls (snd out) = pushCalls w.
Proof.
  cbv zeta. unfold Main.init.
  pose proof (LoadConfig_secret environ) as Hcfg.
  destruct (Config.LoadConfig environ) as [err|cfg].
  { simpl. split.
    - destruct Hcfg as [Hn|Hn]; auto.
    - repeat apply conj; try reflexivity. rewrite length_app. simpl. lia. }
  destruct Hcfg as [Hs [Hu Hv]].
  unfold Main.initializeHandler.
  destruct (newAppErr p) as [e1|].
  { simpl. split; [right; right; left; discriminate|].
    repeat apply conj; try reflexivity. rewrite length_app. simpl. lia. }
  destruct (databaseErr p) as [e2|].
  { simpl. split; [right; right; right; discriminate|].
    repeat apply conj; try reflexivity. rewrite length_app. simpl. lia. }
  simpl. rewrite Hv.
  split; [repeat apply conj; auto|].
  repeat apply conj; try reflexivity. rewrite length_app. simpl. lia.
Qed.

Section ReplayFacts.
Variable json_Unmarshal :
  list byte -> WebhookPayload -> WebhookPayload * option error.

Lemma authentic_parts (K : string) (r : Http.Request) :
  authentic json_Unmarshal K r = true ->
  Http.Method r = "POST" /\ snd (Http.Body r) = None /\
  signatureHeader r <> EmptyString /\
  Strings.TrimPrefix (signatureHeader r) "sha256=" = hmacHex K (fst (Http.Body r)) /\
  snd (json_Unmarshal (fst (Http.Body r)) zeroWebhookPayload) = None /\
  validateAnalyticsRecord (carried json_Unmarshal r) = None.
Proof.
  unfold authentic, wellFormed, carried. intros H.
  repeat (apply andb_true_iff in H as [H ?]).
  repeat apply conj.
  - now apply String.eqb_eq.
  - now destruct (snd (Http.Body r)).
  - apply String.eqb_neq. now apply negb_true_iff.
  - now apply String.eqb_eq.
  - now destruct (snd (json_Unmarshal _ _)).
  - now destruct (validateAnalyticsRecord _).
Qed.

Lemma firebase_Process_signed (K : string) (fb : FirebaseRepository)
    (payload : list byte) (wp : WebhookPayload) (w : World) :
  json_Unmarshal payload zeroWebhookPayload = (wp, None) ->
  validateAnalyticsRecord (Data wp) = None ->
  let out := WebhookService_Process json_Unmarshal
               (hmacService K (FirebaseRepository_iface fb) SimpleLogger)
               payload (hmacHex K payload) w in
  liveChildren (snd out) = liveChildren (snd (FirebaseRepository_Write fb (Data wp) w)) /\
  env (snd out) = env w /\
  pushCalls (snd out) = S (pushCalls w) /\
  clockReads (snd out) = S (clockReads w) /\
  firestoreDocs (snd out) = firestoreDocs w /\
  (fst out = None <-> exists key, pushAt (env w) (pushCalls w) = inr key).
Proof.
  intros Hdec Hval. cbv zeta.
  rewrite Process_signed_run. unfold afterValidate. cbv zeta.
  rewrite Hdec. simpl. rewrite Hval.
  rewrite Firebase_Write_run. cbv zeta.
  destruct (pushAt (env w) (pushCalls w)) as [e|key]; simpl;
    repeat apply conj; try reflexivity.
  - discriminate.
  - intros [key Hk]. discriminate.
  - eauto.
Qed.
End ReplayFacts.

(** X23. Replaying a request against the deployed handler is idempotent in
    the database: when the same authentic request is served twice, both
    times let through by the limiter and the second write accepted, two
    [Set] calls are made but the [analytics] collection ends as one write of
    the record would leave it, with the document under the [requestId]
    stamped by the second clock reading, and at most one document more than
    before. *)
Theorem deployed_replay_is_idempotent
    (json_Unmarshal : list byte -> WebhookPayload -> WebhookPayload * option error)
    (K : string) (wtr wtr' : Http.ResponseWriter) (r : Http.Request) (w : World) :
  authentic json_Unmarshal K r = true ->
  allowAt (env w) (limiterCalls w) = true ->
  allowAt (env w) (S (limiterCalls w)) = true ->
  setErrAt (env w) (S (length (setCalls w))) = None ->
  let w1 := snd (Function.ServeHTTP json_Unmarshal (firestoreHandler K) wtr r w) in
  let w2 := snd (Function.ServeHTTP json_Unmarshal (firestoreHandler K) wtr' r w1) in
  let record := carried json_Unmarshal r in
  analyticsDocs w2 =
    <[RequestID record :=
        recordData record (Unix (clockAt (env w) (S (clockReads w))))]>
      (analyticsDocs w) /\
  length (setCalls w2) = S (S (length (setCalls w))) /\
  (size (analyticsDocs w2) <= S (size (analyticsDocs w)))%nat.
Proof.
  intros Hauth Ha1 Ha2 Hset w1 w2 record.
  destruct (firestore_ServeHTTP_effects json_Unmarshal K wtr r w)
    as [E1 [E2 [_ [_ [E5 [E6 [E7 _]]]]]]].
  fold w1 in E1, E2, E5, E6, E7.
  rewrite Ha1, Hauth in E5, E6, E7. simpl in E5, E6, E7.
  destruct (firestore_ServeHTTP_effects json_Unmarshal K wtr' r w1)
    as [_ [_ [_ [_ [_ [F6 [F7 _]]]]]]].
  fold w2 in F6, F7.
  rewrite E1, E2, E5, E6, Ha2, Hauth in F6, F7. simpl in F6, F7.
  rewrite length_app, Nat.add_1_r, Hset in F7. simpl in F7.
  fold record in E7, F6, F7.
  assert (Hdocs : analyticsDocs w2 =
    <[RequestID record :=
        recordData record (Unix (clockAt (env w) (S (clockReads w))))]>
      (analyticsDocs w)).
  { unfold analyticsDocs at 1. rewrite F7, lookup_insert_eq. simpl.
    unfold analyticsDocs at 1. rewrite E7.
    destruct (setErrAt (env w) (length (setCalls w))); simpl; [reflexivity|].
    rewrite lookup_insert_eq. simpl. apply insert_insert_eq. }
  split; [exact Hdocs|]. split.
  - rewrite F6, !length_app. simpl. lia.
  - rewrite Hdocs, map_size_insert.
    destruct (analyticsDocs w !! RequestID record); simpl; lia.
Qed.

Lemma deployed_replay_is_idempotent_witness :
  size (analyticsDocs
          (snd (Function.ServeHTTP fixtureUnmarshal (firestoreHandler "s3cret")
                  Http.NewRecorder
                  (fixtureRequest "POST"
                     [hmacHex "s3cret" (Bytes.of_string (bodyOf "req_1" "q"))]
                     (bodyOf "req_1" "q"))
                  (snd (Function.ServeHTTP fixtureUnmarshal
                          (firestoreHandler "s3cret") Http.NewRecorder
                          (fixtureRequest "POST"
                             [hmacHex "s3cret" (Bytes.of_string (bodyOf "req_1" "q"))]
                             (bodyOf "req_1" "q"))
                          (freshWorld (fixtureEnv true))))))) <= 1.
Proof.
  apply (deployed_replay_is_idempotent fixtureUnmarshal "s3cret"
           Http.NewRecorder Http.NewRecorder
           (fixtureRequest "POST"
              [hmacHex "s3cret" (Bytes.of_string (bodyOf "req_1" "q"))]
              (bodyOf "req_1" "q"))
           (freshWorld (fixtureEnv true))).
  - vm_compute. reflexivity.
  - reflexivity.
  - reflexivity.
  - reflexivity.
Defined.

(** X24. Replaying a request against the handler package [main]
    assembles duplicates the record: when the same correctly signed, valid
    request is served twice and both pushes are accepted, [analytics/live]
    gains two children, under the two generated keys, both carrying the
    request's [requestId]; both answers are 200. *)
Theorem main_replay_duplicates
    (json_Unmarshal : list byte -> WebhookPayload -> WebhookPayload * option error)
    (K : string) (r : Http.Request) (body : list byte) (wp : WebhookPayload)
    (key1 key2 : string) (w : World) :
  Http.Method r = "POST" ->
  Http.Body r = (body, None) ->
  signatureHeader r = hmacHex K body ->
  json_Unmarshal body zeroWebhookPayload = (wp, None) ->
  validateAnalyticsRecord (Data wp) = None ->
  pushAt (env w) (pushCalls w) = inr key1 ->
  pushAt (env w) (S (pushCalls w)) = inr key2 ->
  let out1 := Handlers.ServeHTTP (firebaseHandler json_Unmarshal K)
                Http.NewRecorder r w in
  let out2 := Handlers.ServeHTTP (firebaseHandler json_Unmarshal K)
                Http.NewRecorder r (snd out1) in
  Http.Code (fst out1) = 200%Z /\ Http.Code (fst out2) = 200%Z /\
  exists first second : Document,
    liveChildren (snd out2) = liveChildren w ++ [(key1, first); (key2, second)] /\
    first !! "requestId" = Some (VString (RequestID (Data wp))) /\
    second !! "requestId" = Some (VString (RequestID (Data wp))).
Proof.
  intros Hm Hb Hsig Hdec Hval Hk1 Hk2 out1 out2.
  assert (Hne : signatureHeader r <> EmptyString).
  { rewrite Hsig. intros He. apply (f_equal String.length) in He.
    rewrite hmacHex_length in He. discriminate. }
  assert (Hrun : forall v : World,
    Handlers.ServeHTTP (firebaseHandler json_Unmarshal K) Http.NewRecorder r v =
      respond SimpleLogger Http.NewRecorder
        (WebhookService_Process json_Unmarshal
           (hmacService K (FirebaseRepository_iface (NewFirebaseRepository dbClient))
              SimpleLogger)
           body (hmacHex K body) v)).
  { intros v. rewrite Handlers_ServeHTTP_cases, Hm, Hb.
    apply String.eqb_neq in Hne. rewrite Hne, Hsig. reflexivity. }
  pose proof (firebase_Process_signed json_Unmarshal K (NewFirebaseRepository dbClient)
                body wp w Hdec Hval) as A.
  cbv zeta in A.
  assert (Ho1 : exists w1 : World,
            out1 = (acknowledged Http.NewRecorder, w1) /\
            liveChildren w1 =
              liveChildren (snd (FirebaseRepository_Write
                                   (NewFirebaseRepository dbClient) (Data wp) w)) /\
            env w1 = env w /\ pushCalls w1 = S (pushCalls w) /\
            clockReads w1 = S (clockReads w)).
  { unfold out1. rewrite Hrun.
    destruct (WebhookService_Process json_Unmarshal _ body (hmacHex K body) w)
      as [res1 w1].
    cbn [fst snd] in A. destruct A as [A1 [A2 [A3 [A4 [_ A6]]]]].
    assert (Hr : res1 = None) by (apply A6; eauto). subst res1.
    exists w1. repeat apply conj; try assumption. reflexivity. }
  destruct Ho1 as [w1 [Ho1 [A1 [A2 [A3 A4]]]]].
  pose proof (firebase_Process_signed json_Unmarshal K (NewFirebaseRepository dbClient)
                body wp w1 Hdec Hval) as B.
  cbv zeta in B.
  assert (Ho2 : exists w2 : World,
            out2 = (acknowledged Http.NewRecorder, w2) /\
            liveChildren w2 =
              liveChildren (snd (FirebaseRepository_Write
                                   (NewFirebaseRepository dbClient) (Data wp) w1))).
  { unfold out2. rewrite Ho1. cbn [snd]. rewrite Hrun.
    destruct (WebhookService_Process json_Unmarshal _ body (hmacHex K body) w1)
      as [res2 w2].
    cbn [fst snd] in B. destruct B as [B1 [_ [_ [_ [_ B6]]]]].
    assert (Hr : res2 = None).
    { apply B6. exists key2. rewrite A2, A3. exact Hk2. }
    subst res2. exists w2. split; [reflexivity|exact B1]. }
  destruct Ho2 as [w2 [Ho2 B1]].
  rewrite Ho1, Ho2. cbn [fst snd].
  split; [reflexivity|]. split; [reflexivity|].
  exists (recordData (Data wp) (UnixMilli (clockAt (env w) (clockReads w)))),
         (recordData (Data wp) (UnixMilli (clockAt (env w) (S (clockReads w))))).
  split.
  - rewrite B1, Firebase_Write_children, A2, A3, A4, Hk2, A1.
    rewrite Firebase_Write_children, Hk1, <- app_assoc. reflexivity.
  - split; apply recordData_requestId.
Qed.

Lemma main_replay_duplicates_witness :
  Http.Code
    (fst (Handlers.ServeHTTP (firebaseHandler fixtureUnmarshal "s3cret")
            Http.NewRecorder
            (fixtureRequest "POST"
               [hmacHex "s3cret" (Bytes.of_string (bodyOf "req_1" "q"))]
               (bodyOf "req_1" "q"))
            (freshWorld (fixtureEnv true)))) = 200%Z.
Proof.
  destruct (main_replay_duplicates fixtureUnmarshal "s3cret"
           (fixtureRequest "POST"
              [hmacHex "s3cret" (Bytes.of_string (bodyOf "req_1" "q"))]
              (bodyOf "req_1" "q"))
           (Bytes.of_string (bodyOf "req_1" "q"))
           {| EventType := "x"; EnvelopeTimestamp := 1700000000;
              Data := recordOf "req_1" "q" 1700000000 |}
           "-NxK3dQ0aB1cD2eF3gH4" "-NxK3dQ0aB1cD2eF3gH5"
           (freshWorld (fixtureEnv true))) as [Hcode _].
  - reflexivity.
  - reflexivity.
  - vm_compute. reflexivity.
  - vm_compute. reflexivity.
  - reflexivity.
  - reflexivity.
  - reflexivity.
  - exact Hcode.
Defined.

(** X25. The deployed handler accepts both documented forms of the
    signature header: for a POST the limiter lets through, whose body is
    read and decodes to a record with its required fields, and whose
    signature header is the HMAC of the body either bare or behind
    [sha256=], the answer is 200 with the acknowledgment body when the
    backend accepts the write, and the record's document is then stored
    under its [requestId]. *)
Theorem deployed_accepts_both_signature_forms
    (json_Unmarshal : list byte -> WebhookPayload -> WebhookPayload * option error)
    (K : string) (r : Http.Request) (body : list byte) (wp : WebhookPayload)
    (w : World) :
  Http.Method r = "POST" ->
  Http.Body r = (body, None) ->
  signatureHeader r = hmacHex K body \/
    signatureHeader r = ("sha256=" ++ hmacHex K body)%string ->
  json_Unmarshal body zeroWebhookPayload = (wp, None) ->
  validateAnalyticsRecord (Data wp) = None ->
  allowAt (env w) (limiterCalls w) = true ->
  setErrAt (env w) (length (setCalls w)) = None ->
  let out := Function.ServeHTTP json_Unmarshal (firestoreHandler K)
               Http.NewRecorder r w in
  Http.Code (fst out) = 200%Z /\
  Http.BodyString (fst out) = ackBody /\
  analyticsDocs (snd out) !! RequestID (Data wp) =
    Some (recordData (Data wp) (Unix (clockAt (env w) (clockReads w)))).
Proof.
  intros Hm Hb Hsig Hdec Hval Hallow Hset out.
  assert (Htrim : Strings.TrimPrefix (signatureHeader r) "sha256=" = hmacHex K body).
  { destruct Hsig as [-> | ->]; [|apply TrimPrefix_app].
    unfold Strings.TrimPrefix.
    now rewrite (HasPrefix_sha256_hex _ (hmacHex_lowercase K body)). }
  assert (Hne : String.eqb (signatureHeader r) EmptyString = false).
  { apply String.eqb_neq. intros He.
    destruct Hsig as [Hs|Hs]; rewrite Hs in He;
      apply (f_equal String.length) in He; [|discriminate].
    rewrite hmacHex_length in He. discriminate. }
  assert (Hauth : authentic json_Unmarshal K r = true).
  { unfold authentic, wellFormed. rewrite Htrim, Hm, Hb, Hne. cbn [fst snd].
    rewrite Hdec. cbn [fst snd]. rewrite Hval, !String.eqb_refl. reflexivity. }
  assert (Hcar : carried json_Unmarshal r = Data wp).
  { unfold carried. rewrite Hb. cbn [fst]. rewrite Hdec. reflexivity. }
  destruct (firestore_ServeHTTP_effects json_Unmarshal K Http.NewRecorder r w)
    as [_ [_ [_ [_ [_ [_ [E7 E8]]]]]]].
  fold out in E7, E8.
  rewrite Hallow, Hauth, Hset, Hcar in E7.
  rewrite Hallow, Hauth, Hset, Hm, Hb, Hne in E8.
  cbn [andb negb isNil fst snd] in E7, E8.
  rewrite String.eqb_refl in E8. cbn [negb] in E8.
  rewrite E8. split; [reflexivity|]. split; [reflexivity|].
  unfold analyticsDocs at 1. rewrite E7, lookup_insert_eq. cbn.
  apply lookup_insert_eq.
Qed.

Lemma deployed_accepts_both_signature_forms_witness :
  Http.Code
    (fst (Function.ServeHTTP fixtureUnmarshal (firestoreHandler "s3cret")
            Http.NewRecorder
            (fixtureRequest "POST"
               [("sha256=" ++ hmacHex "s3cret" (Bytes.of_string (bodyOf "req_1" "q")))%string]
               (bodyOf "req_1" "q"))
            (freshWorld (fixtureEnv true)))) = 200%Z.
Proof.
  destruct (deployed_accepts_both_signature_forms fixtureUnmarshal "s3cret"
              (fixtureRequest "POST"
                 [("sha256=" ++ hmacHex "s3cret" (Bytes.of_string (bodyOf "req_1" "q")))%string]
                 (bodyOf "req_1" "q"))
              (Bytes.of_string (bodyOf "req_1" "q"))
              {| EventType := "x"; EnvelopeTimestamp := 1700000000;
                 Data := recordOf "req_1" "q" 1700000000 |}
              (freshWorld (fixtureEnv true))) as [Hcode _].
  - reflexivity.
  - reflexivity.
  - right. vm_compute. reflexivity.
  - vm_compute. reflexivity.
  - reflexivity.
  - reflexivity.
  - reflexivity.
  - exact Hcode.
Defined.

(** X26. [Process] reads nothing of the envelope but its [data]: two
    decodings of a payload that agree on the embedded record and on the
    error give the same result and the same world, whatever [eventType] and
    the envelope's [timestamp] are. *)
Theorem Process_ignores_envelope
    (decodeA decodeB : list byte -> WebhookPayload -> WebhookPayload * option error)
    (s : WebhookService) (payload : list byte) (signature : string) (w : World) :
  Data (fst (decodeA payload zeroWebhookPayload)) =
    Data (fst (decodeB payload zeroWebhookPayload)) ->
  snd (decodeA payload zeroWebhookPayload) =
    snd (decodeB payload zeroWebhookPayload) ->
  WebhookService_Process decodeA s payload signature w =
    WebhookService_Process decodeB s payload signature w.
Proof.
  intros Hd He. rewrite !Process_run. unfold afterValidate. cbv zeta.
  now rewrite Hd, He.
Qed.

Lemma Process_ignores_envelope_witness :
  WebhookService_Process fixtureUnmarshal
    (hmacService "s3cret"
       (FirestoreRepository_iface (NewFirestoreRepository firestoreClient))
       SimpleLogger)
    (Bytes.of_string (bodyOf "req_1" "q")) "00ff" (freshWorld (fixtureEnv true)) =
  WebhookService_Process relabelledUnmarshal
    (hmacService "s3cret"
       (FirestoreRepository_iface (NewFirestoreRepository firestoreClient))
       SimpleLogger)
    (Bytes.of_string (bodyOf "req_1" "q")) "00ff" (freshWorld (fixtureEnv true)).
Proof.
  apply (Process_ignores_envelope fixtureUnmarshal relabelledUnmarshal).
  - vm_compute. reflexivity.
  - vm_compute. reflexivity.
Defined.
